(** * FLIPBOOK: the annotation viewer and the page flipper

    A shallow embedding of [static/flipbook-viewer.js].  The file holds two
    programs: the Turn.js based viewer with its notes and highlights (the
    module-level variables [currentMode], [currentHighlightColor],
    [allNotes], [allHighlights] and the handlers registered in
    [$(document).ready]), and the self-contained [Flipbook] class.

    JavaScript numbers are IEEE-754 binary64 values; they are modelled by
    [spec_float] with the binary64 parameters, so that every arithmetic step
    rounds as it does in the browser.  The browser, the network and the user
    are the environment: what they hand to a handler (pointer positions,
    layout boxes, the answer to a dialog, the settlement of a [fetch]) is an
    argument of that handler, and what a handler does to them (dialogs,
    console output, requests) is appended to an effect trace.  A handler
    that waits for a response is cut in two: the part that runs up to the
    [fetch], and the promise chain that runs when the response settles.

    Left out, because they neither read nor write the annotations: the
    lazy loading of the page images and its error display, the page-turn
    sound, the page range display, fullscreen, the warm mode, and the
    swipe and keyboard navigation of the viewer, whose only effect is to
    make Turn.js raise the [turning] and [turned] events modelled below. *)

From Stdlib Require Import ZArith Lia SpecFloat.
From stdpp Require Import base option list gmap strings pretty.

(** ** JavaScript numbers *)

Module JsNum.
Definition prec : Z := 53.
Definition emax : Z := 1024.

Definition number : Type := spec_float.

#[global] Instance spec_float_eq_dec : EqDecision spec_float.
Proof. solve_decision. Defined.

(** An integer literal, or an integer-valued quantity such as a pixel
    count, as the nearest binary64 value. *)
Definition of_Z (z : Z) : number := binary_normalize prec emax z 0 false.

Definition sub : number → number → number := SFsub prec emax.
Definition mul : number → number → number := SFmul prec emax.
Definition div : number → number → number := SFdiv prec emax.

(** [a > b] and [a <= b]; both are false when an operand is NaN. *)
Definition gtb (a b : number) : bool := SFltb b a.
Definition leb (a b : number) : bool := SFleb a b.

(** Neither NaN nor an infinity. *)
Definition is_finite (a : number) : bool :=
  match a with
  | S754_zero _ | S754_finite _ _ _ => true
  | _ => false
  end.

Definition Math_abs : number → number := SFabs.

(** [Math.min] of two arguments: NaN if either is NaN, [-0] is below
    [+0], otherwise the second argument replaces the first only when it
    is strictly smaller. *)
Definition Math_min (a b : number) : number :=
  match a, b with
  | S754_nan, _ | _, S754_nan => S754_nan
  | S754_zero false, S754_zero true => b
  | _, _ => if SFltb b a then b else a
  end.
End JsNum.

(** ** The annotation viewer *)

Module Viewer.
Import JsNum.

(** *** Data model *)

Record Note := mkNote {
  n_id : Z;
  n_page_number : Z;
  n_content : string;
  n_x : number;
  n_y : number
}.

Record Coordinates := mkCoordinates {
  c_x : number;
  c_y : number;
  c_w : number;
  c_h : number
}.

(** [h_color] is [None] when the property is missing or [null]. *)
Record Highlight := mkHighlight {
  h_id : Z;
  h_page_number : Z;
  h_coordinates : Coordinates;
  h_color : option string
}.

(** The children a handler can put into a page's [.annotations-layer].
    [el] is the identity of the DOM node; the other arguments are the
    attributes the template literal interpolates. *)
Record PixelBox := mkPixelBox {
  px_left : number;
  px_top : number;
  px_width : number;
  px_height : number
}.

Inductive Element :=
| NoteMarker (el : nat) (left top : number) (title : string) (delete_id : Z)
| HighlightMarker (el : nat) (colorClass : string) (rect : Coordinates) (delete_id : Z)
| HighlightPreview (el : nat) (background border : string) (css : option PixelBox).

Definition element_id (c : Element) : nat :=
  match c with
  | NoteMarker el _ _ _ _ | HighlightMarker el _ _ _ | HighlightPreview el _ _ _ => el
  end.

(** Matches the selector ['.note-marker, .highlight-marker']. *)
Definition is_marker (c : Element) : bool :=
  match c with
  | NoteMarker _ _ _ _ _ | HighlightMarker _ _ _ _ => true
  | HighlightPreview _ _ _ _ => false
  end.

Definition is_note_marker (c : Element) : bool :=
  match c with NoteMarker _ _ _ _ _ => true | _ => false end.

Definition is_highlight_marker (c : Element) : bool :=
  match c with HighlightMarker _ _ _ _ => true | _ => false end.

Definition is_preview (c : Element) : bool :=
  match c with HighlightPreview _ _ _ _ => true | _ => false end.

(** *** The environment *)

(** The remote API of the viewer. *)
Inductive Request :=
| GET_notes
| GET_highlights
| POST_note (page_number : Z) (content : string) (x y : number)
| POST_highlight (page_number : Z) (coordinates : Coordinates) (color : string)
| DELETE_note (id : Z)
| DELETE_highlight (id : Z).

Inductive Effect :=
| Prompt (msg : string) (answer : option string)
| Confirm (msg : string) (answer : bool)
| Alert (msg : string)
| ConsoleError (label err : string)
| Fetch (req : Request).

(** The JSON body [d] of a create or delete response; [reply_id] is read
    only under [success]. *)
Record Reply := mkReply {
  success : bool;
  reply_id : Z;
  error : option string
}.

(** The JSON body of a collection response, as far as [Array.isArray]
    tells. *)
Inductive Json (A : Type) :=
| JArray (items : list A)
| JOther.
Arguments JArray {A} items.
Arguments JOther {A}.

(** A settled promise.  [fetch(..).then(r => r.json())] is [Rejected] on
    a transport failure or a body that is not JSON. *)
Inductive Promise (A : Type) :=
| Fulfilled (value : A)
| Rejected (err : string).
Arguments Fulfilled {A} value.
Arguments Rejected {A} err.

(** A pointer event: the mouse fields, and for touch events the first
    entry of [touches] and of [changedTouches]. *)
Record PointerEvent := mkPointerEvent {
  e_touch : bool;
  e_clientX : number;
  e_clientY : number;
  e_pageX : number;
  e_pageY : number;
  e_touches0 : number * number;
  e_changedTouches0 : number * number;
  e_on_delete : bool
}.

(** Layout of an annotations layer: [$layer.offset()], [$layer.width()],
    [$layer.height()]. *)
Record LayerBox := mkLayerBox {
  offset_left : number;
  offset_top : number;
  layer_width : number;
  layer_height : number
}.

(** *** Program state *)

Record DragStart := mkDragStart {
  hs_x : number;
  hs_y : number;
  hs_pageNum : Z;
  hs_offset : number * number
}.

(** What [setMode] and [setHighlightColor] leave on the toolbar: the
    active styling of the two mode buttons, the visibility of the colour
    picker, the cursor of the body, and the colour button that carries
    the ring. *)
Record Toolbar := mkToolbar {
  noteBtnActive : bool;
  highlightBtnActive : bool;
  colorPickerVisible : bool;
  cursor : string;
  ringedColor : option string
}.

(** The join of [Promise.all] over the two collection requests. *)
Record PromiseAll := mkPromiseAll {
  pa_notes : option (Json Note);
  pa_highlights : option (Json Highlight);
  pa_settled : bool
}.

(** [pages] maps the [data-page] of each [.page] of the flipbook to the
    children of its annotations layer; [fresh] numbers the DOM nodes the
    handlers create. *)
Record State := mkState {
  currentMode : option string;
  currentHighlightColor : string;
  allNotes : list Note;
  allHighlights : list Highlight;
  pages : gmap Z (list Element);
  fresh : nat;
  highlightStart : option DragStart;
  highlightPreview : option nat;
  toolbar : Toolbar;
  preloadJoin : PromiseAll;
  trace : list Effect
}.

Definition set_currentMode (v : option string) (s : State) : State :=
  mkState v (currentHighlightColor s) (allNotes s) (allHighlights s) (pages s)
    (fresh s) (highlightStart s) (highlightPreview s) (toolbar s)
    (preloadJoin s) (trace s).
Definition set_currentHighlightColor (v : string) (s : State) : State :=
  mkState (currentMode s) v (allNotes s) (allHighlights s) (pages s)
    (fresh s) (highlightStart s) (highlightPreview s) (toolbar s)
    (preloadJoin s) (trace s).
Definition set_allNotes (v : list Note) (s : State) : State :=
  mkState (currentMode s) (currentHighlightColor s) v (allHighlights s) (pages s)
    (fresh s) (highlightStart s) (highlightPreview s) (toolbar s)
    (preloadJoin s) (trace s).
Definition set_allHighlights (v : list Highlight) (s : State) : State :=
  mkState (currentMode s) (currentHighlightColor s) (allNotes s) v (pages s)
    (fresh s) (highlightStart s) (highlightPreview s) (toolbar s)
    (preloadJoin s) (trace s).
Definition set_pages (v : gmap Z (list Element)) (s : State) : State :=
  mkState (currentMode s) (currentHighlightColor s) (allNotes s) (allHighlights s) v
    (fresh s) (highlightStart s) (highlightPreview s) (toolbar s)
    (preloadJoin s) (trace s).
Definition set_fresh (v : nat) (s : State) : State :=
  mkState (currentMode s) (currentHighlightColor s) (allNotes s) (allHighlights s) (pages s)
    v (highlightStart s) (highlightPreview s) (toolbar s)
    (preloadJoin s) (trace s).
Definition set_highlightStart (v : option DragStart) (s : State) : State :=
  mkState (currentMode s) (currentHighlightColor s) (allNotes s) (allHighlights s) (pages s)
    (fresh s) v (highlightPreview s) (toolbar s)
    (preloadJoin s) (trace s).
Definition set_highlightPreview (v : option nat) (s : State) : State :=
  mkState (currentMode s) (currentHighlightColor s) (allNotes s) (allHighlights s) (pages s)
    (fresh s) (highlightStart s) v (toolbar s)
    (preloadJoin s) (trace s).
Definition set_toolbar (v : Toolbar) (s : State) : State :=
  mkState (currentMode s) (currentHighlightColor s) (allNotes s) (allHighlights s) (pages s)
    (fresh s) (highlightStart s) (highlightPreview s) v
    (preloadJoin s) (trace s).
Definition set_preloadJoin (v : PromiseAll) (s : State) : State :=
  mkState (currentMode s) (currentHighlightColor s) (allNotes s) (allHighlights s) (pages s)
    (fresh s) (highlightStart s) (highlightPreview s) (toolbar s)
    v (trace s).
Definition set_trace (v : list Effect) (s : State) : State :=
  mkState (currentMode s) (currentHighlightColor s) (allNotes s) (allHighlights s) (pages s)
    (fresh s) (highlightStart s) (highlightPreview s) (toolbar s)
    (preloadJoin s) v.

Definition emit (e : Effect) (s : State) : State := set_trace (trace s ++ [e]) s.
Definition alert (msg : string) : State → State := emit (Alert msg).

(** *** JavaScript idioms *)

(** Truthiness of a value that is a string, [null] or [undefined]. *)
Definition truthy (v : option string) : bool :=
  match v with
  | Some s => negb (String.eqb s "")
  | None => false
  end.

(** [v || dflt] on such a value. *)
Definition or_else (v : option string) (dflt : string) : string :=
  match v with
  | Some s => if String.eqb s "" then dflt else s
  | None => dflt
  end.

(** [Array.isArray(v) ? v : []]. *)
Definition array_or_empty {A} (v : Json A) : list A :=
  match v with
  | JArray items => items
  | JOther => []
  end.

(** A promise reaction: a callback run in some state, which returns or
    throws. *)
Definition Reaction (A B : Type) : Type := A → State → State * Promise B.

Definition then_ {A B} (p : State * Promise A) (f : Reaction A B) : State * Promise B :=
  match p with
  | (s, Fulfilled a) => f a s
  | (s, Rejected err) => (s, Rejected err)
  end.

Definition catch_ {A} (p : State * Promise A) (f : Reaction string A) : State * Promise A :=
  match p with
  | (s, Fulfilled a) => (s, Fulfilled a)
  | (s, Rejected err) => f err s
  end.

(** A callback that runs to its end and returns [undefined]. *)
Definition returns (s : State) : State * Promise unit := (s, Fulfilled ()).

(** *** Text in the markup *)

(** The characters that do not stand for themselves between the double
    quotes of an attribute value of an HTML string handed to jQuery: the
    double quote (34), the ampersand (38), the angle brackets (60, 62),
    NUL (0) and the carriage return (13). *)
Definition markup_chars : list Ascii.ascii :=
  Ascii.ascii_of_nat <$> [34; 38; 60; 62; 0; 13].

(** Space, tab, line feed and form feed. *)
Definition space_chars : list Ascii.ascii :=
  Ascii.ascii_of_nat <$> [32; 9; 10; 12].

(** A string without such characters. *)
Fixpoint plain (s : string) : bool :=
  match s with
  | EmptyString => true
  | String c s => negb (bool_decide (c ∈ markup_chars)) && plain s
  end.

(** A plain string without white space: one class name. *)
Fixpoint plain_class (s : string) : bool :=
  match s with
  | EmptyString => true
  | String c s =>
      negb (bool_decide (c ∈ markup_chars ++ space_chars)) && plain_class s
  end.

(** The contents of the cached notes and the colours of the cached
    highlights are plain. *)
Definition plain_cache (s : State) : bool :=
  forallb (λ n, plain (n_content n)) (allNotes s)
  && forallb (λ h, plain_class (or_else (h_color h) "yellow")) (allHighlights s).

(** *** Rendering from the cache *)

(** [$layer.append($el)] for a node made on the spot. *)
Definition append (container : Z) (mk : nat → Element) (s : State) : State :=
  set_fresh (S (fresh s))
    (set_pages (alter (λ cs, cs ++ [mk (fresh s)]) container (pages s)) s).

(** [$node.remove()] for the nodes that satisfy [sel]. *)
Definition remove (sel : Element → bool) (cs : list Element) : list Element :=
  List.filter (λ c, negb (sel c)) cs.

(** The source writes the marker as an HTML string with [note.x],
    [note.y], [note.content] and [note.id] pasted in, and appends what
    jQuery parses from it.  [NoteMarker] is the element the template
    spells out; the string parses to it, and to nothing else, when the
    content is [plain].  For other contents the title can be cut short and
    further nodes can follow, which the model does not describe. *)
Definition renderNote (note : Note) (container : Z) (s : State) : State :=
  append container
    (λ el, NoteMarker el (n_x note) (n_y note) (n_content note) (n_id note)) s.

(** As for [renderNote]: [HighlightMarker] is what the HTML string parses
    to when the colour is a [plain_class]. *)
Definition renderHighlight (hl : Highlight) (container : Z) (s : State) : State :=
  let rect := h_coordinates hl in
  let colorClass := "highlight-" +:+ or_else (h_color hl) "yellow" in
  append container (λ el, HighlightMarker el colorClass rect (h_id hl)) s.

Definition loadAnnotations (pageNum : Z) (pageEl : Z) (s : State) : State :=
  (* Clear old annotations to avoid duplicates *)
  let s := set_pages (alter (remove is_marker) pageEl (pages s)) s in
  (* Render from cache *)
  let s := foldl (λ s n, renderNote n pageEl s) s
             (List.filter (λ n, Z.eqb (n_page_number n) pageNum) (allNotes s)) in
  foldl (λ s h, renderHighlight h pageEl s) s
    (List.filter (λ h, Z.eqb (h_page_number h) pageNum) (allHighlights s)).

(** One round of the [forEach] of [load].  The lazy loading of the page
    image touches the [img] node only and is left out. *)
Definition load_one (s : State) (v : Z) : State :=
  if (v <=? 0)%Z then s
  else
    let p := (v - 1)%Z in
    match pages s !! p with
    | None => s
    | Some _ => loadAnnotations p p s
    end.

Definition load (view : list Z) (s : State) : State := foldl load_one s view.

Definition preloadPages (PDF_PAGE_COUNT : Z) (currentPage : Z) (s : State) : State :=
  let pagesToPreload :=
    List.filter (λ nextP, (nextP <=? PDF_PAGE_COUNT + 2)%Z)
      ((λ i, (currentPage + i)%Z) <$> [1; 2; 3; 4; 5; 6]%Z) in
  if (0 <? length pagesToPreload)%nat then load pagesToPreload s else s.

(** The [when] callbacks handed to Turn.js; the sound effect and the page
    range display are left out. *)
Definition turning (view : list Z) (s : State) : State := load view s.

Definition turned (PDF_PAGE_COUNT : Z) (page : Z) (s : State) : State :=
  preloadPages PDF_PAGE_COUNT page s.

(** *** Interaction mode *)

Definition setMode (mode : option string) (s : State) : State :=
  let s := set_currentMode mode s in
  (* UI Reset *)
  let ring := ringedColor (toolbar s) in
  let tb := mkToolbar false false false (cursor (toolbar s)) ring in
  let tb :=
    if decide (mode = Some "note") then
      mkToolbar true (highlightBtnActive tb) (colorPickerVisible tb) "crosshair" ring
    else if decide (mode = Some "highlight") then
      mkToolbar (noteBtnActive tb) true true "text" ring
    else
      mkToolbar (noteBtnActive tb) (highlightBtnActive tb) (colorPickerVisible tb)
        "default" ring in
  set_toolbar tb s.

Definition toggleMode (mode : string) (s : State) : State :=
  if decide (currentMode s = Some mode) then setMode None s
  else setMode (Some mode) s.

Definition palette : list string := ["yellow"; "green"; "pink"; "blue"].

Definition setHighlightColor (color : string) (s : State) : State :=
  let s := set_currentHighlightColor color s in
  let tb := toolbar s in
  set_toolbar
    (mkToolbar (noteBtnActive tb) (highlightBtnActive tb) (colorPickerVisible tb)
       (cursor tb) (if decide (color ∈ palette) then Some color else None)) s.

(** The click handler of a rendered note marker. *)
Definition note_marker_click (content : string) (s : State) : State :=
  if truthy (currentMode s) then s
  else alert ("Note: " +:+ content) s.

(** *** Placing a note *)

Definition percent (pos origin extent : number) : number :=
  mul (div (sub pos origin) extent) (of_Z 100).

(** The [.then(d => ..).catch(err => ..)] chain behind the POST of a
    note, run on the settlement [r] of [fetch(..).then(r => r.json())]. *)
Definition note_posted (pageNum : Z) (content : string) (x y : number)
    (r : Promise Reply) (s : State) : State * Promise unit :=
  catch_
    (then_ (s, r) (λ d s,
       if success d then
         let newNote := mkNote (reply_id d) pageNum content x y in
         let s := set_allNotes (allNotes s ++ [newNote]) s in
         returns (renderNote newNote pageNum s)
       else
         returns (alert ("Error: " +:+ or_else (error d) "Failed to create note") s)))
    (λ err s,
       let s := emit (ConsoleError "Add note error:" err) s in
       returns (alert "Network error: Failed to create note" s)).

(** The delegated click handler of [.annotations-layer].  [answer] is
    what [prompt] returns if it is called. *)
Definition layer_click (pageNum : Z) (e : PointerEvent) (box : LayerBox)
    (answer : option string) (s : State) : State :=
  if negb (truthy (currentMode s)) || bool_decide (currentMode s = Some "highlight")
  then s
  else
    (* Calculate % position relative to layer size *)
    let x := percent (e_pageX e) (offset_left box) (layer_width box) in
    let y := percent (e_pageY e) (offset_top box) (layer_height box) in
    if decide (currentMode s = Some "note") then
      let s := emit (Prompt "Enter note content:" answer) s in
      let s :=
        match answer with
        | Some content =>
            if truthy answer
            then emit (Fetch (POST_note pageNum content x y)) s
            else s
        | None => s
        end in
      setMode None s
    else s.

(** *** Drawing a highlight *)

Record ColorStyle := mkColorStyle { bg : string; border : string }.

Definition colorStyles : gmap string ColorStyle :=
  <["yellow" := mkColorStyle "rgba(255, 255, 0, 0.4)" "rgba(255, 165, 0, 0.8)"]>
  (<["green" := mkColorStyle "rgba(34, 197, 94, 0.4)" "rgba(34, 197, 94, 0.8)"]>
  (<["pink" := mkColorStyle "rgba(244, 114, 182, 0.4)" "rgba(244, 114, 182, 0.8)"]>
  (<["blue" := mkColorStyle "rgba(59, 130, 246, 0.4)" "rgba(59, 130, 246, 0.8)"]> ∅))).

Definition colorStyles_yellow : ColorStyle :=
  mkColorStyle "rgba(255, 255, 0, 0.4)" "rgba(255, 165, 0, 0.8)".

(** [colorStyles[currentHighlightColor] || colorStyles.yellow]. *)
Definition preview_style (color : string) : ColorStyle :=
  default colorStyles_yellow (colorStyles !! color).

Definition mousedown_layer (pageNum : Z) (e : PointerEvent) (box : LayerBox)
    (s : State) : State :=
  if negb (bool_decide (currentMode s = Some "highlight")) then s
  else if e_on_delete e then s
  else
    (* Get starting position *)
    let startClientX := if e_touch e then (e_touches0 e).1 else e_clientX e in
    let startClientY := if e_touch e then (e_touches0 e).2 else e_clientY e in
    let startX := sub startClientX (offset_left box) in
    let startY := sub startClientY (offset_top box) in
    let s := set_highlightStart
               (Some (mkDragStart startX startY pageNum (offset_left box, offset_top box))) s in
    (* Create preview element with dynamic color *)
    let style := preview_style (currentHighlightColor s) in
    let s := set_highlightPreview (Some (fresh s)) s in
    append pageNum (λ el, HighlightPreview el (bg style) (border style) None) s.

(** The rectangle spanned by the start of the drag and the current
    pointer position, in layer pixels; the move and the release handler
    compute it alike. *)
Definition dragBox (startX startY endX endY : number) : PixelBox :=
  let left := Math_min startX endX in
  let top := Math_min startY endY in
  let width := Math_abs (sub endX startX) in
  let height := Math_abs (sub endY startY) in
  mkPixelBox left top width height.

(** [$highlightPreview.css({..})]. *)
Definition set_css (el : nat) (b : PixelBox) (c : Element) : Element :=
  match c with
  | HighlightPreview el' background border css =>
      if decide (el' = el) then HighlightPreview el' background border (Some b) else c
  | _ => c
  end.

Definition mousemove (e : PointerEvent) (s : State) : State :=
  match highlightStart s, highlightPreview s with
  | Some start, Some preview =>
      let currentClientX := if e_touch e then (e_touches0 e).1 else e_clientX e in
      let currentClientY := if e_touch e then (e_touches0 e).2 else e_clientY e in
      let currentX := sub currentClientX (hs_offset start).1 in
      let currentY := sub currentClientY (hs_offset start).2 in
      let b := dragBox (hs_x start) (hs_y start) currentX currentY in
      set_pages ((λ cs : list Element, set_css preview b <$> cs) <$> pages s) s
  | _, _ => s
  end.

Definition highlight_posted (pageNum : Z) (coordinates : Coordinates)
    (r : Promise Reply) (s : State) : State * Promise unit :=
  catch_
    (then_ (s, r) (λ d s,
       if success d then
         let newHighlight :=
           mkHighlight (reply_id d) pageNum coordinates (Some (currentHighlightColor s)) in
         let s := set_allHighlights (allHighlights s ++ [newHighlight]) s in
         returns (renderHighlight newHighlight pageNum s)
       else
         returns (alert ("Error: " +:+ or_else (error d) "Failed to create highlight") s)))
    (λ err s,
       let s := emit (ConsoleError "Add highlight error:" err) s in
       returns (alert "Network error: Failed to create highlight" s)).

(** [box] is the layout of the layer the drag began on. *)
Definition mouseup (e : PointerEvent) (box : LayerBox) (s : State) : State :=
  match highlightStart s, highlightPreview s with
  | Some start, Some preview =>
      let pageNum := hs_pageNum start in
      let endClientX := if e_touch e then (e_changedTouches0 e).1 else e_clientX e in
      let endClientY := if e_touch e then (e_changedTouches0 e).2 else e_clientY e in
      let endX := sub endClientX (hs_offset start).1 in
      let endY := sub endClientY (hs_offset start).2 in
      let startX := hs_x start in
      let startY := hs_y start in
      (* Only create highlight if there's meaningful swiping *)
      let s :=
        if gtb (Math_abs (sub endX startX)) (of_Z 10)
           || gtb (Math_abs (sub endY startY)) (of_Z 10)
        then
          let b := dragBox startX startY endX endY in
          (* Convert to % coordinates *)
          let x := mul (div (px_left b) (layer_width box)) (of_Z 100) in
          let y := mul (div (px_top b) (layer_height box)) (of_Z 100) in
          let w := mul (div (px_width b) (layer_width box)) (of_Z 100) in
          let h := mul (div (px_height b) (layer_height box)) (of_Z 100) in
          emit (Fetch (POST_highlight pageNum (mkCoordinates x y w h)
                         (currentHighlightColor s))) s
        else s in
      (* Clean up *)
      let the_preview c := is_preview c && bool_decide (element_id c = preview) in
      let s := set_pages (remove the_preview <$> pages s) s in
      set_highlightPreview None (set_highlightStart None s)
  | _, _ => s
  end.

(** *** Deleting *)

(** [deleteNote(id, el)] up to the [fetch]; [answer] is what [confirm]
    returns.  [el] is the marker that hosts the clicked delete control. *)
Definition deleteNote (id : Z) (el : nat) (answer : bool) (s : State) : State :=
  let s := emit (Confirm "Delete this note?" answer) s in
  if negb answer then s
  else emit (Fetch (DELETE_note id)) s.

Definition note_deleted (id : Z) (el : nat) (r : Promise Reply) (s : State)
    : State * Promise unit :=
  catch_
    (then_ (s, r) (λ d s,
       if success d then
         let closest c := is_note_marker c && bool_decide (element_id c = el) in
         let s := set_pages (remove closest <$> pages s) s in
         returns (set_allNotes
                    (List.filter (λ n, negb (Z.eqb (n_id n) id)) (allNotes s)) s)
       else
         returns (alert ("Error: " +:+ or_else (error d) "Failed to delete note") s)))
    (λ err s,
       let s := emit (ConsoleError "Delete note error:" err) s in
       returns (alert "Network error: Failed to delete note" s)).

Definition deleteHighlight (id : Z) (el : nat) (answer : bool) (s : State) : State :=
  let s := emit (Confirm "Remove highlight?" answer) s in
  if negb answer then s
  else emit (Fetch (DELETE_highlight id)) s.

Definition highlight_deleted (id : Z) (el : nat) (r : Promise Reply) (s : State)
    : State * Promise unit :=
  catch_
    (then_ (s, r) (λ d s,
       if success d then
         let closest c := is_highlight_marker c && bool_decide (element_id c = el) in
         let s := set_pages (remove closest <$> pages s) s in
         returns (set_allHighlights
                    (List.filter (λ h, negb (Z.eqb (h_id h) id)) (allHighlights s)) s)
       else
         returns (alert ("Error: " +:+ or_else (error d) "Failed to delete highlight") s)))
    (λ err s,
       let s := emit (ConsoleError "Delete highlight error:" err) s in
       returns (alert "Network error: Failed to delete highlight" s)).

(** *** Loading the collections *)

(** [preloadAnnotations()] up to the two [fetch] calls. *)
Definition preloadAnnotations (s : State) : State :=
  let s := emit (Fetch GET_notes) s in
  let s := emit (Fetch GET_highlights) s in
  set_preloadJoin (mkPromiseAll None None false) s.

(** The [.then(([notes, highlights]) => ..).catch(err => ..)] chain on
    the settlement [r] of [Promise.all]; [currentView] is what
    [$flipbook.turn('view')] answers at that moment. *)
Definition annotations_loaded (currentView : list Z)
    (r : Promise (Json Note * Json Highlight)) (s : State) : State * Promise unit :=
  catch_
    (then_ (s, r) (λ nh s,
       let s := set_allNotes (array_or_empty nh.1) s in
       let s := set_allHighlights (array_or_empty nh.2) s in
       (* Reload current view to show initial annotations *)
       returns (load currentView s)))
    (λ err s,
       let s := emit (ConsoleError "Failed to load annotations:" err) s in
       let s := set_allNotes [] s in
       returns (set_allHighlights [] s)).

Inductive Arrival :=
| NotesSettled (r : Promise (Json Note))
| HighlightsSettled (r : Promise (Json Highlight)).

(** [Promise.all]: rejected with the first rejection, fulfilled with
    both values once both are there, deaf to what comes after. *)
Definition promise_all (a : Arrival) (j : PromiseAll)
    : PromiseAll * option (Promise (Json Note * Json Highlight)) :=
  if pa_settled j then (j, None)
  else
    match a with
    | NotesSettled (Rejected err) | HighlightsSettled (Rejected err) =>
        (mkPromiseAll (pa_notes j) (pa_highlights j) true, Some (Rejected err))
    | NotesSettled (Fulfilled notes) =>
        match pa_highlights j with
        | Some highlights =>
            (mkPromiseAll (Some notes) (Some highlights) true,
             Some (Fulfilled (notes, highlights)))
        | None => (mkPromiseAll (Some notes) None false, None)
        end
    | HighlightsSettled (Fulfilled highlights) =>
        match pa_notes j with
        | Some notes =>
            (mkPromiseAll (Some notes) (Some highlights) true,
             Some (Fulfilled (notes, highlights)))
        | None => (mkPromiseAll None (Some highlights) false, None)
        end
    end.

Definition preload_arrival (currentView : list Z) (a : Arrival) (s : State)
    : State * Promise unit :=
  let (j, settled) := promise_all a (preloadJoin s) in
  let s := set_preloadJoin j s in
  match settled with
  | Some r => annotations_loaded currentView r s
  | None => returns s
  end.

(** The body of the [setTimeout] at the end of the ready handler. *)
Definition initial_load (currentView : list Z) (s : State) : State :=
  preloadAnnotations (load currentView s).

(** *** The viewer as a transition system *)

Inductive Event :=
| ToggleMode (mode : string)
| SetHighlightColor (color : string)
| LayerClick (pageNum : Z) (e : PointerEvent) (box : LayerBox) (answer : option string)
| NotePosted (pageNum : Z) (content : string) (x y : number) (r : Promise Reply)
| NoteMarkerClick (content : string)
| MouseDown (pageNum : Z) (e : PointerEvent) (box : LayerBox)
| MouseMove (e : PointerEvent)
| MouseUp (e : PointerEvent) (box : LayerBox)
| HighlightPosted (pageNum : Z) (coordinates : Coordinates) (r : Promise Reply)
| DeleteNote (id : Z) (el : nat) (answer : bool)
| NoteDeleted (id : Z) (el : nat) (r : Promise Reply)
| DeleteHighlight (id : Z) (el : nat) (answer : bool)
| HighlightDeleted (id : Z) (el : nat) (r : Promise Reply)
| InitialLoad (currentView : list Z)
| PreloadArrival (currentView : list Z) (a : Arrival)
| Turning (view : list Z)
| Turned (page : Z).

Definition step (PDF_PAGE_COUNT : Z) (s : State) (ev : Event) : State :=
  match ev with
  | ToggleMode mode => toggleMode mode s
  | SetHighlightColor color => setHighlightColor color s
  | LayerClick pageNum e box answer => layer_click pageNum e box answer s
  | NotePosted pageNum content x y r => (note_posted pageNum content x y r s).1
  | NoteMarkerClick content => note_marker_click content s
  | MouseDown pageNum e box => mousedown_layer pageNum e box s
  | MouseMove e => mousemove e s
  | MouseUp e box => mouseup e box s
  | HighlightPosted pageNum coordinates r => (highlight_posted pageNum coordinates r s).1
  | DeleteNote id el answer => deleteNote id el answer s
  | NoteDeleted id el r => (note_deleted id el r s).1
  | DeleteHighlight id el answer => deleteHighlight id el answer s
  | HighlightDeleted id el r => (highlight_deleted id el r s).1
  | InitialLoad currentView => initial_load currentView s
  | PreloadArrival currentView a => (preload_arrival currentView a s).1
  | Turning view => turning view s
  | Turned page => turned PDF_PAGE_COUNT page s
  end.

Definition run (PDF_PAGE_COUNT : Z) (s : State) (evs : list Event) : State :=
  foldl (step PDF_PAGE_COUNT) s evs.

(** The state the script starts in: the module-level initialisers, and a
    document whose pages carry empty annotation layers. *)
Definition initial (pageNumbers : list Z) (tb : Toolbar) : State :=
  mkState None "yellow" [] [] (list_to_map ((λ k, (k, [])) <$> pageNumbers)) 0
    None None tb (mkPromiseAll None None false) [].

(** The events the page can raise.  [toggleMode] is called from the markup
    of the toolbar, which is not part of the script; the values it passes
    are those the script names where it declares the variable:
    [let currentMode = null; // 'note', 'highlight', or null]. *)
Definition from_toolbar (ev : Event) : Prop :=
  match ev with
  | ToggleMode mode => mode = "note" ∨ mode = "highlight"
  | _ => True
  end.

(** *** Vocabulary of the statements *)

(** The mode is browse ([null]), placing-note or drawing-highlight. *)
Definition mode_ok (s : State) : Prop :=
  currentMode s = None ∨ currentMode s = Some "note" ∨ currentMode s = Some "highlight".

(** The cache and the DOM of [s'] are those of [s]. *)
Definition untouched (s s' : State) : Prop :=
  allNotes s' = allNotes s ∧ allHighlights s' = allHighlights s ∧ pages s' = pages s.

(** The state after one of the two collection responses has settled. *)
Definition arrive (currentView : list Z) (a : Arrival) (s : State) : State :=
  (preload_arrival currentView a s).1.

(** Where the pointer is released: the first changed touch, or the mouse
    position. *)
Definition release_point (e : PointerEvent) : number * number :=
  if e_touch e then e_changedTouches0 e else (e_clientX e, e_clientY e).

(** The rectangle of a drag as a percentage of the layer. *)
Definition percent_of (box : LayerBox) (b : PixelBox) : Coordinates :=
  mkCoordinates
    (mul (div (px_left b) (layer_width box)) (of_Z 100))
    (mul (div (px_top b) (layer_height box)) (of_Z 100))
    (mul (div (px_width b) (layer_width box)) (of_Z 100))
    (mul (div (px_height b) (layer_height box)) (of_Z 100)).

(** Some states to run the handlers on: a document of four pages, and the
    same with one note and one highlight in the cache. *)
Definition demo_toolbar : Toolbar := mkToolbar false false false "default" None.

Definition demo_state : State := initial [0; 1; 2; 3]%Z demo_toolbar.

Definition demo_note : Note := mkNote 1 0 "hi" (of_Z 10) (of_Z 20).

Definition demo_highlight : Highlight :=
  mkHighlight 2 0 (mkCoordinates (of_Z 5) (of_Z 5) (of_Z 30) (of_Z 10)) (Some "green").

Definition demo_cached : State :=
  set_allHighlights [demo_highlight] (set_allNotes [demo_note] demo_state).

(** The start of the viewer on the first page: the initial load, then
    the two collections, one note and one highlight of page 0. *)
Definition demo_started : list Event :=
  [InitialLoad [1]%Z;
   PreloadArrival [1]%Z (NotesSettled (Fulfilled (JArray [demo_note])));
   PreloadArrival [1]%Z (HighlightsSettled (Fulfilled (JArray [demo_highlight])))].

(** A layer of 1000 by 700 pixels at the origin, and a mouse event at a
    point of it. *)
Definition demo_box : LayerBox := mkLayerBox (of_Z 0) (of_Z 0) (of_Z 1000) (of_Z 700).

Definition mouse_at (x y : Z) : PointerEvent :=
  mkPointerEvent false (of_Z x) (of_Z y) (of_Z x) (of_Z y)
    (of_Z 0, of_Z 0) (of_Z 0, of_Z 0) false.

(** Highlight mode, the mouse pressed at (10, 10) on page 0. *)
Definition demo_drag : State :=
  mousedown_layer 0 (mouse_at 10 10) demo_box (toggleMode "highlight" demo_state).

(** The children of the annotations layer of a page; none if the page is
    not in the document. *)
Definition children (p : Z) (s : State) : list Element :=
  default [] (pages s !! p).

(** [s'] differs from [s] at most in the DOM. *)
Definition dom_only (s s' : State) : Prop :=
  currentMode s' = currentMode s
  ∧ currentHighlightColor s' = currentHighlightColor s
  ∧ allNotes s' = allNotes s
  ∧ allHighlights s' = allHighlights s
  ∧ highlightStart s' = highlightStart s
  ∧ highlightPreview s' = highlightPreview s
  ∧ toolbar s' = toolbar s
  ∧ preloadJoin s' = preloadJoin s
  ∧ trace s' = trace s.

(** [load view] repaints page [p]: the view holds its positive Turn.js
    number [p + 1] and the page is in the document. *)
Definition painted (view : list Z) (p : Z) (s : State) : Prop :=
  (p + 1)%Z ∈ view ∧ (0 < p + 1)%Z ∧ is_Some (pages s !! p).

#[global] Instance painted_dec view p s : Decision (painted view p s).
Proof. unfold painted. apply _. Defined.

(** The names an object literal answers through [Object.prototype] and
    not with a property of its own.  For these [colorStyles[name]] is not
    [undefined]; [preview_style] reads the properties the table itself
    holds and describes the lookup for every other name. *)
Definition inherited_names : list string :=
  ["constructor"; "hasOwnProperty"; "isPrototypeOf"; "propertyIsEnumerable";
   "toLocaleString"; "toString"; "valueOf"; "__proto__"; "__defineGetter__";
   "__defineSetter__"; "__lookupGetter__"; "__lookupSetter__"].

(** Markers with the node identity erased, to compare renderings. *)
Definition anonymous (c : Element) : Element :=
  match c with
  | NoteMarker _ x y title delete_id => NoteMarker 0 x y title delete_id
  | HighlightMarker _ colorClass rect delete_id => HighlightMarker 0 colorClass rect delete_id
  | HighlightPreview _ background border css => HighlightPreview 0 background border css
  end.

Definition note_marker (n : Note) : Element :=
  NoteMarker 0 (n_x n) (n_y n) (n_content n) (n_id n).

Definition highlight_marker (h : Highlight) : Element :=
  HighlightMarker 0 ("highlight-" +:+ or_else (h_color h) "yellow")
    (h_coordinates h) (h_id h).

(** What a page shows of the cache: one marker for each note of the
    page, then one for each highlight of the page. *)
Definition markers_of_cache (pageNum : Z) (s : State) : list Element :=
  (note_marker <$> List.filter (λ n, Z.eqb (n_page_number n) pageNum) (allNotes s))
  ++ (highlight_marker <$>
        List.filter (λ h, Z.eqb (h_page_number h) pageNum) (allHighlights s)).

(** The markers a page shows, identities erased. *)
Definition markers_on (pageEl : Z) (s : State) : list Element :=
  anonymous <$> List.filter is_marker (children pageEl s).
End Viewer.

(** ** The [Flipbook] class *)

Module Flipbook.
Import JsNum.

(** A [.page-wrapper] of the book: its [data-index], its [z-index], the
    page numbers of the front and back images, and whether it carries
    the class [flipped]. *)
Record PageWrapper := mkPageWrapper {
  data_index : Z;
  zIndex : Z;
  front : Z;
  back : option Z;
  flipped : bool
}.

(** [pageIndicator] holds the two numbers of ["Page _ of _"]; [timers]
    counts the pending animation timeouts; [startX] is the variable of
    the swipe handlers. *)
Record State := mkState {
  book : list PageWrapper;
  totalPages : Z;
  currentSpread : Z;
  isAnimating : bool;
  pageIndicator : Z * Z;
  timers : nat;
  startX : number
}.

(** The [for] loop of [renderPages], from [i] on. *)
Fixpoint renderPages_from (fuel : nat) (i total : Z) : list PageWrapper :=
  match fuel with
  | O => []
  | S fuel =>
      if (i <? total)%Z then
        mkPageWrapper (i / 2 + 1) (total - i) i
          (if (i + 1 <? total)%Z then Some (i + 1)%Z else None) false
        :: renderPages_from fuel (i + 2) total
      else []
  end.

Definition renderPages (s : State) : State :=
  mkState (book s ++ renderPages_from (Z.to_nat (totalPages s)) 0 (totalPages s))
    (totalPages s) (currentSpread s) (isAnimating s) (pageIndicator s) (timers s)
    (startX s).

Definition updateUI (s : State) : State :=
  let pageNum := ((currentSpread s - 1) * 2 + 1)%Z in
  let pageNum := if (totalPages s <? pageNum)%Z then totalPages s else pageNum in
  mkState (book s) (totalPages s) (currentSpread s) (isAnimating s)
    (pageNum, totalPages s) (timers s) (startX s).

(** [new Flipbook()] with [window.totalPages = total]; the loading
    overlay is left out. *)
Definition constructor (total : Z) : State :=
  updateUI (renderPages (mkState [] total 1 false (0, 0)%Z 0 (of_Z 0))).

(** [book.querySelector('.page-wrapper[data-index=..]')], as the
    position of the first match. *)
Fixpoint querySelector (index : Z) (b : list PageWrapper) : option nat :=
  match b with
  | [] => None
  | w :: b =>
      if (data_index w =? index)%Z then Some O
      else S <$> querySelector index b
  end.

Definition set_flipped (v : bool) (w : PageWrapper) : PageWrapper :=
  mkPageWrapper (data_index w) (zIndex w) (front w) (back w) v.

Definition nextPage (s : State) : State :=
  if isAnimating s then s
  else
    match querySelector (currentSpread s) (book s) with
    | None => s
    | Some k =>
        updateUI
          (mkState (alter (set_flipped true) k (book s)) (totalPages s)
             (currentSpread s + 1) true (pageIndicator s) (S (timers s)) (startX s))
    end.

Definition prevPage (s : State) : State :=
  if isAnimating s then s
  else if (currentSpread s <=? 1)%Z then s
  else
    let s := mkState (book s) (totalPages s) (currentSpread s - 1) (isAnimating s)
               (pageIndicator s) (timers s) (startX s) in
    match querySelector (currentSpread s) (book s) with
    | None => s
    | Some k =>
        updateUI
          (mkState (alter (set_flipped false) k (book s)) (totalPages s)
             (currentSpread s) true (pageIndicator s) (S (timers s)) (startX s))
    end.

Inductive Event :=
| ClickNext
| ClickPrev
| KeyDown (key : string)
| TouchStart (screenX : number)
| TouchEnd (screenX : number)
| AnimationTimeout.

Definition step (s : State) (ev : Event) : State :=
  match ev with
  | ClickNext => nextPage s
  | ClickPrev => prevPage s
  | KeyDown key =>
      let s := if String.eqb key "ArrowRight" then nextPage s else s in
      if String.eqb key "ArrowLeft" then prevPage s else s
  | TouchStart screenX =>
      mkState (book s) (totalPages s) (currentSpread s) (isAnimating s)
        (pageIndicator s) (timers s) screenX
  | TouchEnd endX =>
      let s := if gtb (sub (startX s) endX) (of_Z 50) then nextPage s else s in
      if gtb (sub endX (startX s)) (of_Z 50) then prevPage s else s
  | AnimationTimeout =>
      match timers s with
      | O => s
      | S n =>
          mkState (book s) (totalPages s) (currentSpread s) false
            (pageIndicator s) n (startX s)
      end
  end.

Definition run (s : State) (evs : list Event) : State := foldl step s evs.

(** The wrappers carry the indexes 1, 2, .. in document order, and the
    current spread lies between 1 and one past the last wrapper. *)
Definition well_formed (s : State) : Prop :=
  data_index <$> book s = seqZ 1 (Z.of_nat (length (book s)))
  ∧ (1 ≤ currentSpread s ≤ Z.of_nat (length (book s)) + 1)%Z.
End Flipbook.

(** ** Page navigation, sound and range display of the viewer *)

Module Navigation.
Import JsNum Viewer.

(** The commands the script hands to Turn.js. *)
Inductive TurnCommand :=
| turn_previous
| turn_next.

(** The variables [startX] and [isDown] of the swipe and drag support. *)
Record Swipe := mkSwipe {
  startX : number;
  isDown : bool
}.

(** The handler of [touchstart mousedown] on the flipbook.
    [on_interactive] tells whether the target lies in a button, a marker,
    a link or a delete control; [s] is read for the mode. *)
Definition pointer_down (on_interactive : bool) (e : PointerEvent) (s : State)
    (w : Swipe) : Swipe :=
  (* Ignore if clicking on interactive elements or if in annotation mode *)
  if on_interactive then w
  else if truthy (currentMode s) then w
  else mkSwipe (if e_touch e then (e_touches0 e).1 else e_pageX e) true.

(** The handler of [touchend mouseup] on the window: the new variables and
    the commands issued, in order. *)
Definition pointer_up (e : PointerEvent) (w : Swipe) : Swipe * list TurnCommand :=
  if negb (isDown w) then (w, [])
  else
    let endX := if e_touch e then (e_changedTouches0 e).1 else e_pageX e in
    (* Drag threshold *)
    (mkSwipe (startX w) false,
     (if gtb (sub (startX w) endX) (of_Z 100) then [turn_next] else [])
     ++ (if gtb (sub endX (startX w)) (of_Z 100) then [turn_previous] else [])).

(** The position a press event reports, the [startX] of the handler. *)
Definition startX_of (e : PointerEvent) : number :=
  if e_touch e then (e_touches0 e).1 else e_pageX e.

(** The position a release event reports, the [endX] of the handler. *)
Definition endX_of (e : PointerEvent) : number :=
  if e_touch e then (e_changedTouches0 e).1 else e_pageX e.

(** The [keydown] handler of the window. *)
Definition keydown (keyCode : Z) : list TurnCommand :=
  if (keyCode =? 37)%Z then [turn_previous]
  else if (keyCode =? 39)%Z then [turn_next]
  else [].

Definition audioIds : list string := ["page-turn-sound-1"; "page-turn-sound-2"].

(** [playPageTurnSound()]: from [currentAudioIndex] to its new value and
    the id of the audio element that is played, if the document has it. *)
Definition playPageTurnSound (present : string → bool) (currentAudioIndex : nat)
    : nat * option string :=
  let audio :=
    match audioIds !! currentAudioIndex with
    | Some id => if present id then Some id else None
    | None => None
    end in
  ((currentAudioIndex + 1) mod length audioIds, audio).

(** The elements played by [n] page turns in a row, from the index [i]
    on. *)
Fixpoint sounds (present : string → bool) (n : nat) (i : nat) : list (option string) :=
  match n with
  | O => []
  | S n =>
      let (i', audio) := playPageTurnSound present i in
      audio :: sounds present n i'
  end.

(** What [document.getElementById] and the test [if (audio)] leave of the
    entry [i] of [audioIds]. *)
Definition audio_at (present : string → bool) (i : nat) : option string :=
  audioIds !! i ≫= λ id, if present id then Some id else None.

(** The text the [turned] callback writes into the page range display;
    [pages] is what [$flipbook.turn('pages')] answers. *)
Definition displayTxt (PDF_PAGE_COUNT : Z) (pages : Z) (view : list Z) : string :=
  let pdfPages :=
    List.filter (λ v, (0 <=? v)%Z && (v <? PDF_PAGE_COUNT)%Z)
      ((λ v, (v - 2)%Z) <$> view) in
  match pdfPages with
  | [] => if bool_decide (pages ∈ view) then "End" else "Cover"
  | [p0] => pretty (p0 + 1)%Z
  | p0 :: p1 :: _ => pretty (p0 + 1)%Z +:+ " - " +:+ pretty (p1 + 1)%Z
  end.
End Navigation.

(** ** Lazy loading of the page images *)

Module Images.
Import Viewer.

(** The [img] of a page, as far as [load] reads and writes it: the
    [complete] property, the [src] and [data-src] attributes, whether the
    opacity was set to 1, and how many [load] and [error] handlers were
    attached. *)
Record Img := mkImg {
  complete : bool;
  src : option string;
  data_src : option string;
  opaque : bool;
  on_load : nat;
  on_error : nat
}.

(** [imgs] maps the [data-page] of every page that has an [img] to it;
    [loaded] is the set of that name. *)
Record Doc := mkDoc {
  imgs : gmap Z Img;
  loaded : gset Z
}.

(** The image part of one round of the [forEach] of [load]. *)
Definition load_image (d : Doc) (v : Z) : Doc :=
  if (v <=? 0)%Z then d
  else
    match imgs d !! (v - 1)%Z with
    | None => d
    | Some img =>
        if bool_decide (v ∈ loaded d) then d
        else
          let img :=
            if complete img
            then mkImg (complete img) (src img) (data_src img) true
                   (on_load img) (on_error img)
            else mkImg (complete img) (src img) (data_src img) (opaque img)
                   (S (on_load img)) (on_error img) in
          let src_ := if truthy (data_src img) then data_src img else src img in
          let img :=
            if truthy src_ && negb (truthy (src img))
            then mkImg (complete img) src_ None (opaque img)
                   (on_load img) (S (on_error img))
            else img in
          mkDoc (<[(v - 1)%Z := img]> (imgs d)) ({[v]} ∪ loaded d)
    end.

Definition load_images (view : list Z) (d : Doc) : Doc := foldl load_image d view.

(** [load] has nothing left to do for the image of the view entry [v]. *)
Definition settled (v : Z) (d : Doc) : Prop :=
  (v ≤ 0)%Z ∨ imgs d !! (v - 1)%Z = None ∨ v ∈ loaded d.

(** No page was loaded yet and no handler is attached. *)
Definition untouched_doc (d : Doc) : Prop :=
  loaded d = ∅
  ∧ ∀ p img, imgs d !! p = Some img → on_load img = 0 ∧ on_error img = 0.

(** Every view of a run of [load] calls, in order. *)
Definition load_all (views : list (list Z)) (d : Doc) : Doc :=
  foldl (λ d view, load_images view d) d views.

(** A lazy image as the template writes it, and a document of two pages
    for the examples. *)
Definition lazy_img (url : string) : Img :=
  mkImg false None (Some url) false 0 0.

Definition demo_doc : Doc :=
  mkDoc (<[0%Z := lazy_img "/page/0.jpg"]> (<[1%Z := lazy_img "/page/1.jpg"]> ∅)) ∅.

(** The pages that were not loaded have no handler, and no image has more
    than one handler of a kind. *)
Definition handlers_once (d : Doc) : Prop :=
  ∀ p img, imgs d !! p = Some img →
    on_load img ≤ 1 ∧ on_error img ≤ 1
    ∧ ((p + 1)%Z ∉ loaded d → on_load img = 0 ∧ on_error img = 0).
End Images.

(** ** What the page flipper keeps *)

Module FlipbookInv.
Import Flipbook.

(** The wrappers that lie before the current spread, and only they, are
    flipped. *)
Definition flipped_before_current (s : State) : Prop :=
  ∀ w, w ∈ book s → flipped w = (data_index w <? currentSpread s)%Z.

(** The page numbers a wrapper shows: its front, and its back if it has
    one. *)
Definition pages_of (w : PageWrapper) : list Z :=
  front w :: match back w with Some b => [b] | None => [] end.

(** What every reachable state of the flipper satisfies: the wrappers
    are numbered, the flipped ones are those before the current spread,
    the indicator shows what [updateUI] computes, and a timeout is pending
    exactly while an animation runs. *)
Definition consistent (s : State) : Prop :=
  well_formed s
  ∧ flipped_before_current s
  ∧ pageIndicator (updateUI s) = pageIndicator s
  ∧ timers s = (if isAnimating s then 1 else 0)%nat.

(** The inputs that ask for a page turn. *)
Definition navigation (ev : Event) : bool :=
  match ev with
  | ClickNext | ClickPrev | KeyDown _ | TouchEnd _ => true
  | TouchStart _ | AnimationTimeout => false
  end.
End FlipbookInv.

(** ** What the viewer keeps *)

Module ViewerInv.
Import JsNum Viewer.

(** Every node of the document was numbered before [fresh]: the nodes the
    handlers make are new. *)
Definition ids_below (s : State) : Prop :=
  ∀ p cs c, pages s !! p = Some cs → c ∈ cs → element_id c < fresh s.

(** [s'] differs from [s] at most in the cache, the DOM, the join and the
    trace: the mode, the colour, the drag and the toolbar are those of
    [s]. *)
Definition same_controls (s s' : State) : Prop :=
  currentMode s' = currentMode s
  ∧ currentHighlightColor s' = currentHighlightColor s
  ∧ highlightStart s' = highlightStart s
  ∧ highlightPreview s' = highlightPreview s
  ∧ toolbar s' = toolbar s.

(** The toolbar shows the current mode: the button of the mode is the
    active one, the colour picker is visible in highlight mode only, and
    the cursor is the one of the mode. *)
Definition toolbar_shows_mode (s : State) : Prop :=
  noteBtnActive (toolbar s) = bool_decide (currentMode s = Some "note")
  ∧ highlightBtnActive (toolbar s) = bool_decide (currentMode s = Some "highlight")
  ∧ colorPickerVisible (toolbar s) = bool_decide (currentMode s = Some "highlight")
  ∧ cursor (toolbar s)
    = if decide (currentMode s = Some "note") then "crosshair"
      else if decide (currentMode s = Some "highlight") then "text"
      else "default".

(** The gestures on an annotations layer. *)
Definition layer_gesture (ev : Event) : bool :=
  match ev with
  | LayerClick _ _ _ _ | MouseDown _ _ _ | MouseMove _ | MouseUp _ _ => true
  | _ => false
  end.

(** The page shows the markers of the cache, in some order. *)
Definition in_sync (p : Z) (s : State) : Prop :=
  markers_on p s ≡ₚ markers_of_cache p s.

(** What a drag that began on page [p] of [s] has made of the state: the
    document of [s] with one preview node, numbered [fresh s], at the end
    of the layer of [p], and nothing else changed but the drag itself. *)
Definition dragging (p : Z) (s s' : State) : Prop :=
  (∃ start, highlightStart s' = Some start ∧ hs_pageNum start = p)
  ∧ highlightPreview s' = Some (fresh s)
  ∧ currentMode s' = currentMode s
  ∧ currentHighlightColor s' = currentHighlightColor s
  ∧ allNotes s' = allNotes s ∧ allHighlights s' = allHighlights s
  ∧ toolbar s' = toolbar s ∧ preloadJoin s' = preloadJoin s
  ∧ trace s' = trace s
  ∧ fresh s' = S (fresh s)
  ∧ ∃ background border css,
      pages s'
      = alter (λ cs, cs ++ [HighlightPreview (fresh s) background border css]) p (pages s).

(** The node [c] is a child of the page [p], and no other node of the
    document has its identity. *)
Definition hosts (p : Z) (c : Element) (s : State) : Prop :=
  (∃ before after,
     children p s = before ++ c :: after
     ∧ Forall (λ c', element_id c' ≠ element_id c) (before ++ after))
  ∧ map_Forall
      (λ q cs, q = p ∨ Forall (λ c', element_id c' ≠ element_id c) cs) (pages s).

(** The markers of the page [p] are nodes numbered [k] or later: they
    were made when [fresh] had reached [k]. *)
Definition markers_from (k : nat) (p : Z) (s : State) : Prop :=
  ∀ c, c ∈ children p s → is_marker c = true → k ≤ element_id c.

(** Where the pointer is during a drag: the first touch, or the mouse
    position. *)
Definition touch_point (e : PointerEvent) : number * number :=
  if e_touch e then e_touches0 e else (e_clientX e, e_clientY e).
End ViewerInv.

(** * Facts *)

(** ** Binary64 arithmetic *)

Section JsNumFacts.
Import JsNum.

Lemma SFcompare_antisym a b : SFcompare b a = CompOpp <$> SFcompare a b.
Proof.
  destruct a as [sa|sa| |sa ma ea], b as [sb|sb| |sb mb eb]; simpl; try done;
    try (by destruct sa); try (by destruct sb); try (by destruct sa, sb).
  destruct sa, sb; simpl; try done; f_equal;
    rewrite (Z.compare_antisym ea eb); destruct (ea ?= eb)%Z; simpl; try done;
    rewrite (Pos.compare_cont_antisym ma mb Eq); simpl; try done.
Qed.

Lemma SFcompare_refl a : a ≠ S754_nan → SFcompare a a = Some Eq.
Proof.
  destruct a as [sa|sa| |sa ma ea]; simpl; try done; intros _;
    destruct sa; try done; rewrite Z.compare_refl;
    change (Pos.compare_cont Eq ma ma) with (ma ?= ma)%positive;
    by rewrite Pos.compare_refl.
Qed.

(** Two numbers that compare equal are the same value, or two zeros. *)
Lemma SFcompare_Eq_inv a b :
  SFcompare a b = Some Eq →
  a = b ∨ (∃ sa sb, a = S754_zero sa ∧ b = S754_zero sb).
Proof.
  destruct a as [sa|sa| |sa ma ea], b as [sb|sb| |sb mb eb]; simpl; try done;
    try (by destruct sa); try (by destruct sb); try (destruct sa, sb; by auto).
  - eauto.
  - destruct sa, sb; try done;
      destruct (ea ?= eb)%Z eqn:He; try done;
      apply Z.compare_eq in He; subst;
      change (Pos.compare_cont Eq ma mb) with (ma ?= mb)%positive;
      destruct (ma ?= mb)%positive eqn:Hm; try done;
      apply Pos.compare_eq in Hm; subst; auto.
Qed.

Lemma Math_min_comm a b : Math_min a b = Math_min b a.
Proof.
  destruct (decide (a = S754_nan)) as [->|Ha]; [by destruct b as [[]| | |]|].
  destruct (decide (b = S754_nan)) as [->|Hb]; [by destruct a as [[]| | |]|].
  assert (Math_min a b = match a, b with
    | S754_zero false, S754_zero true => b
    | _, _ => if SFltb b a then b else a end) as ->
    by (by destruct a as [[]| | |], b as [[]| | |]).
  assert (Math_min b a = match b, a with
    | S754_zero false, S754_zero true => a
    | _, _ => if SFltb a b then a else b end) as ->
    by (by destruct a as [[]| | |], b as [[]| | |]).
  unfold SFltb. rewrite (SFcompare_antisym a b).
  destruct (SFcompare a b) as [[]|] eqn:Hc; simpl.
  - apply SFcompare_Eq_inv in Hc as [->|(sa&sb&->&->)];
      [by destruct b as [[]| | |]|by destruct sa, sb].
  - by destruct a as [[]| | |], b as [[]| | |].
  - by destruct a as [[]| | |], b as [[]| | |].
  - by destruct a as [[]| | |], b as [[]| | |].
Qed.

Lemma Math_min_cases a b : Math_min a b = a ∨ Math_min a b = b.
Proof.
  unfold Math_min. destruct a as [[]| | |], b as [[]| | |]; auto;
    match goal with |- context [if ?c then _ else _] => destruct c; auto end.
Qed.

Lemma Math_min_le_l a b :
  is_finite a = true → is_finite b = true → leb (Math_min a b) a = true.
Proof.
  intros Ha Hb.
  assert (a ≠ S754_nan) by (by destruct a).
  assert (b ≠ S754_nan) by (by destruct b).
  destruct (decide (a = S754_zero false ∧ b = S754_zero true)) as [[-> ->]|Hz];
    [done|].
  assert (Math_min a b = if SFltb b a then b else a) as ->.
  { destruct a as [[]| | |], b as [[]| | |]; try done. by destruct Hz. }
  unfold leb, SFleb. destruct (SFltb b a) eqn:Hlt.
  - unfold SFltb in Hlt. by destruct (SFcompare b a) as [[]|].
  - by rewrite SFcompare_refl.
Qed.

Lemma Math_min_le_r a b :
  is_finite a = true → is_finite b = true → leb (Math_min a b) b = true.
Proof. intros. rewrite Math_min_comm. by apply Math_min_le_l. Qed.

(** Rounding does not look at the sign. *)
Lemma binary_round_aux_abs s s' m e l :
  SFabs (binary_round_aux prec emax s m e l)
  = SFabs (binary_round_aux prec emax s' m e l).
Proof.
  unfold binary_round_aux.
  destruct (shr_fexp prec emax m e l) as [mrs' e'].
  destruct (shr_fexp prec emax _ e' loc_Exact) as [mrs'' e''].
  destruct (shr_m mrs''); simpl; try done.
  by destruct (e'' <=? emax - prec)%Z.
Qed.

Lemma binary_normalize_opp_abs m e :
  SFabs (binary_normalize prec emax (- m) e false)
  = SFabs (binary_normalize prec emax m e false).
Proof.
  destruct m; simpl; try done; unfold binary_round;
    destruct (shl_align _ _ _); apply binary_round_aux_abs.
Qed.

Lemma abs_sub_swap x y : Math_abs (sub x y) = Math_abs (sub y x).
Proof.
  destruct x as [sx|sx| |sx mx ex], y as [sy|sy| |sy my ey]; simpl; try done;
    try (by destruct sx, sy).
  rewrite (Z.min_comm ey ex), <- binary_normalize_opp_abs. f_equal. f_equal. lia.
Qed.

Lemma iter_pos_inv {A} (P : A → Prop) (f : A → A) :
  (∀ x, P x → P (f x)) → ∀ p x, P x → P (SpecFloat.iter_pos f p x).
Proof. intros Hf. induction p; simpl; auto. Qed.

Lemma shr_1_nonneg mrs : (0 ≤ shr_m mrs)%Z → (0 ≤ shr_m (shr_1 mrs))%Z.
Proof. destruct mrs as [[|[]|[]] r s]; simpl; lia. Qed.

Lemma shr_fexp_nonneg m e l :
  (0 ≤ m)%Z → (0 ≤ shr_m (shr_fexp prec emax m e l).1)%Z.
Proof.
  intros Hm. unfold shr_fexp, shr.
  assert (0 ≤ shr_m (shr_record_of_loc m l))%Z by (by destruct l as [|[]]).
  destruct (_ - e)%Z; simpl; try done.
  apply (iter_pos_inv (λ r, 0 ≤ shr_m r)%Z); [apply shr_1_nonneg|done].
Qed.

Lemma round_nearest_even_nonneg m l :
  (0 ≤ m)%Z → (0 ≤ round_nearest_even m l)%Z.
Proof. destruct l as [|[]]; simpl; try done; [destruct (Z.even m)|]; lia. Qed.

Lemma binary_round_aux_not_nan s m e l :
  (0 ≤ m)%Z → binary_round_aux prec emax s m e l ≠ S754_nan.
Proof.
  intros Hm. unfold binary_round_aux.
  pose proof (shr_fexp_nonneg m e l Hm) as H1.
  destruct (shr_fexp prec emax m e l) as [mrs' e']. simpl in H1.
  pose proof (shr_fexp_nonneg _ e' loc_Exact
                (round_nearest_even_nonneg _ (loc_of_shr_record mrs') H1)) as H2.
  destruct (shr_fexp prec emax _ e' loc_Exact) as [mrs'' e'']. simpl in H2.
  destruct (shr_m mrs''); try done; try lia. by destruct (_ <=? _)%Z.
Qed.

Lemma binary_normalize_not_nan m e :
  binary_normalize prec emax m e false ≠ S754_nan.
Proof.
  destruct m; simpl; try done; unfold binary_round;
    destruct (shl_align _ _ _); by apply binary_round_aux_not_nan.
Qed.

(** The difference of two finite numbers may overflow, but it is a
    number. *)
Lemma sub_finite_not_nan x y :
  is_finite x = true → is_finite y = true → sub x y ≠ S754_nan.
Proof.
  destruct x as [sx|sx| |sx mx ex], y as [sy|sy| |sy my ey]; simpl; try done;
    intros _ _.
  - by destruct sx, sy.
  - apply binary_normalize_not_nan.
Qed.

Lemma sub_not_nan x y :
  x ≠ S754_nan → is_finite y = true → sub x y ≠ S754_nan.
Proof.
  intros Hx Hy. destruct x as [sx|sx| |sx mx ex] eqn:Ex; try done;
    try (rewrite <- Ex; apply sub_finite_not_nan; by subst).
  by destruct y.
Qed.

Lemma abs_nonneg a : a ≠ S754_nan → leb (of_Z 0) (Math_abs a) = true.
Proof. by destruct a. Qed.

Lemma abs_not_nan a : a ≠ S754_nan → Math_abs a ≠ S754_nan.
Proof. by destruct a. Qed.

Lemma gtb_negb_leb a b :
  a ≠ S754_nan → b ≠ S754_nan → gtb a b = negb (leb a b).
Proof.
  intros Ha Hb. unfold gtb, leb, SFltb, SFleb. rewrite (SFcompare_antisym a b).
  destruct (SFcompare a b) as [[]|] eqn:Hc; simpl; try done.
  by destruct a, b.
Qed.
End JsNumFacts.

(** ** Rendering touches the DOM only *)

Section ViewerFacts.
Import JsNum Viewer.

Lemma dom_only_refl s : dom_only s s.
Proof. by repeat split. Qed.

Lemma dom_only_trans s1 s2 s3 : dom_only s1 s2 → dom_only s2 s3 → dom_only s1 s3.
Proof. unfold dom_only. intros. intuition congruence. Qed.

Lemma dom_only_foldl {A} (f : State → A → State) l :
  (∀ s a, dom_only s (f s a)) → ∀ s, dom_only s (foldl f s l).
Proof.
  intros Hf. induction l as [|a l IH]; intros s; simpl; [apply dom_only_refl|].
  eapply dom_only_trans; [apply Hf|apply IH].
Qed.

Lemma append_dom_only p mk s : dom_only s (append p mk s).
Proof. by repeat split. Qed.

Lemma loadAnnotations_dom_only pageNum pageEl s :
  dom_only s (loadAnnotations pageNum pageEl s).
Proof.
  unfold loadAnnotations.
  eapply dom_only_trans; [|apply dom_only_foldl; intros; apply append_dom_only].
  eapply dom_only_trans; [|apply dom_only_foldl; intros; apply append_dom_only].
  by repeat split.
Qed.

Lemma load_one_dom_only s v : dom_only s (load_one s v).
Proof.
  unfold load_one. destruct (v <=? 0)%Z; [apply dom_only_refl|].
  destruct (pages s !! _); [apply loadAnnotations_dom_only|apply dom_only_refl].
Qed.

Lemma load_dom_only view s : dom_only s (load view s).
Proof. apply dom_only_foldl, load_one_dom_only. Qed.

Lemma preloadPages_dom_only K page s : dom_only s (preloadPages K page s).
Proof.
  unfold preloadPages. destruct (0 <? _)%nat; [apply load_dom_only|apply dom_only_refl].
Qed.

(** ** What a page holds after rendering *)

Lemma append_children p mk s :
  is_Some (pages s !! p) → children p (append p mk s) = children p s ++ [mk (fresh s)].
Proof.
  intros [cs Hcs]. unfold children, append. simpl.
  by rewrite lookup_alter_eq, Hcs.
Qed.

Lemma append_lookup_ne p q mk s :
  p ≠ q → pages (append p mk s) !! q = pages s !! q.
Proof. intros. unfold append. simpl. by rewrite lookup_alter_ne. Qed.

Lemma append_is_Some p q mk s :
  is_Some (pages (append p mk s) !! q) ↔ is_Some (pages s !! q).
Proof.
  unfold append. simpl. destruct (decide (p = q)) as [->|].
  - rewrite lookup_alter_eq. by rewrite fmap_is_Some.
  - by rewrite lookup_alter_ne.
Qed.

Lemma foldl_append_children {A} (mk : A → nat → Element) (g : A → Element) p l :
  (∀ a i, anonymous (mk a i) = g a) →
  ∀ s, is_Some (pages s !! p) →
    anonymous <$> children p (foldl (λ s a, append p (mk a) s) s l)
    = (anonymous <$> children p s) ++ (g <$> l).
Proof.
  intros Hmk. induction l as [|a l IH]; intros s Hs; simpl.
  - by rewrite app_nil_r.
  - rewrite IH by (by apply append_is_Some).
    rewrite append_children by done.
    rewrite fmap_app, <- app_assoc. simpl. by rewrite Hmk.
Qed.

Lemma foldl_append_lookup_ne {A} (mk : A → nat → Element) p q l :
  p ≠ q → ∀ s, pages (foldl (λ s a, append p (mk a) s) s l) !! q = pages s !! q.
Proof.
  intros Hne. induction l as [|a l IH]; intros s; simpl; [done|].
  by rewrite IH, append_lookup_ne.
Qed.

Lemma foldl_append_is_Some {A} (mk : A → nat → Element) p q l :
  ∀ s, is_Some (pages (foldl (λ s a, append p (mk a) s) s l) !! q)
       ↔ is_Some (pages s !! q).
Proof.
  induction l as [|a l IH]; intros s; simpl; [done|].
  by rewrite IH, append_is_Some.
Qed.

Lemma is_marker_anonymous c : is_marker (anonymous c) = is_marker c.
Proof. by destruct c. Qed.

Lemma filter_is_marker_anonymous cs :
  List.filter is_marker (anonymous <$> cs) = anonymous <$> List.filter is_marker cs.
Proof.
  induction cs as [|c cs IH]; [done|]. rewrite fmap_cons. simpl.
  rewrite is_marker_anonymous. destruct (is_marker c); rewrite IH; by try rewrite fmap_cons.
Qed.

Lemma filter_is_marker_remove cs : List.filter is_marker (remove is_marker cs) = [].
Proof.
  induction cs as [|c cs IH]; simpl; [done|].
  destruct (is_marker c) eqn:Hc; simpl; [done|]. by rewrite Hc.
Qed.

Lemma remove_is_marker_idemp cs :
  remove is_marker (remove is_marker cs) = remove is_marker cs.
Proof.
  induction cs as [|c cs IH]; simpl; [done|].
  destruct (is_marker c) eqn:Hc; simpl; [done|]. by rewrite Hc, IH.
Qed.

Lemma filter_is_marker_cache pageNum s :
  List.filter is_marker (markers_of_cache pageNum s) = markers_of_cache pageNum s.
Proof.
  apply forallb_filter_id, forallb_forall. intros c Hc.
  apply in_app_or in Hc as [Hc|Hc]; apply in_map_iff in Hc as (?&<-&_); done.
Qed.

(** The layer of the page after [loadAnnotations]: what was there and is
    not a marker, then the markers of the cache. *)
Lemma loadAnnotations_children p s :
  is_Some (pages s !! p) →
  anonymous <$> children p (loadAnnotations p p s)
  = (anonymous <$> remove is_marker (children p s)) ++ markers_of_cache p s.
Proof.
  intros Hp. unfold loadAnnotations, renderNote, renderHighlight, markers_of_cache.
  set (s0 := set_pages _ s).
  assert (is_Some (pages s0 !! p)) as H0.
  { unfold s0. simpl. rewrite lookup_alter_eq. by apply fmap_is_Some. }
  assert (children p s0 = remove is_marker (children p s)) as Hc0.
  { unfold children, s0. simpl. rewrite lookup_alter_eq.
    by destruct Hp as [cs ->]. }
  rewrite (foldl_append_children
             (λ h el, HighlightMarker el _ (h_coordinates h) (h_id h)) highlight_marker)
    by (done || by apply foldl_append_is_Some).
  rewrite (foldl_append_children
             (λ n el, NoteMarker el (n_x n) (n_y n) (n_content n) (n_id n)) note_marker)
    by done.
  rewrite Hc0, <- app_assoc.
  by destruct (dom_only_foldl (λ s1 n, append p
       (λ el, NoteMarker el (n_x n) (n_y n) (n_content n) (n_id n)) s1)
     (List.filter (λ n, (n_page_number n =? p)%Z) (allNotes s0))
     (λ s1 n, append_dom_only p _ s1) s0) as (_&_&_&->&_).
Qed.
Lemma loadAnnotations_lookup_ne pageNum p q s :
  p ≠ q → pages (loadAnnotations pageNum p s) !! q = pages s !! q.
Proof.
  intros Hne. unfold loadAnnotations, renderNote, renderHighlight.
  rewrite !foldl_append_lookup_ne by done. simpl. by rewrite lookup_alter_ne.
Qed.

Lemma loadAnnotations_is_Some pageNum p q s :
  is_Some (pages (loadAnnotations pageNum p s) !! q) ↔ is_Some (pages s !! q).
Proof.
  unfold loadAnnotations, renderNote, renderHighlight.
  rewrite !foldl_append_is_Some. simpl. destruct (decide (p = q)) as [->|].
  - rewrite lookup_alter_eq. by rewrite fmap_is_Some.
  - by rewrite lookup_alter_ne.
Qed.

Lemma remove_is_marker_anonymous cs :
  remove is_marker (anonymous <$> cs) = anonymous <$> remove is_marker cs.
Proof.
  induction cs as [|c cs IH]; [done|]. rewrite fmap_cons. simpl.
  rewrite is_marker_anonymous.
  destruct (is_marker c); simpl; rewrite IH; by try rewrite fmap_cons.
Qed.

Lemma remove_is_marker_cache pageNum s :
  remove is_marker (markers_of_cache pageNum s) = [].
Proof.
  assert (∀ A (f : A → Element) l, (∀ a, is_marker (f a) = true) →
            List.filter (λ c, negb (is_marker c)) (f <$> l) = []) as Hnil.
  { intros A f l Hf. induction l as [|a l IH]; [done|].
    rewrite fmap_cons. simpl. by rewrite Hf. }
  unfold markers_of_cache, remove. rewrite List.filter_app.
  by rewrite !Hnil.
Qed.

Lemma markers_of_cache_dom_only p s s' :
  dom_only s s' → markers_of_cache p s' = markers_of_cache p s.
Proof. intros (_&_&Hn&Hh&_). unfold markers_of_cache. by rewrite Hn, Hh. Qed.

Lemma markers_on_children p s :
  markers_on p s = List.filter is_marker (anonymous <$> children p s).
Proof. unfold markers_on. by rewrite filter_is_marker_anonymous. Qed.

Lemma loadAnnotations_markers p s :
  is_Some (pages s !! p) →
  markers_on p (loadAnnotations p p s) = markers_of_cache p s.
Proof.
  intros Hp. rewrite markers_on_children, loadAnnotations_children by done.
  rewrite List.filter_app, filter_is_marker_anonymous, filter_is_marker_remove.
  simpl. apply filter_is_marker_cache.
Qed.

(** What is in a layer and is not a marker stays through [load]. *)
Lemma load_one_others p s v :
  anonymous <$> remove is_marker (children p (load_one s v))
  = anonymous <$> remove is_marker (children p s).
Proof.
  unfold load_one. destruct (v <=? 0)%Z; [done|].
  destruct (pages s !! (v - 1)%Z) eqn:Hv; [|done].
  destruct (decide ((v - 1)%Z = p)) as [<-|Hne].
  - rewrite <- remove_is_marker_anonymous, loadAnnotations_children by eauto.
    unfold remove at 1. rewrite List.filter_app.
    fold (remove is_marker (markers_of_cache (v - 1) s)).
    rewrite remove_is_marker_cache, app_nil_r.
    fold (remove is_marker (anonymous <$> remove is_marker (children (v - 1) s))).
    by rewrite remove_is_marker_anonymous, remove_is_marker_idemp.
  - unfold children. by rewrite loadAnnotations_lookup_ne.
Qed.

Lemma load_one_is_Some p s v :
  is_Some (pages (load_one s v) !! p) ↔ is_Some (pages s !! p).
Proof.
  unfold load_one. destruct (v <=? 0)%Z; [done|].
  destruct (pages s !! (v - 1)%Z); [apply loadAnnotations_is_Some|done].
Qed.

Lemma load_snoc view v s : load (view ++ [v]) s = load_one (load view s) v.
Proof. unfold load. by rewrite foldl_app. Qed.

Lemma load_others p view s :
  anonymous <$> remove is_marker (children p (load view s))
  = anonymous <$> remove is_marker (children p s).
Proof.
  induction view as [|v view IH] using rev_ind; [done|].
  by rewrite load_snoc, load_one_others.
Qed.

Lemma load_is_Some p view s :
  is_Some (pages (load view s) !! p) ↔ is_Some (pages s !! p).
Proof.
  induction view as [|v view IH] using rev_ind; [done|].
  by rewrite load_snoc, load_one_is_Some.
Qed.

Lemma load_painted view p s :
  painted view p s →
  anonymous <$> children p (load view s)
  = (anonymous <$> remove is_marker (children p s)) ++ markers_of_cache p s.
Proof.
  induction view as [|v view IH] using rev_ind; intros (Hin&Hpos&Hp).
  { by apply elem_of_nil in Hin. }
  rewrite load_snoc. unfold load_one at 1.
  destruct (decide (v = (p + 1)%Z)) as [->|Hne].
  - destruct (p + 1 <=? 0)%Z eqn:Hle; [lia|].
    replace (p + 1 - 1)%Z with p by lia.
    apply (load_is_Some p view) in Hp as Hp'. destruct Hp' as [cs Hcs].
    rewrite Hcs, loadAnnotations_children by eauto.
    by rewrite load_others, (markers_of_cache_dom_only p s) by apply load_dom_only.
  - apply elem_of_app in Hin as [Hin|Hin]; [|apply list_elem_of_singleton in Hin; lia].
    destruct (v <=? 0)%Z; [by apply IH|].
    destruct (pages (load view s) !! (v - 1)%Z); [|by apply IH].
    unfold children. rewrite loadAnnotations_lookup_ne by lia. by apply IH.
Qed.

Lemma load_not_painted view p s :
  ¬ painted view p s → pages (load view s) !! p = pages s !! p.
Proof.
  induction view as [|v view IH] using rev_ind; intros Hnp; [done|].
  rewrite load_snoc. unfold load_one at 1.
  assert (¬ painted view p s) as Hnp'.
  { intros (?&?&?). apply Hnp. repeat split; try done. apply elem_of_app; auto. }
  destruct (v <=? 0)%Z eqn:Hle; [by apply IH|].
  destruct (pages (load view s) !! (v - 1)%Z) eqn:Hv; [|by apply IH].
  destruct (decide ((v - 1)%Z = p)) as [<-|Hne].
  - exfalso. apply Hnp. repeat split.
    + apply elem_of_app. right. apply list_elem_of_singleton. lia.
    + lia.
    + apply (load_is_Some (v - 1) view). eauto.
  - rewrite loadAnnotations_lookup_ne by done. by apply IH.
Qed.

Lemma load_markers view p s :
  painted view p s → markers_on p (load view s) = markers_of_cache p s.
Proof.
  intros Hp. rewrite markers_on_children, load_painted by done.
  rewrite List.filter_app, filter_is_marker_anonymous, filter_is_marker_remove.
  simpl. apply filter_is_marker_cache.
Qed.

Lemma load_twice view p s :
  anonymous <$> children p (load view (load view s))
  = anonymous <$> children p (load view s).
Proof.
  destruct (decide (painted view p s)) as [Hp|Hnp].
  - assert (painted view p (load view s)) as Hp'.
    { destruct Hp as (?&?&?). repeat split; try done. by apply load_is_Some. }
    rewrite !load_painted by done. f_equal.
    + apply load_others.
    + apply markers_of_cache_dom_only, load_dom_only.
  - assert (¬ painted view p (load view s)) as Hnp'.
    { intros (?&?&?). apply Hnp. repeat split; try done. by eapply load_is_Some. }
    unfold children. by rewrite (load_not_painted view p (load view s)).
Qed.
End ViewerFacts.

(** ** The interaction mode along a run *)

Section ModeFacts.
Import JsNum Viewer.

Lemma setMode_mode mode s : currentMode (setMode mode s) = mode.
Proof. done. Qed.

Lemma toggleMode_mode mode s :
  currentMode (toggleMode mode s)
  = if decide (currentMode s = Some mode) then None else Some mode.
Proof. unfold toggleMode. by destruct (decide _). Qed.

Lemma chain_mode {A} (r : Promise A) (f : Reaction A unit) (g : Reaction string unit) s :
  (∀ a s, currentMode (f a s).1 = currentMode s) →
  (∀ err s, currentMode (g err s).1 = currentMode s) →
  currentMode (catch_ (then_ (s, r) f) g).1 = currentMode s.
Proof.
  intros Hf Hg. destruct r as [a|err]; simpl; [|apply Hg].
  specialize (Hf a s). destruct (f a s) as [s' [|err]]; simpl in *; [done|].
  by rewrite Hg.
Qed.

(** Every handler but [toggleMode] keeps the mode or resets it to [null]. *)
Lemma step_mode K s ev :
  match ev with
  | ToggleMode mode =>
      currentMode (step K s ev)
      = if decide (currentMode s = Some mode) then None else Some mode
  | _ => currentMode (step K s ev) = currentMode s ∨ currentMode (step K s ev) = None
  end.
Proof.
  destruct ev; simpl.
  - apply toggleMode_mode.
  - by left.
  - unfold layer_click. destruct (_ || _); [by left|].
    destruct (decide _); [right; apply setMode_mode|by left].
  - left. unfold note_posted. apply chain_mode; [|done].
    intros d s'. by destruct (success d).
  - left. unfold note_marker_click. by destruct (truthy _).
  - left. unfold mousedown_layer. destruct (negb _); [done|]. by destruct (e_on_delete _).
  - left. unfold mousemove. by destruct (highlightStart s), (highlightPreview s).
  - left. unfold mouseup. destruct (highlightStart s), (highlightPreview s); try done.
    simpl. by destruct (_ || _).
  - left. unfold highlight_posted. apply chain_mode; [|done].
    intros d s'. by destruct (success d).
  - left. unfold deleteNote. by destruct (negb _).
  - left. unfold note_deleted. apply chain_mode; [|done].
    intros d s'. by destruct (success d).
  - left. unfold deleteHighlight. by destruct (negb _).
  - left. unfold highlight_deleted. apply chain_mode; [|done].
    intros d s'. by destruct (success d).
  - left. unfold initial_load, preloadAnnotations. simpl.
    by destruct (load_dom_only currentView s) as (?&_).
  - left. unfold preload_arrival. destruct (promise_all _ _) as [j [r|]]; [|done].
    unfold annotations_loaded.
    rewrite chain_mode; [done| |done].
    intros nh s'. simpl.
    by destruct (load_dom_only currentView
      (set_allHighlights (array_or_empty nh.2) (set_allNotes (array_or_empty nh.1) s')))
      as (?&_).
  - left. by destruct (load_dom_only view s) as (?&_).
  - left. by destruct (preloadPages_dom_only K page s) as (?&_).
Qed.

Lemma step_mode_ok K s ev : from_toolbar ev → mode_ok s → mode_ok (step K s ev).
Proof.
  intros Hev Hs. pose proof (step_mode K s ev) as H. unfold mode_ok in *.
  destruct ev; try (destruct H as [-> | ->]; by auto).
  rewrite H. destruct (decide _); [by auto|]. simpl in Hev. destruct Hev as [->| ->]; auto.
Qed.

Lemma run_mode_ok K evs :
  Forall from_toolbar evs → ∀ s, mode_ok s → mode_ok (run K s evs).
Proof.
  induction 1 as [|ev evs Hev _ IH]; intros s Hs; simpl; [done|].
  by apply IH, step_mode_ok.
Qed.
End ModeFacts.

(** ** Creating and deleting *)

Section HandlerFacts.
Import JsNum Viewer.

Lemma remove_children sel p s :
  children p (set_pages (remove sel <$> pages s) s) = remove sel (children p s).
Proof. unfold children. simpl. rewrite lookup_fmap. by destruct (pages s !! p). Qed.

Lemma elem_of_remove sel c cs : c ∈ remove sel cs ↔ c ∈ cs ∧ sel c = false.
Proof.
  unfold remove. rewrite !list_elem_of_In, filter_In.
  by rewrite negb_true_iff.
Qed.

Lemma remove_markers_on sel p s :
  (∀ c, sel c = true → is_marker c = false) →
  markers_on p (set_pages (remove sel <$> pages s) s) = markers_on p s.
Proof.
  intros Hsel. unfold markers_on. rewrite remove_children. f_equal.
  induction (children p s) as [|c cs IH]; [done|]. simpl.
  destruct (sel c) eqn:Hc; simpl.
  - by rewrite (Hsel c Hc).
  - destruct (is_marker c); by rewrite IH.
Qed.

End HandlerFacts.

(** ** The page flipper *)

Section FlipbookFacts.
Import JsNum Flipbook.

(** The loop of [renderPages] ends on its test, not on its fuel: from the
    even [i = 2 k] it makes the wrappers [k + 1], [k + 2], .. up to the
    last spread. *)
Lemma renderPages_from_index (fuel : nat) :
  ∀ k total, (total - 2 * k ≤ 2 * Z.of_nat fuel)%Z →
    data_index <$> renderPages_from fuel (2 * k) total
    = seqZ (k + 1) ((total - 2 * k + 1) / 2).
Proof.
  induction fuel as [|fuel IH]; intros k total Hfuel; simpl.
  - rewrite seqZ_nil; [done|].
    assert ((total - 2 * k + 1) / 2 < 1)%Z by (apply Z.div_lt_upper_bound; lia). lia.
  - destruct (2 * k <? total)%Z eqn:Hlt.
    + apply Z.ltb_lt in Hlt.
      assert (0 < (total - 2 * k + 1) / 2)%Z by (apply Z.div_str_pos; lia).
      rewrite seqZ_cons by done. rewrite fmap_cons. simpl. f_equal.
      * rewrite (Z.mul_comm 2 k). rewrite Z.div_mul by lia. lia.
      * replace (2 * k + 2)%Z with (2 * (k + 1))%Z by lia.
        rewrite IH by lia. f_equal; try lia.
        replace (total - 2 * k + 1)%Z with ((total - 2 * (k + 1) + 1) + 1 * 2)%Z by lia.
        rewrite Z.div_add by lia. lia.
    + apply Z.ltb_ge in Hlt. rewrite seqZ_nil; [done|].
      assert ((total - 2 * k + 1) / 2 < 1)%Z by (apply Z.div_lt_upper_bound; lia). lia.
Qed.

Lemma constructor_book total :
  data_index <$> book (constructor total) = seqZ 1 ((total + 1) / 2)
  ∧ length (book (constructor total)) = Z.to_nat ((total + 1) / 2).
Proof.
  assert (data_index <$> book (constructor total) = seqZ 1 ((total + 1) / 2)) as H.
  { simpl. rewrite (renderPages_from_index _ 0 total) by lia.
    f_equal. f_equal. lia. }
  split; [done|].
  by rewrite <- (length_fmap data_index), H, length_seqZ.
Qed.

Lemma constructor_well_formed total : well_formed (constructor total).
Proof.
  destruct (constructor_book total) as [Hidx Hlen]. split.
  - rewrite Hidx, Hlen. destruct (decide (0 ≤ (total + 1) / 2)%Z).
    + by rewrite Z2Nat.id.
    + rewrite !seqZ_nil; [done|lia|lia].
  - simpl. lia.
Qed.

Lemma querySelector_Some index b :
  is_Some (querySelector index b) ↔ index ∈ data_index <$> b.
Proof.
  induction b as [|w b IH].
  - split; [by intros [? ?]|by intros ?%elem_of_nil].
  - rewrite fmap_cons, elem_of_cons. simpl.
    destruct (data_index w =? index)%Z eqn:Hw.
    + apply Z.eqb_eq in Hw. split; [by left|eauto].
    + apply Z.eqb_neq in Hw. rewrite fmap_is_Some, IH.
      split; [by right|]. by intros [?|?].
Qed.

Lemma alter_set_flipped_index v (k : nat) (b : list PageWrapper) :
  data_index <$> alter (set_flipped v) k b = data_index <$> b.
Proof.
  revert k. induction b as [|w b IH]; intros [|k]; simpl; try done.
  f_equal. apply IH.
Qed.

Lemma nextPage_cases s :
  nextPage s = s
  ∨ isAnimating s = false
    ∧ (∃ k, querySelector (currentSpread s) (book s) = Some k
            ∧ book (nextPage s) = alter (set_flipped true) k (book s))
    ∧ currentSpread (nextPage s) = (currentSpread s + 1)%Z
    ∧ isAnimating (nextPage s) = true.
Proof.
  unfold nextPage. destruct (isAnimating s); [by left|].
  destruct (querySelector _ _) as [k|]; [|by left]. right.
  split_and!; try done. by exists k.
Qed.

Lemma nextPage_well_formed s : well_formed s → well_formed (nextPage s).
Proof.
  intros [Hidx Hcur]. destruct (nextPage_cases s) as [->|(_&(k&Hk&Hbook)&Hnext&_)];
    [done|].
  assert (is_Some (querySelector (currentSpread s) (book s))) as Hfound by eauto.
  apply querySelector_Some in Hfound. rewrite Hidx in Hfound.
  apply elem_of_seqZ in Hfound.
  split.
  - by rewrite Hbook, alter_set_flipped_index, length_alter.
  - rewrite Hbook, Hnext, length_alter. lia.
Qed.

Lemma prevPage_well_formed s : well_formed s → well_formed (prevPage s).
Proof.
  intros [Hidx Hcur]. unfold prevPage. destruct (isAnimating s); [done|].
  destruct (currentSpread s <=? 1)%Z eqn:Hle; [done|]. apply Z.leb_gt in Hle.
  simpl. destruct (querySelector _ _) as [k|]; split; simpl;
    rewrite ?alter_set_flipped_index, ?length_alter; try done; lia.
Qed.

Lemma step_well_formed s ev : well_formed s → well_formed (step s ev).
Proof.
  intros Hs. destruct ev; simpl.
  - by apply nextPage_well_formed.
  - by apply prevPage_well_formed.
  - destruct (String.eqb key "ArrowRight"), (String.eqb key "ArrowLeft");
      auto using nextPage_well_formed, prevPage_well_formed.
  - done.
  - destruct (gtb (sub (startX s) screenX) _).
    + destruct (gtb (sub screenX (startX (nextPage s))) _);
        auto using nextPage_well_formed, prevPage_well_formed.
    + destruct (gtb (sub screenX (startX s)) _);
        auto using nextPage_well_formed, prevPage_well_formed.
  - by destruct (timers s).
Qed.

Lemma run_well_formed evs : ∀ s, well_formed s → well_formed (run s evs).
Proof.
  induction evs as [|ev evs IH]; intros s Hs; simpl; [done|].
  by apply IH, step_well_formed.
Qed.

Lemma step_book_length s ev : length (book (step s ev)) = length (book s).
Proof.
  assert (∀ s, length (book (nextPage s)) = length (book s)) as Hnext.
  { intros s0. destruct (nextPage_cases s0) as [->|(_&(k&_&->)&_)]; [done|].
    apply length_alter. }
  assert (∀ s, length (book (prevPage s)) = length (book s)) as Hprev.
  { intros s0. unfold prevPage. destruct (isAnimating s0); [done|].
    destruct (_ <=? _)%Z; [done|]. simpl.
    destruct (querySelector _ _); simpl; [apply length_alter|done]. }
  destruct ev; simpl; try done.
  - destruct (String.eqb key "ArrowRight"), (String.eqb key "ArrowLeft");
      by rewrite ?Hprev, ?Hnext.
  - destruct (gtb (sub (startX s) screenX) _).
    + destruct (gtb (sub screenX (startX (nextPage s))) _); by rewrite ?Hprev, ?Hnext.
    + destruct (gtb (sub screenX (startX s)) _); by rewrite ?Hprev, ?Hnext.
  - by destruct (timers s).
Qed.

Lemma run_book_length evs : ∀ s, length (book (run s evs)) = length (book s).
Proof.
  induction evs as [|ev evs IH]; intros s; simpl; [done|].
  by rewrite IH, step_book_length.
Qed.
End FlipbookFacts.

(** * The claims *)

Section Claims.
Import JsNum Viewer.

(** C1. [createNote] and [createHighlight]: the click and the release of
    the drag leave the cache and the markers as they are; when the create
    request settles, the record (with the id of the response) joins the
    cache and its marker joins the page only if the response says
    [success]; on [success: false] and on a rejected request the cache and
    the DOM stay as they are, an [alert] reports the failure, and the
    promise chain ends fulfilled, that is, nothing is thrown. *)
Theorem C1_create_only_on_success :
  (∀ pageNum e box answer s,
     untouched s (layer_click pageNum e box answer s))
  ∧ (∀ e box s p,
     let s' := mouseup e box s in
     allNotes s' = allNotes s ∧ allHighlights s' = allHighlights s
     ∧ markers_on p s' = markers_on p s)
  ∧ (∀ pageNum content x y r s,
     let s' := (note_posted pageNum content x y r s).1 in
     (note_posted pageNum content x y r s).2 = Fulfilled ()
     ∧ match r with
       | Fulfilled d =>
           if success d then
             allNotes s' = allNotes s ++ [mkNote (reply_id d) pageNum content x y]
             ∧ allHighlights s' = allHighlights s
             ∧ pages s' = alter (λ cs, cs ++ [NoteMarker (fresh s) x y content (reply_id d)])
                            pageNum (pages s)
             ∧ trace s' = trace s
           else
             untouched s s'
             ∧ length (allNotes s') = length (allNotes s)
             ∧ trace s' = trace s
                 ++ [Alert ("Error: " +:+ or_else (error d) "Failed to create note")]
       | Rejected err =>
           untouched s s'
           ∧ length (allNotes s') = length (allNotes s)
           ∧ trace s' = trace s
               ++ [ConsoleError "Add note error:" err;
                   Alert "Network error: Failed to create note"]
       end)
  ∧ (∀ pageNum coordinates r s,
     let s' := (highlight_posted pageNum coordinates r s).1 in
     (highlight_posted pageNum coordinates r s).2 = Fulfilled ()
     ∧ match r with
       | Fulfilled d =>
           if success d then
             allHighlights s' = allHighlights s
               ++ [mkHighlight (reply_id d) pageNum coordinates
                     (Some (currentHighlightColor s))]
             ∧ allNotes s' = allNotes s
             ∧ pages s' = alter (λ cs, cs ++
                    [HighlightMarker (fresh s)
                       ("highlight-" +:+ or_else (Some (currentHighlightColor s)) "yellow")
                       coordinates (reply_id d)])
                  pageNum (pages s)
             ∧ trace s' = trace s
           else
             untouched s s'
             ∧ length (allHighlights s') = length (allHighlights s)
             ∧ trace s' = trace s
                 ++ [Alert ("Error: " +:+ or_else (error d) "Failed to create highlight")]
       | Rejected err =>
           untouched s s'
           ∧ length (allHighlights s') = length (allHighlights s)
           ∧ trace s' = trace s
               ++ [ConsoleError "Add highlight error:" err;
                   Alert "Network error: Failed to create highlight"]
       end).
Proof.
  split_and!.
  - intros. unfold layer_click, untouched. destruct (_ || _); [done|].
    destruct (decide _); [|done]. destruct answer as [c|]; simpl; [|done].
    by destruct (String.eqb c "").
  - intros e box s p. cbv zeta. unfold mouseup.
    destruct (highlightStart s) as [start|]; [|done].
    destruct (highlightPreview s) as [preview|]; [|done]. simpl.
    set (s1 := if _ || _ then _ else s).
    assert (allNotes s1 = allNotes s ∧ allHighlights s1 = allHighlights s
            ∧ pages s1 = pages s) as (Hn&Hh&Hp).
    { unfold s1. by destruct (_ || _). }
    split_and!; try done.
    rewrite <- (remove_markers_on
                  (λ c, is_preview c && bool_decide (element_id c = preview)) p s)
      by (by intros []).
    unfold markers_on, children. simpl. by rewrite Hp.
  - intros pageNum content x y r s. cbv zeta.
    unfold note_posted, untouched, renderNote, append, alert, emit.
    destruct r as [d|err]; simpl; [destruct (success d); simpl|];
      rewrite ?length_app, <- ?app_assoc; done.
  - intros pageNum coordinates r s. cbv zeta.
    unfold highlight_posted, untouched, renderHighlight, append, alert, emit.
    destruct r as [d|err]; simpl; [destruct (success d); simpl|];
      rewrite ?length_app, <- ?app_assoc; done.
Qed.

(** C1, run: in note mode on [demo_state], a click at (100, 140) answered
    with ["hi"] posts the note and leaves the cache empty; a response
    without [success] keeps it empty, and one with [success] and id 7 puts
    the note into it. *)
Lemma C1_create_only_on_success_witness :
  allNotes (layer_click 0 (mouse_at 100 140) demo_box (Some "hi")
              (toggleMode "note" demo_state)) = []
  ∧ allNotes (note_posted 0 "hi" (of_Z 10) (of_Z 20)
                (Fulfilled (mkReply false 0 None)) demo_state).1 = []
  ∧ allNotes (note_posted 0 "hi" (of_Z 10) (of_Z 20)
                (Fulfilled (mkReply true 7 None)) demo_state).1
    = [mkNote 7 0 "hi" (of_Z 10) (of_Z 20)].
Proof.
  destruct C1_create_only_on_success as (Hclick & _ & Hnote & _).
  split_and!.
  - destruct (Hclick 0%Z (mouse_at 100 140) demo_box (Some "hi")
                (toggleMode "note" demo_state)) as (H & _).
    etrans; [exact H|reflexivity].
  - destruct (Hnote 0%Z "hi" (of_Z 10) (of_Z 20) (Fulfilled (mkReply false 0 None))
                demo_state) as (_ & (H & _) & _).
    etrans; [exact H|reflexivity].
  - destruct (Hnote 0%Z "hi" (of_Z 10) (of_Z 20) (Fulfilled (mkReply true 7 None))
                demo_state) as (_ & H & _).
    etrans; [exact H|reflexivity].
Defined.

(** C2. For two finite corner points, the rectangle of the drag has a
    width and a height that are not negative; its left is the smaller of
    the two abscissas and its top the smaller of the two ordinates (one of
    the two values, and at or below both); its width is [|x2 - x1|] and
    its height [|y2 - y1|]; and the drag from the second point to the
    first gives the same rectangle. *)
Theorem C2_rectangle_normalized x1 y1 x2 y2 :
  is_finite x1 = true → is_finite y1 = true →
  is_finite x2 = true → is_finite y2 = true →
  let b := dragBox x1 y1 x2 y2 in
  leb (of_Z 0) (px_width b) = true ∧ leb (of_Z 0) (px_height b) = true
  ∧ px_left b = Math_min x1 x2 ∧ px_top b = Math_min y1 y2
  ∧ (px_left b = x1 ∨ px_left b = x2)
  ∧ leb (px_left b) x1 = true ∧ leb (px_left b) x2 = true
  ∧ (px_top b = y1 ∨ px_top b = y2)
  ∧ leb (px_top b) y1 = true ∧ leb (px_top b) y2 = true
  ∧ px_width b = Math_abs (sub x2 x1) ∧ px_height b = Math_abs (sub y2 y1)
  ∧ dragBox x2 y2 x1 y1 = b.
Proof.
  intros Hx1 Hy1 Hx2 Hy2. cbv zeta. unfold dragBox. simpl. split_and!; try done.
  - by apply abs_nonneg, sub_finite_not_nan.
  - by apply abs_nonneg, sub_finite_not_nan.
  - apply Math_min_cases.
  - by apply Math_min_le_l.
  - by apply Math_min_le_r.
  - apply Math_min_cases.
  - by apply Math_min_le_l.
  - by apply Math_min_le_r.
  - by rewrite (Math_min_comm x2 x1), (Math_min_comm y2 y1),
      (abs_sub_swap x1 x2), (abs_sub_swap y1 y2).
Qed.

(** C2, run: the drag from (150, 150) back to (10, 10). *)
Lemma C2_rectangle_normalized_witness :
  dragBox (of_Z 150) (of_Z 150) (of_Z 10) (of_Z 10)
  = mkPixelBox (of_Z 10) (of_Z 10) (of_Z 140) (of_Z 140)
  ∧ dragBox (of_Z 10) (of_Z 10) (of_Z 150) (of_Z 150)
    = dragBox (of_Z 150) (of_Z 150) (of_Z 10) (of_Z 10).
Proof.
  destruct (C2_rectangle_normalized (of_Z 150) (of_Z 150) (of_Z 10) (of_Z 10))
    as (_ & _ & _ & _ & _ & _ & _ & _ & _ & _ & _ & _ & H);
    try reflexivity.
  split; [vm_compute; reflexivity|exact H].
Defined.

(** C3, as the claim has it, fails on its own example: on the 1000 by 700
    layer the drag from (10, 10) to (150, 150) does not post a highlight
    whose [w] is 14 and whose [h] is 20.  The quotient 140 / 1000 is
    rounded before it is multiplied by 100, and the product is the next
    binary64 value above 14. *)
Lemma C3_width_is_not_14 :
  ¬ ∃ x y,
      trace (mouseup (mouse_at 150 150) demo_box demo_drag)
      = [Fetch (POST_highlight 0 (mkCoordinates x y (of_Z 14) (of_Z 20)) "yellow")].
Proof. intros (x & y & H). vm_compute in H. discriminate H. Qed.

(** C3, amended.  With a drag in progress and finite coordinates, the
    release posts nothing exactly when both [|endX - startX|] and
    [|endY - startY|], in layer pixels, are at or below 10, and never
    changes the cache by itself; otherwise it posts one highlight whose
    rectangle is the drag rectangle as a percentage of the layer.  On the
    1000 by 700 layer the drag from (10, 10) to (12, 11) posts nothing;
    the drag from (10, 10) to (150, 150) posts a highlight with [x = 1],
    [y = 1.4285714285714286], [h = 20] and [w] the binary64 value next
    above 14 (14.000000000000002), which a [success] response puts into
    the cache. *)
Theorem C3_drag_threshold :
  (∀ e box s start preview,
     highlightStart s = Some start → highlightPreview s = Some preview →
     is_finite (release_point e).1 = true → is_finite (release_point e).2 = true →
     is_finite (hs_offset start).1 = true → is_finite (hs_offset start).2 = true →
     is_finite (hs_x start) = true → is_finite (hs_y start) = true →
     let endX := sub (release_point e).1 (hs_offset start).1 in
     let endY := sub (release_point e).2 (hs_offset start).2 in
     let s' := mouseup e box s in
     allNotes s' = allNotes s ∧ allHighlights s' = allHighlights s
     ∧ (trace s' = trace s
        ↔ leb (Math_abs (sub endX (hs_x start))) (of_Z 10) = true
          ∧ leb (Math_abs (sub endY (hs_y start))) (of_Z 10) = true)
     ∧ (trace s' = trace s
        ∨ trace s' = trace s
            ++ [Fetch (POST_highlight (hs_pageNum start)
                         (percent_of box (dragBox (hs_x start) (hs_y start) endX endY))
                         (currentHighlightColor s))]))
  ∧ trace (mouseup (mouse_at 12 11) demo_box demo_drag) = []
  ∧ trace (mouseup (mouse_at 150 150) demo_box demo_drag)
    = [Fetch (POST_highlight 0
                (mkCoordinates (of_Z 1) (S754_finite false 6433713753386423 (-52))
                   (S754_finite false 7881299347898369 (-49)) (of_Z 20))
                "yellow")]
  ∧ of_Z 14 = S754_finite false 7881299347898368 (-49)
  ∧ (∀ id err,
       allHighlights
         (highlight_posted 0
            (mkCoordinates (of_Z 1) (S754_finite false 6433713753386423 (-52))
               (S754_finite false 7881299347898369 (-49)) (of_Z 20))
            (Fulfilled (mkReply true id err))
            (mouseup (mouse_at 150 150) demo_box demo_drag)).1
       = [mkHighlight id 0
            (mkCoordinates (of_Z 1) (S754_finite false 6433713753386423 (-52))
               (S754_finite false 7881299347898369 (-49)) (of_Z 20))
            (Some "yellow")]).
Proof.
  split_and!.
  - intros e box s start preview Hstart Hpreview Hrx Hry Hox Hoy Hsx Hsy. cbv zeta.
    unfold mouseup. rewrite Hstart, Hpreview.
    assert ((if e_touch e then (e_changedTouches0 e).1 else e_clientX e)
            = (release_point e).1) as -> by (unfold release_point; by destruct (e_touch e)).
    assert ((if e_touch e then (e_changedTouches0 e).2 else e_clientY e)
            = (release_point e).2) as -> by (unfold release_point; by destruct (e_touch e)).
    set (endX := sub (release_point e).1 (hs_offset start).1).
    set (endY := sub (release_point e).2 (hs_offset start).2).
    set (dx := Math_abs (sub endX (hs_x start))).
    set (dy := Math_abs (sub endY (hs_y start))).
    assert (dx ≠ S754_nan) as Hdx
      by (by apply abs_not_nan, sub_not_nan; [apply sub_finite_not_nan|]).
    assert (dy ≠ S754_nan) as Hdy
      by (by apply abs_not_nan, sub_not_nan; [apply sub_finite_not_nan|]).
    rewrite (gtb_negb_leb dx), (gtb_negb_leb dy) by done.
    assert (∀ (l : list Effect) x, l ++ [x] ≠ l) as Hsnoc.
    { intros l x Heq. apply (f_equal length) in Heq.
      rewrite length_app in Heq. simpl in Heq. lia. }
    destruct (leb dx (of_Z 10)), (leb dy (of_Z 10)); simpl;
      (split_and!; [done|done| |by auto]).
    + done.
    + split; [intros Heq; by apply Hsnoc in Heq|by intros [? ?]].
    + split; [intros Heq; by apply Hsnoc in Heq|by intros [? ?]].
    + split; [intros Heq; by apply Hsnoc in Heq|by intros [? ?]].
  - vm_compute. reflexivity.
  - vm_compute. reflexivity.
  - vm_compute. reflexivity.
  - intros id err. vm_compute. reflexivity.
Qed.

(** C3, run: the two drags of the claim, through the general statement. *)
Lemma C3_drag_threshold_witness :
  (trace (mouseup (mouse_at 12 11) demo_box demo_drag) = trace demo_drag
   ↔ leb (Math_abs (sub (sub (of_Z 12) (of_Z 0)) (of_Z 10))) (of_Z 10) = true
     ∧ leb (Math_abs (sub (sub (of_Z 11) (of_Z 0)) (of_Z 10))) (of_Z 10) = true)
  ∧ (trace (mouseup (mouse_at 150 150) demo_box demo_drag) = trace demo_drag
     ↔ leb (Math_abs (sub (sub (of_Z 150) (of_Z 0)) (of_Z 10))) (of_Z 10) = true
       ∧ leb (Math_abs (sub (sub (of_Z 150) (of_Z 0)) (of_Z 10))) (of_Z 10) = true).
Proof.
  destruct C3_drag_threshold as (Hrelease & _).
  split.
  - refine (proj1 (proj2 (proj2 (Hrelease (mouse_at 12 11) demo_box demo_drag
              (mkDragStart (of_Z 10) (of_Z 10) 0 (of_Z 0, of_Z 0)) 0%nat
              _ _ _ _ _ _ _ _)))); reflexivity.
  - refine (proj1 (proj2 (proj2 (Hrelease (mouse_at 150 150) demo_box demo_drag
              (mkDragStart (of_Z 10) (of_Z 10) 0 (of_Z 0, of_Z 0)) 0%nat
              _ _ _ _ _ _ _ _)))); reflexivity.
Defined.

(** Deleting, step by step.  [deleteNote] and [deleteHighlight] ask for
    confirmation first and send the DELETE request only after a yes;
    neither touches the cache or the DOM before the response.  On a
    [success] response the entries with that id leave the cache (the
    others stay, in order) and the node [el], if it is a marker of the
    kind and still in the document, leaves the DOM (the other nodes stay,
    whatever id they were rendered for); on [success: false] and on a
    rejected request the cache and the DOM stay as they are and an [alert]
    reports the error; the promise chain ends fulfilled in every case. *)
Lemma delete_needs_confirmation_and_success :
  (∀ id el answer s,
     let s' := deleteNote id el answer s in
     untouched s s'
     ∧ trace s' = trace s ++ Confirm "Delete this note?" answer
                    :: (if answer then [Fetch (DELETE_note id)] else []))
  ∧ (∀ id el answer s,
     let s' := deleteHighlight id el answer s in
     untouched s s'
     ∧ trace s' = trace s ++ Confirm "Remove highlight?" answer
                    :: (if answer then [Fetch (DELETE_highlight id)] else []))
  ∧ (∀ id el r s,
     let s' := (note_deleted id el r s).1 in
     (note_deleted id el r s).2 = Fulfilled ()
     ∧ match r with
       | Fulfilled d =>
           if success d then
             allNotes s' = List.filter (λ n, negb (n_id n =? id)%Z) (allNotes s)
             ∧ (∀ n, n ∈ allNotes s' → n_id n ≠ id)
             ∧ allHighlights s' = allHighlights s
             ∧ (∀ p c, c ∈ children p s' ↔
                  c ∈ children p s ∧ ¬ (is_note_marker c = true ∧ element_id c = el))
             ∧ trace s' = trace s
           else
             untouched s s'
             ∧ trace s' = trace s
                 ++ [Alert ("Error: " +:+ or_else (error d) "Failed to delete note")]
       | Rejected err =>
           untouched s s'
           ∧ trace s' = trace s
               ++ [ConsoleError "Delete note error:" err;
                   Alert "Network error: Failed to delete note"]
       end)
  ∧ (∀ id el r s,
     let s' := (highlight_deleted id el r s).1 in
     (highlight_deleted id el r s).2 = Fulfilled ()
     ∧ match r with
       | Fulfilled d =>
           if success d then
             allHighlights s' = List.filter (λ h, negb (h_id h =? id)%Z) (allHighlights s)
             ∧ (∀ h, h ∈ allHighlights s' → h_id h ≠ id)
             ∧ allNotes s' = allNotes s
             ∧ (∀ p c, c ∈ children p s' ↔
                  c ∈ children p s ∧ ¬ (is_highlight_marker c = true ∧ element_id c = el))
             ∧ trace s' = trace s
           else
             untouched s s'
             ∧ trace s' = trace s
                 ++ [Alert ("Error: " +:+ or_else (error d) "Failed to delete highlight")]
       | Rejected err =>
           untouched s s'
           ∧ trace s' = trace s
               ++ [ConsoleError "Delete highlight error:" err;
                   Alert "Network error: Failed to delete highlight"]
       end).
Proof.
  assert (∀ (sel : Element → bool) el p c s,
            c ∈ children p (set_pages
                  (remove (λ c, sel c && bool_decide (element_id c = el)) <$> pages s) s)
            ↔ c ∈ children p s ∧ ¬ (sel c = true ∧ element_id c = el)) as Hdom.
  { intros. rewrite remove_children, elem_of_remove.
    rewrite andb_false_iff, bool_decide_eq_false.
    destruct (sel c); intuition congruence. }
  assert (∀ {A} (key : A → Z) id l a,
            a ∈ List.filter (λ a, negb (key a =? id)%Z) l → key a ≠ id) as Hcache.
  { intros A key id l a Ha. apply list_elem_of_In, filter_In in Ha as [_ Ha].
    apply negb_true_iff in Ha. lia. }
  split_and!.
  - intros id el answer s. cbv zeta. unfold deleteNote, untouched, emit.
    destruct answer; simpl; rewrite <- ?app_assoc; done.
  - intros id el answer s. cbv zeta. unfold deleteHighlight, untouched, emit.
    destruct answer; simpl; rewrite <- ?app_assoc; done.
  - intros id el r s. cbv zeta. unfold note_deleted, untouched, alert, emit.
    destruct r as [d|err]; simpl; [destruct (success d); simpl|];
      rewrite <- ?app_assoc; try done.
    split_and!; try done;
      [intros n; apply (Hcache _ n_id)|intros p c; apply (Hdom is_note_marker)].
  - intros id el r s. cbv zeta. unfold highlight_deleted, untouched, alert, emit.
    destruct r as [d|err]; simpl; [destruct (success d); simpl|];
      rewrite <- ?app_assoc; try done.
    split_and!; try done;
      [intros h; apply (Hcache _ h_id)|intros p c; apply (Hdom is_highlight_marker)].
Qed.

(** C5. Along every run of the viewer from its initial state, with the
    toolbar calling [toggleMode('note')] and [toggleMode('highlight')],
    the mode is [null] (browse), ['note'] or ['highlight'].
    [toggleMode(mode)] goes to browse when the current mode is [mode] and
    to [mode] otherwise.  Toggling ['note'] on and then ['highlight']
    leaves the mode ['highlight'] with the highlight button the only
    active one; toggling ['highlight'] again returns to browse with no
    button active. *)
Theorem C5_mode_exclusive :
  (∀ K pageNumbers tb evs,
     Forall from_toolbar evs → mode_ok (run K (initial pageNumbers tb) evs))
  ∧ (∀ mode s,
     currentMode (toggleMode mode s)
     = if decide (currentMode s = Some mode) then None else Some mode)
  ∧ (∀ s, currentMode s ≠ Some "note" →
     let s1 := toggleMode "note" s in
     let s2 := toggleMode "highlight" s1 in
     let s3 := toggleMode "highlight" s2 in
     currentMode s1 = Some "note"
     ∧ currentMode s2 = Some "highlight"
     ∧ noteBtnActive (toolbar s2) = false ∧ highlightBtnActive (toolbar s2) = true
     ∧ currentMode s3 = None
     ∧ noteBtnActive (toolbar s3) = false ∧ highlightBtnActive (toolbar s3) = false).
Proof.
  split_and!.
  - intros. apply run_mode_ok; [done|by left].
  - intros. apply toggleMode_mode.
  - intros s Hs. cbv zeta.
    assert (toggleMode "note" s = setMode (Some "note") s) as ->.
    { unfold toggleMode. by destruct (decide _). }
    done.
Qed.

(** C5, run: from [demo_state] the note button and then the highlight
    button are pressed. *)
Lemma C5_mode_exclusive_witness :
  mode_ok (run 10 demo_state [ToggleMode "note"; ToggleMode "highlight"])
  ∧ currentMode (toggleMode "highlight" (toggleMode "note" demo_state))
    = Some "highlight".
Proof.
  destruct C5_mode_exclusive as (Hinv & _ & Hscenario). split.
  - apply (Hinv 10%Z [0; 1; 2; 3]%Z demo_toolbar).
    constructor; [left; reflexivity|].
    constructor; [right; reflexivity|constructor].
  - apply (Hscenario demo_state). simpl. discriminate.
Defined.

(** C7. [preloadAnnotations] sends both collection requests at once and
    changes nothing else.  While only one response is in, the cache and
    the DOM stay as they are.  When both are in, in either order, the
    outcome is the same: if both are fulfilled, the two collections become
    the cache (a body that is not an array counts as empty) and the
    current view is rendered; if one of them is rejected, both collections
    are empty, the DOM is as before, the failure goes to the console and
    no alert is shown, and every later rendering paints no marker at all.
    No reaction throws. *)
Theorem C7_preload_join :
  (∀ s,
     untouched s (preloadAnnotations s)
     ∧ trace (preloadAnnotations s) = trace s ++ [Fetch GET_notes; Fetch GET_highlights])
  ∧ (∀ view a s, (preload_arrival view a s).2 = Fulfilled ())
  ∧ (∀ view notes highlights s,
     untouched s (arrive view (NotesSettled (Fulfilled notes)) (preloadAnnotations s))
     ∧ untouched s
         (arrive view (HighlightsSettled (Fulfilled highlights)) (preloadAnnotations s)))
  ∧ (∀ view view' rn rh s s',
     s' = arrive view' (HighlightsSettled rh)
            (arrive view (NotesSettled rn) (preloadAnnotations s))
     ∨ s' = arrive view' (NotesSettled rn)
              (arrive view (HighlightsSettled rh) (preloadAnnotations s)) →
     match rn, rh with
     | Fulfilled notes, Fulfilled highlights =>
         allNotes s' = array_or_empty notes
         ∧ allHighlights s' = array_or_empty highlights
         ∧ trace s' = trace (preloadAnnotations s)
         ∧ (∀ p, painted view' p s → markers_on p s' = markers_of_cache p s')
         ∧ (∀ p, ¬ painted view' p s → pages s' !! p = pages s !! p)
     | _, _ =>
         allNotes s' = [] ∧ allHighlights s' = []
         ∧ pages s' = pages s
         ∧ (∃ err, trace s' = trace (preloadAnnotations s)
                     ++ [ConsoleError "Failed to load annotations:" err])
         ∧ (∀ w p, painted w p s' → markers_on p (load w s') = [])
     end).
Proof.
  assert (∀ s, allNotes s = [] → allHighlights s = [] →
            ∀ w p, painted w p s → markers_on p (load w s) = []) as Hblank.
  { intros s Hn Hh w p Hp. rewrite load_markers by done.
    unfold markers_of_cache. by rewrite Hn, Hh. }
  split_and!.
  - intros s. split; [done|]. simpl. by rewrite <- app_assoc.
  - intros view a s. unfold preload_arrival.
    destruct (promise_all a (preloadJoin s)) as [j [[nh|err]|]]; done.
  - intros view notes highlights s. split; done.
  - intros view view' rn rh s s' Hs'.
    destruct rn as [notes|en], rh as [highlights|eh];
      destruct Hs' as [-> | ->]; unfold arrive, preload_arrival; simpl.
    all: try (split_and!; [done|done|done|by eexists|by apply Hblank]).
    all: set (s0 := set_allHighlights _ (set_allNotes _ _));
      destruct (load_dom_only view' s0) as (_&_&Hn&Hh&_&_&_&_&Ht);
      split_and!; [by rewrite Hn|by rewrite Hh|by rewrite Ht| |].
    all: intros p Hp.
    all: try (rewrite (load_markers view' p s0) by done;
              symmetry; apply markers_of_cache_dom_only, load_dom_only).
    all: by rewrite (load_not_painted view' p s0).
Qed.

(** C7, run: the highlights request is rejected after the notes have
    arrived. *)
Lemma C7_preload_join_witness :
  allNotes (arrive [0; 1]%Z (HighlightsSettled (Rejected "TypeError: Failed to fetch"))
              (arrive [0; 1]%Z (NotesSettled (Fulfilled (JArray [demo_note])))
                 (preloadAnnotations demo_state))) = []
  ∧ markers_on 0
      (load [0; 1]%Z
         (arrive [0; 1]%Z (HighlightsSettled (Rejected "TypeError: Failed to fetch"))
            (arrive [0; 1]%Z (NotesSettled (Fulfilled (JArray [demo_note])))
               (preloadAnnotations demo_state)))) = [].
Proof.
  destruct C7_preload_join as (_ & _ & _ & Hjoin).
  destruct (Hjoin [0; 1]%Z [0; 1]%Z (Fulfilled (JArray [demo_note]))
              (Rejected "TypeError: Failed to fetch") demo_state _ (or_introl eq_refl))
    as (Hn & _ & _ & _ & Hblank).
  split; [exact Hn|]. apply Hblank.
  unfold painted. split; [|split].
  - apply (bool_decide_unpack _). vm_compute. exact I.
  - lia.
  - vm_compute. eauto.
Defined.

(** C8. In note mode, when [prompt] is cancelled ([null]) or answers the
    empty string, the click handler ends without a request, without an
    alert and with the cache and the DOM as they were: the only trace of
    the click is the prompt itself.  (The mode goes back to browse.) *)
Theorem C8_empty_note_aborts pageNum e box answer s :
  answer = None ∨ answer = Some "" →
  let s' := layer_click pageNum e box answer s in
  untouched s s'
  ∧ (trace s' = trace s ∨ trace s' = trace s ++ [Prompt "Enter note content:" answer])
  ∧ (∀ req, Fetch req ∈ trace s' → Fetch req ∈ trace s)
  ∧ (∀ msg, Alert msg ∈ trace s' → Alert msg ∈ trace s)
  ∧ (currentMode s = Some "note" →
     trace s' = trace s ++ [Prompt "Enter note content:" answer]
     ∧ currentMode s' = None).
Proof.
  intros Hanswer. cbv zeta.
  assert (currentMode s ≠ Some "note" ∧ layer_click pageNum e box answer s = s
          ∨ currentMode s = Some "note"
            ∧ layer_click pageNum e box answer s
              = setMode None (emit (Prompt "Enter note content:" answer) s)) as Hcases.
  { unfold layer_click. destruct (_ || _) eqn:Hguard.
    - left. split; [|done]. intros Hm. by rewrite Hm in Hguard.
    - destruct (decide _); [|by left]. right. split; [done|].
      by destruct Hanswer as [-> | ->]. }
  destruct Hcases as [[Hmode ->] | [Hmode ->]].
  - split_and!; try done. by left.
  - split_and!; try done.
    + by right.
    + intros req Hreq. simpl in Hreq.
      apply elem_of_app in Hreq as [Hreq|Hreq]; [done|].
      by apply list_elem_of_singleton in Hreq.
    + intros msg Hmsg. simpl in Hmsg.
      apply elem_of_app in Hmsg as [Hmsg|Hmsg]; [done|].
      by apply list_elem_of_singleton in Hmsg.
Qed.

(** C8, run: in note mode on [demo_state], the prompt is cancelled. *)
Lemma C8_empty_note_aborts_witness :
  trace (layer_click 0 (mouse_at 100 140) demo_box None (toggleMode "note" demo_state))
  = [Prompt "Enter note content:" None]
  ∧ allNotes (layer_click 0 (mouse_at 100 140) demo_box None
                (toggleMode "note" demo_state)) = [].
Proof.
  destruct (C8_empty_note_aborts 0 (mouse_at 100 140) demo_box None
              (toggleMode "note" demo_state)) as ((Hn & _) & _ & _ & _ & Hmode).
  - left. reflexivity.
  - split.
    + destruct Hmode as [H _]; [reflexivity|]. etrans; [exact H|reflexivity].
    + etrans; [exact Hn|reflexivity].
Defined.

(** C9.  [renderHighlight] on the failing input: a highlight of the cache
    whose colour is ["red"], which is not in the palette, is rendered with
    the class [highlight-red], not with the yellow one.  A highlight
    without a colour gets [highlight-yellow] and one with a palette colour
    gets the class of that colour; the preview of a drag, for its part,
    falls back to the yellow style for ["red"]. *)
Theorem C9_unrecognized_color_keeps_its_class :
  children 0 (renderHighlight
                (mkHighlight 9 0 (mkCoordinates (of_Z 5) (of_Z 5) (of_Z 30) (of_Z 10))
                   (Some "red")) 0 demo_state)
  = [HighlightMarker 0 "highlight-red"
       (mkCoordinates (of_Z 5) (of_Z 5) (of_Z 30) (of_Z 10)) 9]
  ∧ children 0 (renderHighlight
                  (mkHighlight 9 0 (mkCoordinates (of_Z 5) (of_Z 5) (of_Z 30) (of_Z 10))
                     None) 0 demo_state)
    = [HighlightMarker 0 "highlight-yellow"
         (mkCoordinates (of_Z 5) (of_Z 5) (of_Z 30) (of_Z 10)) 9]
  ∧ anonymous <$>
      children 0
        (foldl (λ s c,
                  renderHighlight
                    (mkHighlight 9 0 (mkCoordinates (of_Z 5) (of_Z 5) (of_Z 30) (of_Z 10))
                       (Some c)) 0 s)
           demo_state palette)
    = (λ c, HighlightMarker 0 ("highlight-" +:+ c)
              (mkCoordinates (of_Z 5) (of_Z 5) (of_Z 30) (of_Z 10)) 9) <$> palette
  ∧ preview_style "red" = colorStyles_yellow.
Proof. split_and!; vm_compute; reflexivity. Qed.

(** C10.  A [Flipbook] starts on spread 1 with one wrapper for every two
    pages, numbered from 1.  After any sequence of clicks, key presses,
    swipes and animation timeouts, [currentSpread] is at least 1 and at
    most the number of wrappers plus one.  [prevPage] does nothing when
    [currentSpread <= 1] or while an animation runs, and [nextPage] either
    does nothing or, with no animation running and the wrapper of the
    current spread in the book, adds one to [currentSpread]. *)
Theorem C10_currentSpread_bounds :
  (∀ total,
     Flipbook.currentSpread (Flipbook.constructor total) = 1%Z
     ∧ Flipbook.data_index <$> Flipbook.book (Flipbook.constructor total)
       = seqZ 1 ((total + 1) / 2))
  ∧ (∀ total evs,
     let s := Flipbook.run (Flipbook.constructor total) evs in
     (1 ≤ Flipbook.currentSpread s)%Z
     ∧ (Flipbook.currentSpread s ≤ Z.of_nat (length (Flipbook.book s)) + 1)%Z
     ∧ length (Flipbook.book s) = Z.to_nat ((total + 1) / 2))
  ∧ (∀ s,
     (Flipbook.currentSpread s ≤ 1)%Z ∨ Flipbook.isAnimating s = true →
     Flipbook.prevPage s = s)
  ∧ (∀ s,
     Flipbook.nextPage s = s
     ∨ Flipbook.isAnimating s = false
       ∧ is_Some (Flipbook.querySelector (Flipbook.currentSpread s) (Flipbook.book s))
       ∧ Flipbook.currentSpread (Flipbook.nextPage s)
         = (Flipbook.currentSpread s + 1)%Z).
Proof.
  split_and!.
  - intros total. split; [done|]. apply constructor_book.
  - intros total evs. cbv zeta.
    destruct (run_well_formed evs _ (constructor_well_formed total)) as [_ [? ?]].
    split_and!; try done.
    rewrite run_book_length. apply constructor_book.
  - intros s [Hle|Hanim]; unfold Flipbook.prevPage.
    + destruct (Flipbook.isAnimating s); [done|].
      by apply Z.leb_le in Hle as ->.
    + by rewrite Hanim.
  - intros s. destruct (nextPage_cases s) as [?|(?&(k&Hk&_)&?&_)]; [by left|].
    right. split_and!; try done.
Qed.

(** C10, run: a book of five pages has three wrappers; four presses of
    the right arrow, each after the end of the animation, stop at spread
    four, and [prevPage] on the fresh book does nothing. *)
Lemma C10_currentSpread_bounds_witness :
  Flipbook.currentSpread
    (Flipbook.run (Flipbook.constructor 5)
       [Flipbook.KeyDown "ArrowRight"; Flipbook.AnimationTimeout;
        Flipbook.KeyDown "ArrowRight"; Flipbook.AnimationTimeout;
        Flipbook.KeyDown "ArrowRight"; Flipbook.AnimationTimeout;
        Flipbook.KeyDown "ArrowRight"]) = 4%Z
  ∧ Flipbook.prevPage (Flipbook.constructor 5) = Flipbook.constructor 5.
Proof.
  destruct C10_currentSpread_bounds as (_ & _ & Hprev & _).
  split; [vm_compute; reflexivity|].
  apply Hprev. left. vm_compute. discriminate.
Defined.
End Claims.

(** * Beyond the claims *)

(** ** More on the page flipper *)

Section FlipbookMore.
Import JsNum Flipbook FlipbookInv.

Lemma well_formed_lookup s (j : nat) w :
  well_formed s → book s !! j = Some w → data_index w = (1 + Z.of_nat j)%Z.
Proof.
  intros [Hidx _] Hj.
  assert ((data_index <$> book s) !! j = Some (data_index w)) as H
    by (by rewrite list_lookup_fmap, Hj).
  rewrite Hidx in H. by apply lookup_seqZ in H as [-> _].
Qed.

Lemma querySelector_lookup index b k :
  querySelector index b = Some k →
  ∃ w, b !! k = Some w ∧ data_index w = index.
Proof.
  revert k. induction b as [|w b IH]; intros k; simpl; [done|].
  destruct (data_index w =? index)%Z eqn:Hw.
  - intros [= <-]. exists w. split; [done|]. by apply Z.eqb_eq.
  - destruct (querySelector index b) as [k'|]; simpl; [|done].
    intros [= <-]. by apply IH.
Qed.

(** In a well-formed book the wrapper of spread [c] sits at position
    [c - 1]. *)
Lemma querySelector_well_formed s k :
  well_formed s → querySelector (currentSpread s) (book s) = Some k →
  currentSpread s = (1 + Z.of_nat k)%Z.
Proof.
  intros Hs Hk. apply querySelector_lookup in Hk as (w & Hw & <-).
  by eapply well_formed_lookup.
Qed.

Lemma querySelector_found s :
  well_formed s → (currentSpread s ≤ Z.of_nat (length (book s)))%Z →
  is_Some (querySelector (currentSpread s) (book s)).
Proof.
  intros [Hidx Hcur] Hle. apply querySelector_Some. rewrite Hidx.
  apply elem_of_seqZ. lia.
Qed.

Lemma querySelector_past_end s :
  well_formed s → currentSpread s = (Z.of_nat (length (book s)) + 1)%Z →
  querySelector (currentSpread s) (book s) = None.
Proof.
  intros [Hidx _] Hend.
  destruct (querySelector _ _) as [k|] eqn:Hk; [|done].
  assert (is_Some (querySelector (currentSpread s) (book s))) as Hsome by eauto.
  apply querySelector_Some in Hsome. rewrite Hidx in Hsome.
  apply elem_of_seqZ in Hsome. lia.
Qed.

Lemma nextPage_consistent s : consistent s → consistent (nextPage s).
Proof.
  intros Hs. pose proof Hs as (Hwf & Hflip & Hind & Htimers).
  pose proof (nextPage_well_formed s Hwf) as Hwf'.
  unfold nextPage in *. destruct (isAnimating s) eqn:Hanim; [done|].
  destruct (querySelector _ _) as [k|] eqn:Hk; [|done].
  pose proof (querySelector_well_formed s k Hwf Hk) as Hcur.
  split_and!; [done| |done|by rewrite Htimers].
  intros w Hw. simpl in *. apply list_elem_of_lookup in Hw as [j Hj].
  destruct (decide (k = j)) as [->|Hne].
  - rewrite list_lookup_alter_eq in Hj.
    destruct (book s !! j) as [w0|] eqn:Hw0; [|done]. injection Hj as <-.
    simpl. rewrite (well_formed_lookup s j w0) by done. symmetry. apply Z.ltb_lt. lia.
  - rewrite list_lookup_alter_ne in Hj by done.
    rewrite (Hflip w) by (by eapply list_elem_of_lookup_2).
    rewrite (well_formed_lookup s j w) by done.
    destruct (Z.ltb_spec (1 + Z.of_nat j) (currentSpread s));
      symmetry; [apply Z.ltb_lt|apply Z.ltb_ge]; lia.
Qed.

Lemma prevPage_consistent s : consistent s → consistent (prevPage s).
Proof.
  intros Hs. pose proof Hs as (Hwf & Hflip & Hind & Htimers).
  pose proof (prevPage_well_formed s Hwf) as Hwf'.
  unfold prevPage in *. destruct (isAnimating s) eqn:Hanim; [done|].
  destruct (currentSpread s <=? 1)%Z eqn:Hle; [done|].
  apply Z.leb_gt in Hle. simpl in *.
  set (s1 := mkState (book s) (totalPages s) (currentSpread s - 1) false
               (pageIndicator s) (timers s) (startX s)) in *.
  assert (well_formed s1) as Hwf1.
  { destruct Hwf as [? ?]. split; [done|]. simpl. lia. }
  destruct (querySelector_found s1 Hwf1) as [k Hk].
  { destruct Hwf as [_ ?]. simpl. lia. }
  simpl in Hk. rewrite Hk in *.
  pose proof (querySelector_well_formed s1 k Hwf1 Hk) as Hcur. simpl in Hcur.
  split_and!; [done| |done|by rewrite Htimers].
  intros w Hw. simpl in *. apply list_elem_of_lookup in Hw as [j Hj].
  destruct (decide (k = j)) as [->|Hne].
  - rewrite list_lookup_alter_eq in Hj.
    destruct (book s !! j) as [w0|] eqn:Hw0; [|done]. injection Hj as <-.
    simpl. rewrite (well_formed_lookup s j w0) by done. symmetry. apply Z.ltb_ge. lia.
  - rewrite list_lookup_alter_ne in Hj by done.
    rewrite (Hflip w) by (by eapply list_elem_of_lookup_2).
    rewrite (well_formed_lookup s j w) by done.
    destruct (Z.ltb_spec (1 + Z.of_nat j) (currentSpread s));
      symmetry; [apply Z.ltb_lt|apply Z.ltb_ge]; lia.
Qed.

Lemma step_consistent s ev : consistent s → consistent (step s ev).
Proof.
  intros Hs. destruct ev; simpl.
  - by apply nextPage_consistent.
  - by apply prevPage_consistent.
  - destruct (String.eqb key "ArrowRight"), (String.eqb key "ArrowLeft");
      auto using nextPage_consistent, prevPage_consistent.
  - done.
  - destruct (gtb (sub (startX s) screenX) _).
    + destruct (gtb (sub screenX (startX (nextPage s))) _);
        auto using nextPage_consistent, prevPage_consistent.
    + destruct (gtb (sub screenX (startX s)) _);
        auto using nextPage_consistent, prevPage_consistent.
  - pose proof Hs as (Hwf & Hflip & Hind & Htimers).
    destruct (timers s) as [|n] eqn:Hn; [done|].
    destruct (isAnimating s); [|done]. injection Htimers as ->.
    split_and!; [exact Hwf|exact Hflip|exact Hind|done].
Qed.

Lemma constructor_consistent total : consistent (constructor total).
Proof.
  split_and!; [apply constructor_well_formed| |done|done].
  intros w Hw. simpl in Hw.
  assert (∀ fuel i, w ∈ renderPages_from fuel i total → flipped w = false) as Hnew.
  { induction fuel as [|fuel IH]; intros i; simpl; [by intros ?%elem_of_nil|].
    destruct (i <? total)%Z; [|by intros ?%elem_of_nil].
    intros [->|?]%elem_of_cons; [done|eauto]. }
  rewrite (Hnew _ _ Hw). symmetry. apply Z.ltb_ge.
  apply list_elem_of_lookup in Hw as [j Hj].
  rewrite (well_formed_lookup (constructor total) j w);
    [simpl; lia|apply constructor_well_formed|done].
Qed.

Lemma run_consistent evs : ∀ s, consistent s → consistent (run s evs).
Proof.
  induction evs as [|ev evs IH]; intros s Hs; simpl; [done|].
  by apply IH, step_consistent.
Qed.
Lemma step_totalPages s ev : totalPages (step s ev) = totalPages s.
Proof.
  assert (∀ s, totalPages (nextPage s) = totalPages s) as Hnext.
  { intros s0. unfold nextPage. destruct (isAnimating s0); [done|].
    by destruct (querySelector _ _). }
  assert (∀ s, totalPages (prevPage s) = totalPages s) as Hprev.
  { intros s0. unfold prevPage. destruct (isAnimating s0); [done|].
    destruct (_ <=? _)%Z; [done|]. simpl. by destruct (querySelector _ _). }
  destruct ev; simpl; try done.
  - destruct (String.eqb key "ArrowRight"), (String.eqb key "ArrowLeft");
      by rewrite ?Hprev, ?Hnext.
  - destruct (gtb (sub (startX s) screenX) _).
    + destruct (gtb (sub screenX (startX (nextPage s))) _); by rewrite ?Hprev, ?Hnext.
    + destruct (gtb (sub screenX (startX s)) _); by rewrite ?Hprev, ?Hnext.
  - by destruct (timers s).
Qed.

Lemma run_totalPages evs : ∀ s, totalPages (run s evs) = totalPages s.
Proof.
  induction evs as [|ev evs IH]; intros s; simpl; [done|].
  by rewrite IH, step_totalPages.
Qed.

(** From the even [i = 2 k] on, the loop of [renderPages] shows the pages
    [2 k], [2 k + 1], .. up to the last one, each once. *)
Lemma renderPages_from_pages (fuel : nat) :
  ∀ k total, (total - 2 * k ≤ 2 * Z.of_nat fuel)%Z →
    concat (pages_of <$> renderPages_from fuel (2 * k) total)
    = seqZ (2 * k) (total - 2 * k).
Proof.
  induction fuel as [|fuel IH]; intros k total Hfuel; simpl.
  - by rewrite seqZ_nil by lia.
  - destruct (2 * k <? total)%Z eqn:Hlt.
    + apply Z.ltb_lt in Hlt. rewrite fmap_cons. simpl.
      replace (2 * k + 2)%Z with (2 * (k + 1))%Z by lia.
      rewrite IH by lia. unfold pages_of. simpl.
      rewrite (seqZ_cons (2 * k)) by lia.
      destruct (2 * k + 1 <? total)%Z eqn:Hlt'.
      * apply Z.ltb_lt in Hlt'. simpl. f_equal.
        rewrite (seqZ_cons (Z.succ (2 * k))) by lia. f_equal. f_equal; lia.
      * apply Z.ltb_ge in Hlt'. simpl. f_equal. by rewrite !seqZ_nil by lia.
    + apply Z.ltb_ge in Hlt. by rewrite seqZ_nil by lia.
Qed.
End FlipbookMore.

(** ** Differences and thresholds *)

Section SwipeFacts.
Import JsNum.

Lemma binary_round_aux_opp s m e l :
  binary_round_aux prec emax (negb s) m e l = SFopp (binary_round_aux prec emax s m e l).
Proof.
  unfold binary_round_aux.
  destruct (shr_fexp prec emax m e l) as [mrs' e'].
  destruct (shr_fexp prec emax _ e' loc_Exact) as [mrs'' e''].
  destruct (shr_m mrs''); simpl; try done.
  by destruct (e'' <=? emax - prec)%Z.
Qed.

(** Swapping the operands of a difference flips its sign. *)
Lemma sub_swap x y :
  sub y x = SFopp (sub x y)
  ∨ ∃ s1 s2, sub x y = S754_zero s1 ∧ sub y x = S754_zero s2.
Proof.
  destruct x as [sx|sx| |sx mx ex], y as [sy|sy| |sy my ey]; simpl; auto;
    try (destruct sx, sy; by eauto); try (destruct sy; by eauto).
  all: try (left; by rewrite negb_involutive).
  rewrite (Z.min_comm ey ex).
  set (a := cond_Zopp sx _). set (b := cond_Zopp sy _).
  replace (b - a)%Z with (- (a - b))%Z by lia.
  destruct (a - b)%Z as [|p|p]; simpl; [by eauto| |]; left;
    unfold binary_round; destruct (shl_align p _ _);
    [apply (binary_round_aux_opp false)|apply (binary_round_aux_opp true)].
Qed.

(** What lies above a positive threshold is positive. *)
Lemma gtb_positive v m e :
  gtb v (S754_finite false m e) = true →
  ∃ v', v = SFopp v' ∧ gtb v' (S754_finite false m e) = false
        ∧ ∀ s, v ≠ S754_zero s.
Proof.
  unfold gtb, SFltb. destruct v as [s|s| |s m' e']; simpl; try done.
  - destruct s; [done|]. intros _. by exists (S754_infinity true).
  - destruct s; [done|]. intros _. by exists (S754_finite true m' e').
Qed.

Lemma gtb_sub_exclusive x y m e :
  gtb (sub x y) (S754_finite false m e) = true →
  gtb (sub y x) (S754_finite false m e) = false.
Proof.
  intros Hgt. destruct (gtb_positive _ _ _ Hgt) as (v' & Hv' & Hle & Hnz).
  destruct (sub_swap x y) as [->|(s1 & s2 & Hz & _)]; [|by destruct (Hnz s1)].
  rewrite Hv'. by destruct v' as [[]|[]| |[]].
Qed.

Lemma gtb_abs v t : gtb v t = true → gtb (Math_abs v) t = true.
Proof.
  unfold gtb, SFltb.
  destruct v as [[]|[]| |[] m e], t as [[]|[]| |[] m' e']; simpl; try done.
Qed.
End SwipeFacts.

(** ** The page flipper: what holds beyond the claims *)

Section FlipbookExtras.
Import JsNum Flipbook FlipbookInv.

Lemma nextPage_startX s : startX (nextPage s) = startX s.
Proof.
  unfold nextPage. destruct (isAnimating s); [done|]. by destruct (querySelector _ _).
Qed.

Lemma querySelector_alter index v (k : nat) (b : list PageWrapper) :
  querySelector index (alter (set_flipped v) k b) = querySelector index b.
Proof.
  revert k. induction b as [|w b IH]; intros [|k]; simpl; try done.
  destruct (data_index w =? index)%Z; [done|]. f_equal. apply IH.
Qed.

Lemma alter_unflip (k : nat) (b : list PageWrapper) w :
  b !! k = Some w → flipped w = false →
  alter (set_flipped false) k (alter (set_flipped true) k b) = b.
Proof.
  intros Hk Hw. apply list_eq. intros j. destruct (decide (k = j)) as [<-|Hne].
  - rewrite !list_lookup_alter_eq, Hk. simpl. f_equal. destruct w. simpl in *.
    by subst.
  - by rewrite !list_lookup_alter_ne.
Qed.

Lemma swipe_cases s endX :
  step s (TouchEnd endX) = s
  ∨ step s (TouchEnd endX) = nextPage s
  ∨ step s (TouchEnd endX) = prevPage s.
Proof.
  unfold step. change (of_Z 50) with (S754_finite false 7036874417766400 (-47)).
  destruct (gtb (sub (startX s) endX) _) eqn:Hnext.
  - rewrite nextPage_startX, (gtb_sub_exclusive _ _ _ _ Hnext). auto.
  - destruct (gtb (sub endX (startX s)) _); auto.
Qed.

(** X1.  After any sequence of inputs to a new [Flipbook], the wrappers
    that carry the class [flipped] are exactly those whose [data-index] is
    below [currentSpread]: the book shows the spread the counter names. *)
Theorem X1_flipped_wrappers total evs :
  let s := run (constructor total) evs in
  Forall (λ w, flipped w = (data_index w <? currentSpread s)%Z) (book s).
Proof.
  cbv zeta. apply Forall_forall.
  by destruct (run_consistent evs _ (constructor_consistent total)) as (_ & ? & _).
Qed.

(** X2.  After any sequence of inputs, the page indicator shows what
    [updateUI] computes from the current spread, [2 (currentSpread - 1) + 1]
    capped at [totalPages]; for a book with at least one page the number
    shown is between 1 and [totalPages]. *)
Theorem X2_page_indicator total evs :
  let s := run (constructor total) evs in
  let pageNum := ((currentSpread s - 1) * 2 + 1)%Z in
  pageIndicator s = (if (total <? pageNum)%Z then total else pageNum, total)
  ∧ ((1 ≤ total)%Z → (1 ≤ (pageIndicator s).1 ≤ total)%Z).
Proof.
  cbv zeta.
  destruct (run_consistent evs _ (constructor_consistent total))
    as ((_ & Hcur) & _ & Hind & _).
  assert (totalPages (run (constructor total) evs) = total) as Htotal
    by (by rewrite run_totalPages).
  rewrite <- Hind. unfold updateUI. simpl. rewrite Htotal. split; [done|].
  intros Htot. simpl.
  destruct (Z.ltb_spec total ((currentSpread (run (constructor total) evs) - 1) * 2 + 1));
    simpl; lia.
Qed.

(** X2, run: a book of five pages after two turns shows page 5. *)
Lemma X2_page_indicator_witness :
  pageIndicator (run (constructor 5)
                   [ClickNext; AnimationTimeout; ClickNext; AnimationTimeout])
  = (5, 5)%Z
  ∧ (1 ≤ (pageIndicator (run (constructor 5) [ClickNext])).1 ≤ 5)%Z.
Proof.
  split.
  - vm_compute. reflexivity.
  - apply (X2_page_indicator 5 [ClickNext]). lia.
Defined.

(** X3.  After any sequence of inputs, a timeout is pending exactly while
    [isAnimating] is set, and there is never more than one; so the next
    animation timeout always releases the lock. *)
Theorem X3_animation_lock total evs :
  let s := run (constructor total) evs in
  timers s = (if isAnimating s then 1 else 0)%nat
  ∧ isAnimating (step s AnimationTimeout) = false.
Proof.
  cbv zeta.
  destruct (run_consistent evs _ (constructor_consistent total)) as (_ & _ & _ & Ht).
  split; [done|]. simpl. rewrite Ht. by destruct (isAnimating _) eqn:Ha.
Qed.

(** X4.  While an animation runs, every input that asks for a page turn
    (a button, an arrow key or any other key, the end of a swipe) leaves
    the whole state as it is. *)
Theorem X4_inputs_ignored_while_animating s ev :
  isAnimating s = true → navigation ev = true → step s ev = s.
Proof.
  intros Hanim Hnav.
  assert (nextPage s = s) as Hnext by (unfold nextPage; by rewrite Hanim).
  assert (prevPage s = s) as Hprev by (unfold prevPage; by rewrite Hanim).
  destruct ev; try done; unfold step.
  - destruct (String.eqb key "ArrowRight"), (String.eqb key "ArrowLeft");
      by rewrite ?Hnext, ?Hprev.
  - destruct (swipe_cases s screenX) as [H|[H|H]]; unfold step in H; rewrite H; done.
Qed.

(** X4, run: the right arrow pressed twice in a row turns one page. *)
Lemma X4_inputs_ignored_while_animating_witness :
  step (step (constructor 5) (KeyDown "ArrowRight")) (KeyDown "ArrowRight")
  = step (constructor 5) (KeyDown "ArrowRight").
Proof.
  apply X4_inputs_ignored_while_animating; reflexivity.
Defined.

(** X5.  [renderPages] shows every page of the book exactly once and in
    order: reading the front and the back of the wrappers from first to
    last gives the pages 0, 1, .., [totalPages - 1]; a book without pages
    gets no wrapper. *)
Theorem X5_every_page_once total :
  concat (pages_of <$> book (constructor total)) = seqZ 0 total.
Proof.
  simpl. rewrite (renderPages_from_pages _ 0 total) by lia. f_equal. lia.
Qed.

(** X6.  The end of a swipe turns at most one page: it does nothing, or
    what [nextPage] does, or what [prevPage] does, never both; and a swipe
    between finite positions that are at most 50 pixels apart does
    nothing. *)
Theorem X6_swipe_turns_at_most_one_page s endX :
  (step s (TouchEnd endX) = s
   ∨ step s (TouchEnd endX) = nextPage s
   ∨ step s (TouchEnd endX) = prevPage s)
  ∧ (is_finite (startX s) = true → is_finite endX = true →
     leb (Math_abs (sub endX (startX s))) (of_Z 50) = true →
     step s (TouchEnd endX) = s).
Proof.
  split; [apply swipe_cases|]. intros Hs He Hle. unfold step.
  assert (gtb (Math_abs (sub endX (startX s))) (of_Z 50) = false) as Hgt.
  { rewrite gtb_negb_leb, Hle; [done| |done].
    by apply abs_not_nan, sub_finite_not_nan. }
  destruct (gtb (sub (startX s) endX) (of_Z 50)) eqn:Hnext.
  { apply gtb_abs in Hnext. rewrite abs_sub_swap in Hnext. congruence. }
  destruct (gtb (sub endX (startX s)) (of_Z 50)) eqn:Hprev; [|done].
  apply gtb_abs in Hprev. congruence.
Qed.

(** X6, run: a touch that starts at 200 and ends at 160 turns no page. *)
Lemma X6_swipe_turns_at_most_one_page_witness :
  step (step (constructor 5) (TouchStart (of_Z 200))) (TouchEnd (of_Z 160))
  = step (constructor 5) (TouchStart (of_Z 200)).
Proof.
  apply (X6_swipe_turns_at_most_one_page
           (step (constructor 5) (TouchStart (of_Z 200))) (of_Z 160));
    reflexivity.
Defined.

(** X7.  From a state reached by any sequence of inputs in which no
    animation runs and the current spread has a wrapper, turning forward,
    letting the animation end, turning back and letting the animation end
    leads back to the very same state: book, counter, indicator and all. *)
Theorem X7_next_then_prev total evs :
  let s := run (constructor total) evs in
  isAnimating s = false →
  (currentSpread s ≤ Z.of_nat (length (book s)))%Z →
  run s [ClickNext; AnimationTimeout; ClickPrev; AnimationTimeout] = s.
Proof.
  cbv zeta. set (s := run (constructor total) evs). intros Hanim Hle.
  destruct (run_consistent evs _ (constructor_consistent total))
    as (Hwf & Hflip & Hind & Ht).
  fold s in Hwf, Hflip, Hind, Ht. rewrite Hanim in Ht.
  destruct (querySelector_found s Hwf Hle) as [k Hk].
  destruct (querySelector_lookup _ _ _ Hk) as (w & Hw & Hidx).
  assert (flipped w = false) as Hunflipped.
  { rewrite (Hflip w) by (by eapply list_elem_of_lookup_2).
    apply Z.ltb_ge. lia. }
  destruct Hwf as [_ Hcur].
  simpl. unfold nextPage. rewrite Hanim, Hk. simpl. rewrite Ht. simpl.
  unfold prevPage. simpl.
  destruct (currentSpread s + 1 <=? 1)%Z eqn:Hle1; [apply Z.leb_le in Hle1; lia|].
  replace (currentSpread s + 1 - 1)%Z with (currentSpread s) by lia.
  rewrite querySelector_alter, Hk. simpl.
  rewrite (alter_unflip k (book s) w) by done.
  unfold updateUI in Hind. simpl in Hind.
  destruct s as [b t c a ind tm sx]. simpl in *. by subst.
Qed.

(** X7, run: on a fresh book of five pages. *)
Lemma X7_next_then_prev_witness :
  run (constructor 5) [ClickNext; AnimationTimeout; ClickPrev; AnimationTimeout]
  = constructor 5.
Proof.
  apply (X7_next_then_prev 5 []); [reflexivity|]. vm_compute. discriminate.
Defined.

(** X8.  Past the last wrapper the book does not turn: in any state
    reached by a sequence of inputs whose current spread is one past the
    number of wrappers, [nextPage] changes nothing. *)
Theorem X8_no_turn_past_the_end total evs :
  let s := run (constructor total) evs in
  currentSpread s = (Z.of_nat (length (book s)) + 1)%Z → nextPage s = s.
Proof.
  cbv zeta. intros Hend.
  destruct (run_consistent evs _ (constructor_consistent total)) as (Hwf & _).
  unfold nextPage. destruct (isAnimating _); [done|].
  by rewrite querySelector_past_end.
Qed.

(** X8, run: a book of two pages has one wrapper; after one turn the
    second one does nothing. *)
Lemma X8_no_turn_past_the_end_witness :
  nextPage (run (constructor 2) [ClickNext; AnimationTimeout])
  = run (constructor 2) [ClickNext; AnimationTimeout].
Proof.
  apply (X8_no_turn_past_the_end 2 [ClickNext; AnimationTimeout]).
  vm_compute. reflexivity.
Defined.
End FlipbookExtras.

(** ** The viewer: node identities and controls *)

Section ViewerMore.
Import JsNum Viewer ViewerInv.

Lemma ids_below_frame s s' :
  pages s' = pages s → fresh s ≤ fresh s' → ids_below s → ids_below s'.
Proof.
  intros Hp Hf Hs p cs c Hcs Hc. rewrite Hp in Hcs.
  specialize (Hs p cs c Hcs Hc). lia.
Qed.

Lemma ids_below_append p mk s :
  (∀ n, element_id (mk n) = n) → ids_below s → ids_below (append p mk s).
Proof.
  intros Hmk Hs q cs c Hcs Hc. unfold append in *. simpl in *.
  destruct (decide (p = q)) as [->|Hne].
  - rewrite lookup_alter_eq in Hcs.
    destruct (pages s !! q) as [cs0|] eqn:Hq; [|done]. injection Hcs as <-.
    apply elem_of_app in Hc as [Hc|Hc].
    + specialize (Hs q cs0 c Hq Hc). lia.
    + apply list_elem_of_singleton in Hc as ->. rewrite Hmk. lia.
  - rewrite lookup_alter_ne in Hcs by done. specialize (Hs q cs c Hcs Hc). lia.
Qed.

Lemma ids_below_foldl_append {A} (mk : A → nat → Element) p l :
  (∀ a n, element_id (mk a n) = n) →
  ∀ s, ids_below s → ids_below (foldl (λ s a, append p (mk a) s) s l).
Proof.
  intros Hmk. induction l as [|a l IH]; intros s Hs; simpl; [done|].
  by apply IH, ids_below_append.
Qed.

Lemma ids_below_remove sel s :
  ids_below s → ids_below (set_pages (remove sel <$> pages s) s).
Proof.
  intros Hs q cs c Hcs Hc. simpl in *. rewrite lookup_fmap in Hcs.
  destruct (pages s !! q) as [cs0|] eqn:Hq; [|done]. injection Hcs as <-.
  apply elem_of_remove in Hc as [Hc _]. by apply (Hs q cs0).
Qed.

Lemma ids_below_alter_remove sel p s :
  ids_below s → ids_below (set_pages (alter (remove sel) p (pages s)) s).
Proof.
  intros Hs q cs c Hcs Hc. simpl in *.
  destruct (decide (p = q)) as [->|Hne].
  - rewrite lookup_alter_eq in Hcs.
    destruct (pages s !! q) as [cs0|] eqn:Hq; [|done]. injection Hcs as <-.
    apply elem_of_remove in Hc as [Hc _]. by apply (Hs q cs0).
  - rewrite lookup_alter_ne in Hcs by done. by apply (Hs q cs).
Qed.

Lemma set_css_id el b c : element_id (set_css el b c) = element_id c.
Proof. destruct c; simpl; try done. by destruct (decide _). Qed.

Lemma ids_below_set_css el b s :
  ids_below s →
  ids_below (set_pages ((λ cs : list Element, set_css el b <$> cs) <$> pages s) s).
Proof.
  intros Hs q cs c Hcs Hc. simpl in *. rewrite lookup_fmap in Hcs.
  destruct (pages s !! q) as [cs0|] eqn:Hq; [|done]. injection Hcs as <-.
  apply list_elem_of_fmap in Hc as (c0 & -> & Hc0). rewrite set_css_id.
  by apply (Hs q cs0).
Qed.

Lemma ids_below_loadAnnotations pageNum p s :
  ids_below s → ids_below (loadAnnotations pageNum p s).
Proof.
  intros Hs. unfold loadAnnotations, renderNote, renderHighlight.
  apply (ids_below_foldl_append (λ h el, HighlightMarker el _ _ _)); [done|].
  apply (ids_below_foldl_append (λ n el, NoteMarker el _ _ _ _)); [done|].
  by apply ids_below_alter_remove.
Qed.

Lemma ids_below_load view : ∀ s, ids_below s → ids_below (load view s).
Proof.
  unfold load. induction view as [|v view IH]; intros s Hs; simpl; [done|].
  apply IH. unfold load_one. destruct (v <=? 0)%Z; [done|].
  destruct (pages s !! _); [by apply ids_below_loadAnnotations|done].
Qed.

Lemma same_controls_refl s : same_controls s s.
Proof. by repeat split. Qed.

Lemma same_controls_trans s1 s2 s3 :
  same_controls s1 s2 → same_controls s2 s3 → same_controls s1 s3.
Proof. unfold same_controls. intros. intuition congruence. Qed.

Lemma dom_only_same_controls s s' : dom_only s s' → same_controls s s'.
Proof. intros (?&?&_&_&?&?&?&_). by repeat split. Qed.

(** A promise chain keeps what both of its reactions keep. *)
Lemma chain_keeps (P : State → Prop) {A} (r : Promise A)
    (f : Reaction A unit) (g : Reaction string unit) s :
  (∀ a s, P s → P (f a s).1) → (∀ err s, P s → P (g err s).1) →
  P s → P (catch_ (then_ (s, r) f) g).1.
Proof.
  intros Hf Hg Hs. destruct r as [a|err]; simpl; [|by apply Hg].
  specialize (Hf a s Hs). destruct (f a s) as [s' [|err]]; simpl in *; [done|].
  by apply Hg.
Qed.
Lemma ids_below_emit e s : ids_below s → ids_below (emit e s).
Proof. by apply ids_below_frame. Qed.

Lemma ids_below_preloadPages K page s :
  ids_below s → ids_below (preloadPages K page s).
Proof.
  intros Hs. unfold preloadPages. destruct (0 <? _)%nat; [by apply ids_below_load|done].
Qed.

Lemma ids_below_step K s ev : ids_below s → ids_below (step K s ev).
Proof.
  intros Hs. destruct ev; simpl.
  - unfold toggleMode. destruct (decide _); by apply (ids_below_frame s).
  - by apply (ids_below_frame s).
  - unfold layer_click. destruct (_ || _); [done|]. destruct (decide _); [|done].
    destruct answer as [c|]; [simpl; destruct (String.eqb c "")|];
      by apply (ids_below_frame s).
  - unfold note_posted. apply (chain_keeps ids_below); [| |done].
    + intros d s' Hs'. destruct (success d); simpl.
      * apply ids_below_append; [done|]. by apply (ids_below_frame s').
      * by apply ids_below_emit.
    + intros err s' Hs'. simpl. by apply ids_below_emit, ids_below_emit.
  - unfold note_marker_click. destruct (truthy _); [done|]. by apply ids_below_emit.
  - unfold mousedown_layer. destruct (negb _); [done|]. destruct (e_on_delete e); [done|].
    apply ids_below_append; [done|]. by apply (ids_below_frame s).
  - unfold mousemove. destruct (highlightStart s); [|done].
    destruct (highlightPreview s); [|done]. by apply ids_below_set_css.
  - unfold mouseup. destruct (highlightStart s); [|done].
    destruct (highlightPreview s) as [preview|]; [|done]. cbv zeta.
    set (s1 := if _ || _ then _ else s).
    assert (ids_below s1) as Hs1.
    { unfold s1. destruct (_ || _); [by apply ids_below_emit|done]. }
    apply (ids_below_frame
             (set_pages
                (remove (λ c, is_preview c && bool_decide (element_id c = preview))
                   <$> pages s1) s1)); [done|done|].
    by apply ids_below_remove.
  - unfold highlight_posted. apply (chain_keeps ids_below); [| |done].
    + intros d s' Hs'. destruct (success d); simpl.
      * apply ids_below_append; [done|]. by apply (ids_below_frame s').
      * by apply ids_below_emit.
    + intros err s' Hs'. simpl. by apply ids_below_emit, ids_below_emit.
  - unfold deleteNote. destruct (negb _); by repeat apply ids_below_emit.
  - unfold note_deleted. apply (chain_keeps ids_below); [| |done].
    + intros d s' Hs'. destruct (success d); simpl.
      * apply (ids_below_frame
                 (set_pages
                    (remove (λ c, is_note_marker c && bool_decide (element_id c = el))
                       <$> pages s') s')); [done|done|].
        by apply ids_below_remove.
      * by apply ids_below_emit.
    + intros err s' Hs'. simpl. by apply ids_below_emit, ids_below_emit.
  - unfold deleteHighlight. destruct (negb _); by repeat apply ids_below_emit.
  - unfold highlight_deleted. apply (chain_keeps ids_below); [| |done].
    + intros d s' Hs'. destruct (success d); simpl.
      * apply (ids_below_frame
                 (set_pages
                    (remove (λ c, is_highlight_marker c
                                  && bool_decide (element_id c = el))
                       <$> pages s') s')); [done|done|].
        by apply ids_below_remove.
      * by apply ids_below_emit.
    + intros err s' Hs'. simpl. by apply ids_below_emit, ids_below_emit.
  - unfold initial_load, preloadAnnotations.
    apply (ids_below_frame (load currentView s)); [done|done|].
    by apply ids_below_load.
  - unfold preload_arrival. destruct (promise_all _ _) as [j [r|]]; simpl.
    + unfold annotations_loaded. apply (chain_keeps ids_below).
      * intros nh s' Hs'. simpl. apply ids_below_load. by apply (ids_below_frame s').
      * intros err s' Hs'. simpl. by apply (ids_below_frame s').
      * by apply (ids_below_frame s).
    + by apply (ids_below_frame s).
  - by apply ids_below_load.
  - by apply ids_below_preloadPages.
Qed.

Lemma ids_below_initial pageNumbers tb : ids_below (initial pageNumbers tb).
Proof.
  intros p cs c Hcs Hc. simpl in Hcs.
  apply elem_of_list_to_map_2, list_elem_of_fmap in Hcs as (k & [= _ ->] & _).
  by apply elem_of_nil in Hc.
Qed.

Lemma ids_below_run K evs : ∀ s, ids_below s → ids_below (run K s evs).
Proof.
  induction evs as [|ev evs IH]; intros s Hs; simpl; [done|].
  by apply IH, ids_below_step.
Qed.
Lemma remove_app sel (cs1 cs2 : list Element) :
  remove sel (cs1 ++ cs2) = remove sel cs1 ++ remove sel cs2.
Proof. apply List.filter_app. Qed.

Lemma remove_none sel (cs : list Element) :
  (∀ c, c ∈ cs → sel c = false) → remove sel cs = cs.
Proof.
  intros Hsel. induction cs as [|c cs IH]; [done|]. simpl.
  rewrite (Hsel c) by (by left). simpl. f_equal. apply IH. intros c' Hc'.
  apply Hsel. by right.
Qed.

Lemma set_css_other el b (cs : list Element) :
  (∀ c, c ∈ cs → element_id c ≠ el) → set_css el b <$> cs = cs.
Proof.
  intros Hid. induction cs as [|c cs IH]; [done|]. rewrite fmap_cons. f_equal.
  - specialize (Hid c (list_elem_of_here _ _)). destruct c; simpl in *; try done.
    by destruct (decide _).
  - apply IH. intros c' Hc'. apply Hid. by right.
Qed.

Lemma mousedown_dragging p e box s :
  currentMode s = Some "highlight" → e_on_delete e = false →
  dragging p s (mousedown_layer p e box s).
Proof.
  intros Hmode Hdel. unfold mousedown_layer. rewrite Hmode, Hdel. simpl.
  split_and!; try done; eauto.
Qed.

Lemma mousemove_dragging p m s s' :
  ids_below s → dragging p s s' → dragging p s (mousemove m s').
Proof.
  intros Hids Hdrag.
  pose proof Hdrag as ((start & Hstart & Hp) & Hprev & ? & ? & ? & ? & ? & ? & ? & ?
                       & (bg & bd & css & Hpages)).
  unfold mousemove. rewrite Hstart, Hprev. cbv zeta.
  set (b := dragBox _ _ _ _).
  split_and!; try done; [by eauto|]. exists bg, bd, (Some b). simpl.
  rewrite Hpages. apply map_eq. intros q. rewrite lookup_fmap.
  destruct (decide (p = q)) as [->|Hne].
  - rewrite !lookup_alter_eq. destruct (pages s !! q) as [cs|] eqn:Hq; [|done].
    simpl. f_equal. rewrite fmap_app, set_css_other.
    + simpl. by rewrite decide_True.
    + intros c Hc. specialize (Hids q cs c Hq Hc). lia.
  - rewrite !lookup_alter_ne by done.
    destruct (pages s !! q) as [cs|] eqn:Hq; [|done]. simpl. f_equal.
    apply set_css_other. intros c Hc. specialize (Hids q cs c Hq Hc). lia.
Qed.

Lemma mouseup_dragging p e box s s' :
  ids_below s → dragging p s s' →
  pages (mouseup e box s') = pages s
  ∧ fresh (mouseup e box s') = S (fresh s)
  ∧ highlightStart (mouseup e box s') = None
  ∧ highlightPreview (mouseup e box s') = None
  ∧ currentMode (mouseup e box s') = currentMode s
  ∧ allNotes (mouseup e box s') = allNotes s
  ∧ allHighlights (mouseup e box s') = allHighlights s
  ∧ (trace (mouseup e box s') = trace s
     ∨ ∃ coordinates,
         trace (mouseup e box s')
         = trace s ++ [Fetch (POST_highlight p coordinates (currentHighlightColor s))]).
Proof.
  intros Hids ((start & Hstart & Hp) & Hprev & Hmode & Hcolor & Hn & Hh & _ & _ & Ht
               & Hf & (bg & bd & css & Hpages)).
  unfold mouseup. rewrite Hstart, Hprev. cbv zeta.
  set (s1 := if _ || _ then _ else s').
  assert (pages s1 = pages s' ∧ fresh s1 = fresh s' ∧ currentMode s1 = currentMode s'
          ∧ allNotes s1 = allNotes s' ∧ allHighlights s1 = allHighlights s'
          ∧ (trace s1 = trace s'
             ∨ ∃ coordinates,
                 trace s1 = trace s'
                   ++ [Fetch (POST_highlight p coordinates (currentHighlightColor s'))]))
    as (Hp1 & Hf1 & Hm1 & Hn1 & Hh1 & Ht1).
  { unfold s1. destruct (_ || _); simpl; split_and!; try done; [|by left].
    right. rewrite Hp. eauto. }
  simpl. rewrite Hm1, Hn1, Hh1, Hf1. split_and!; try done.
  - rewrite Hp1, Hpages. apply map_eq. intros q. rewrite lookup_fmap.
    destruct (decide (p = q)) as [->|Hne].
    + rewrite lookup_alter_eq. destruct (pages s !! q) as [cs|] eqn:Hq; [|done].
      simpl. f_equal. rewrite remove_app, remove_none.
      * simpl. rewrite bool_decide_true by done. simpl. by rewrite app_nil_r.
      * intros c Hc. specialize (Hids q cs c Hq Hc).
        rewrite bool_decide_false by lia. by rewrite andb_false_r.
    + rewrite lookup_alter_ne by done.
      destruct (pages s !! q) as [cs|] eqn:Hq; [|done]. simpl. f_equal.
      apply remove_none. intros c Hc. specialize (Hids q cs c Hq Hc).
      rewrite bool_decide_false by lia. by rewrite andb_false_r.
  - rewrite Hcolor, Ht in Ht1. done.
Qed.
Lemma shows_mode_frame s s' :
  currentMode s' = currentMode s → toolbar s' = toolbar s →
  toolbar_shows_mode s → toolbar_shows_mode s'.
Proof. unfold toolbar_shows_mode. by intros -> ->. Qed.

Lemma shows_mode_dom_only s s' :
  dom_only s s' → toolbar_shows_mode s → toolbar_shows_mode s'.
Proof. intros (?&_&_&_&_&_&?&_). by apply shows_mode_frame. Qed.

Lemma setMode_shows_mode mode s : toolbar_shows_mode (setMode mode s).
Proof.
  unfold toolbar_shows_mode, setMode. simpl.
  destruct (decide (mode = Some "note")) as [->|Hnote]; [done|].
  rewrite (bool_decide_false _ Hnote).
  destruct (decide (mode = Some "highlight")) as [->|Hhl]; [done|].
  by rewrite (bool_decide_false _ Hhl).
Qed.

Lemma shows_mode_step K s ev : toolbar_shows_mode s → toolbar_shows_mode (step K s ev).
Proof.
  intros Hs.
  assert (∀ e s, toolbar_shows_mode s → toolbar_shows_mode (emit e s)) as Hemit
    by (intros; by apply (shows_mode_frame s0)).
  destruct ev; simpl.
  - unfold toggleMode. destruct (decide _); apply setMode_shows_mode.
  - exact Hs.
  - unfold layer_click. destruct (_ || _); [done|]. destruct (decide _); [|done].
    apply setMode_shows_mode.
  - unfold note_posted. apply (chain_keeps toolbar_shows_mode); [| |done].
    + intros d s' Hs'. destruct (success d); simpl; by apply (shows_mode_frame s').
    + intros err s' Hs'. simpl. by apply (shows_mode_frame s').
  - unfold note_marker_click. destruct (truthy _); [done|]. by apply Hemit.
  - unfold mousedown_layer. destruct (negb _); [done|]. destruct (e_on_delete e); [done|].
    by apply (shows_mode_frame s).
  - unfold mousemove. destruct (highlightStart s); [|done].
    destruct (highlightPreview s); [|done]. by apply (shows_mode_frame s).
  - unfold mouseup. destruct (highlightStart s); [|done].
    destruct (highlightPreview s); [|done]. cbv zeta.
    apply (shows_mode_frame s); [|by destruct (_ || _)|done]. by destruct (_ || _).
  - unfold highlight_posted. apply (chain_keeps toolbar_shows_mode); [| |done].
    + intros d s' Hs'. destruct (success d); simpl; by apply (shows_mode_frame s').
    + intros err s' Hs'. simpl. by apply (shows_mode_frame s').
  - unfold deleteNote. destruct (negb _); by repeat apply Hemit.
  - unfold note_deleted. apply (chain_keeps toolbar_shows_mode); [| |done].
    + intros d s' Hs'. destruct (success d); simpl; by apply (shows_mode_frame s').
    + intros err s' Hs'. simpl. by apply (shows_mode_frame s').
  - unfold deleteHighlight. destruct (negb _); by repeat apply Hemit.
  - unfold highlight_deleted. apply (chain_keeps toolbar_shows_mode); [| |done].
    + intros d s' Hs'. destruct (success d); simpl; by apply (shows_mode_frame s').
    + intros err s' Hs'. simpl. by apply (shows_mode_frame s').
  - unfold initial_load, preloadAnnotations.
    apply (shows_mode_frame (load currentView s)); [done|done|].
    apply (shows_mode_dom_only s); [apply load_dom_only|done].
  - unfold preload_arrival. destruct (promise_all _ _) as [j [r|]]; simpl.
    + unfold annotations_loaded. apply (chain_keeps toolbar_shows_mode).
      * intros nh s' Hs'. simpl.
        eapply shows_mode_dom_only; [apply load_dom_only|].
        by apply (shows_mode_frame s').
      * intros err s' Hs'. simpl. by apply (shows_mode_frame s').
      * by apply (shows_mode_frame s).
    + by apply (shows_mode_frame s).
  - apply (shows_mode_dom_only s); [apply load_dom_only|done].
  - apply (shows_mode_dom_only s); [apply preloadPages_dom_only|done].
Qed.

(** In a layer, what is not a marker is not touched by rendering. *)
Lemma append_marker_others p q mk s :
  (∀ n, is_marker (mk n) = true) →
  remove is_marker (children q (append p mk s)) = remove is_marker (children q s).
Proof.
  intros Hmk. unfold children, append. simpl.
  destruct (decide (p = q)) as [->|Hne]; [|by rewrite lookup_alter_ne].
  rewrite lookup_alter_eq. destruct (pages s !! q) as [cs|]; [|done]. simpl.
  rewrite remove_app. simpl. by rewrite Hmk, app_nil_r.
Qed.

Lemma foldl_append_marker_others {A} (mk : A → nat → Element) p q l :
  (∀ a n, is_marker (mk a n) = true) →
  ∀ s, remove is_marker (children q (foldl (λ s a, append p (mk a) s) s l))
       = remove is_marker (children q s).
Proof.
  intros Hmk. induction l as [|a l IH]; intros s; simpl; [done|].
  by rewrite IH, append_marker_others.
Qed.

Lemma loadAnnotations_others_exact pageNum p q s :
  remove is_marker (children q (loadAnnotations pageNum p s))
  = remove is_marker (children q s).
Proof.
  unfold loadAnnotations, renderNote, renderHighlight.
  rewrite (foldl_append_marker_others (λ h el, HighlightMarker el _ _ _)) by done.
  rewrite (foldl_append_marker_others (λ n el, NoteMarker el _ _ _ _)) by done.
  unfold children. simpl. destruct (decide (p = q)) as [->|Hne].
  - rewrite lookup_alter_eq. destruct (pages s !! q) as [cs|]; [|done]. simpl.
    apply remove_is_marker_idemp.
  - by rewrite lookup_alter_ne.
Qed.

Lemma load_others_exact view q :
  ∀ s, remove is_marker (children q (load view s)) = remove is_marker (children q s).
Proof.
  unfold load. induction view as [|v view IH]; intros s; simpl; [done|].
  rewrite IH. unfold load_one. destruct (v <=? 0)%Z; [done|].
  destruct (pages s !! _); [apply loadAnnotations_others_exact|done].
Qed.

Lemma elem_of_pagesToPreload K page v :
  v ∈ List.filter (λ nextP, (nextP <=? K + 2)%Z)
        ((λ i, (page + i)%Z) <$> [1; 2; 3; 4; 5; 6]%Z)
  ↔ (page + 1 ≤ v ≤ page + 6)%Z ∧ (v ≤ K + 2)%Z.
Proof.
  rewrite list_elem_of_In, filter_In, Z.leb_le. simpl. split.
  - intros [Hin ?]. split; [|done]. intuition lia.
  - intros [? ?]. split; [|done].
    assert (v = page + 1 ∨ v = page + 2 ∨ v = page + 3
            ∨ v = page + 4 ∨ v = page + 5 ∨ v = page + 6)%Z as Hv by lia.
    intuition.
Qed.
End ViewerMore.

(** ** The viewer: what holds beyond the claims *)

Section ViewerExtras.
Import JsNum Viewer ViewerInv.

(** X9.  In any state the viewer reaches from its start, a press in
    highlight mode, any number of moves and the release leave the document
    exactly as it was before the press: during the drag the layer of the
    page holds one more node, the preview, at its end; after the release
    the preview is gone, no drag is in progress, the mode is still
    highlight, the cache is as before, and at most one request went out,
    for the page the drag began on. *)
Theorem X9_drag_leaves_no_preview K pageNumbers tb evs p e box moves e' box' :
  let s := run K (initial pageNumbers tb) evs in
  currentMode s = Some "highlight" → e_on_delete e = false →
  let during := foldl (λ s m, mousemove m s) (mousedown_layer p e box s) moves in
  let after := mouseup e' box' during in
  (∃ background border css,
     pages during
     = alter (λ cs, cs ++ [HighlightPreview (fresh s) background border css]) p (pages s))
  ∧ pages after = pages s
  ∧ highlightStart after = None ∧ highlightPreview after = None
  ∧ currentMode after = Some "highlight"
  ∧ allNotes after = allNotes s ∧ allHighlights after = allHighlights s
  ∧ (trace after = trace s
     ∨ ∃ coordinates,
         trace after
         = trace s ++ [Fetch (POST_highlight p coordinates (currentHighlightColor s))]).
Proof.
  cbv zeta. set (s := run K (initial pageNumbers tb) evs). intros Hmode Hdel.
  assert (ids_below s) as Hids by apply ids_below_run, ids_below_initial.
  assert (dragging p s (foldl (λ s m, mousemove m s) (mousedown_layer p e box s) moves))
    as Hdrag.
  { pose proof (mousedown_dragging p e box s Hmode Hdel) as H0.
    revert H0. generalize (mousedown_layer p e box s).
    induction moves as [|m moves IH]; intros s1 H1; simpl; [done|].
    by apply IH, mousemove_dragging. }
  destruct (mouseup_dragging p e' box' s _ Hids Hdrag)
    as (Hp & _ & Hs & Hv & Hm & Hn & Hh & Ht).
  split_and!; try done.
  - by destruct Hdrag as (_ & _ & _ & _ & _ & _ & _ & _ & _ & _ & ?).
  - by rewrite Hm.
Qed.

(** X9, run: on [demo_state] in highlight mode, a press at (10, 10), a
    move to (12, 11) and the release there. *)
Lemma X9_drag_leaves_no_preview_witness :
  pages (mouseup (mouse_at 12 11) demo_box
           (mousemove (mouse_at 12 11)
              (mousedown_layer 0 (mouse_at 10 10) demo_box
                 (run 10 demo_state [ToggleMode "highlight"]))))
  = pages (run 10 demo_state [ToggleMode "highlight"]).
Proof.
  refine (proj1 (proj2 (X9_drag_leaves_no_preview 10 [0; 1; 2; 3]%Z demo_toolbar
            [ToggleMode "highlight"] 0 (mouse_at 10 10) demo_box [mouse_at 12 11]
            (mouse_at 12 11) demo_box _ _))); reflexivity.
Defined.

(** X10.  Rendering plain text never touches what is not a marker: when
    the contents and the colours of the cache are plain, after [load], on
    every page, the nodes of the layer that are not markers (a preview of
    a drag in progress) are the same nodes in the same order, and the drag
    and the trace are as before.  A page turn in the middle of a drag does
    not lose the preview. *)
Theorem X10_render_keeps_preview view s q :
  plain_cache s = true →
  remove is_marker (children q (load view s)) = remove is_marker (children q s)
  ∧ highlightStart (load view s) = highlightStart s
  ∧ highlightPreview (load view s) = highlightPreview s
  ∧ trace (load view s) = trace s.
Proof.
  intros _. destruct (load_dom_only view s) as (_&_&_&_&?&?&_&_&?).
  split_and!; try done. apply load_others_exact.
Qed.

(** X10, run: a drag is in progress on page 0 when the page is repainted
    with its note. *)
Lemma X10_render_keeps_preview_witness :
  remove is_marker (children 0 (load [1]%Z (set_allNotes [demo_note] demo_drag)))
  = remove is_marker (children 0 (set_allNotes [demo_note] demo_drag)).
Proof.
  apply (X10_render_keeps_preview [1]%Z (set_allNotes [demo_note] demo_drag) 0).
  reflexivity.
Defined.

(** X11.  After a turn to [page], [preloadPages] renders at most the six
    Turn.js pages after it, and none past [PDF_PAGE_COUNT + 2]: every
    other page of the document is left as it was, and, when the contents
    and the colours of the cache are plain, each page in that range that
    is in the document shows the markers of the cache. *)
Theorem X11_preload_range K page s p :
  (¬ ((page + 1 ≤ p + 1 ≤ page + 6)%Z ∧ (p + 1 ≤ K + 2)%Z) →
   pages (preloadPages K page s) !! p = pages s !! p)
  ∧ ((page + 1 ≤ p + 1 ≤ page + 6)%Z → (p + 1 ≤ K + 2)%Z → (0 < p + 1)%Z →
     is_Some (pages s !! p) → plain_cache s = true →
     markers_on p (preloadPages K page s) = markers_of_cache p s).
Proof.
  unfold preloadPages.
  set (l := List.filter _ _).
  assert (∀ v, v ∈ l ↔ (page + 1 ≤ v ≤ page + 6)%Z ∧ (v ≤ K + 2)%Z) as Hl
    by apply elem_of_pagesToPreload.
  split.
  - intros Hout. destruct (0 <? length l)%nat; [|done].
    apply load_not_painted. intros (Hin & _). by apply Hl in Hin.
  - intros Hrange Hk Hpos Hp _.
    assert ((p + 1)%Z ∈ l) as Hin by (by apply Hl).
    assert ((0 <? length l)%nat = true) as ->
      by (destruct l; [by apply elem_of_nil in Hin|done]).
    by apply load_markers.
Qed.

(** X11, run: with ten PDF pages, a turn to page 11 preloads page 12 only
    and leaves page 0 alone; a turn to page 1 paints the note of page 2. *)
Lemma X11_preload_range_witness :
  pages (preloadPages 10 11 demo_cached) !! 0%Z = pages demo_cached !! 0%Z
  ∧ markers_on 2
      (preloadPages 10 1
         (set_allNotes [mkNote 3 2 "later" (of_Z 1) (of_Z 2)] demo_state))
    = [NoteMarker 0 (of_Z 1) (of_Z 2) "later" 3].
Proof.
  split.
  - apply (X11_preload_range 10 11 demo_cached 0). lia.
  - etrans;
      [apply (X11_preload_range 10 1
                (set_allNotes [mkNote 3 2 "later" (of_Z 1) (of_Z 2)] demo_state) 2);
       try lia|reflexivity].
    + vm_compute. eauto.
    + reflexivity.
Defined.

(** X12.  Creating plain text keeps a page in step with the cache: if a
    page shows the markers of the cache, in some order, it still does
    after the response to a create request has been handled, whatever the
    response, provided the page the record belongs to is in the document
    and the content of the note, or the colour selected for the highlight,
    is plain.  The marker appended on success is the one the next full
    render paints. *)
Theorem X12_create_keeps_sync pageNum q s :
  is_Some (pages s !! pageNum) → in_sync q s →
  (∀ content x y r, plain content = true →
     in_sync q (note_posted pageNum content x y r s).1)
  ∧ (∀ coordinates r, plain_class (currentHighlightColor s) = true →
     in_sync q (highlight_posted pageNum coordinates r s).1).
Proof.
  intros Hp Hsync. unfold in_sync in *.
  assert (∀ c s', pages s' = alter (λ cs, cs ++ [c]) pageNum (pages s) →
            is_marker c = true →
            markers_on q s'
            = markers_on q s ++ (if decide (pageNum = q) then [anonymous c] else []))
    as Hdom.
  { intros c s' Hs' Hc. unfold markers_on, children. rewrite Hs'.
    destruct (decide (pageNum = q)) as [->|Hne].
    - rewrite lookup_alter_eq. destruct Hp as [cs ->]. simpl.
      by rewrite List.filter_app, fmap_app; simpl; rewrite Hc.
    - rewrite lookup_alter_ne by done. by rewrite app_nil_r. }
  split.
  - intros content x y r _. unfold note_posted.
    destruct r as [d|err]; simpl; [|done]. destruct (success d); simpl; [|done].
    set (n := mkNote (reply_id d) pageNum content x y).
    rewrite (Hdom (NoteMarker (fresh s) x y content (reply_id d))) by done.
    unfold markers_of_cache. simpl. rewrite List.filter_app. simpl.
    destruct (decide (pageNum = q)) as [->|Hne].
    + rewrite Z.eqb_refl, fmap_app. simpl. rewrite Hsync. unfold markers_of_cache.
      by rewrite <- !app_assoc, (Permutation_app_comm [_]).
    + apply Z.eqb_neq in Hne. rewrite Hne. by rewrite !app_nil_r.
  - intros coordinates r _. unfold highlight_posted.
    destruct r as [d|err]; simpl; [|done]. destruct (success d); simpl; [|done].
    rewrite (Hdom (HighlightMarker (fresh s)
                     ("highlight-" +:+ or_else (Some (currentHighlightColor s)) "yellow")
                     coordinates (reply_id d))) by done.
    unfold markers_of_cache. simpl. rewrite List.filter_app. simpl.
    destruct (decide (pageNum = q)) as [->|Hne].
    + rewrite Z.eqb_refl, fmap_app. simpl. rewrite Hsync. unfold markers_of_cache.
      by rewrite <- !app_assoc.
    + apply Z.eqb_neq in Hne. rewrite Hne. by rewrite !app_nil_r.
Qed.

(** X12, run: page 0 of [demo_cached] is rendered, then a note is
    created on it. *)
Lemma X12_create_keeps_sync_witness :
  in_sync 0 (note_posted 0 "new" (of_Z 1) (of_Z 2) (Fulfilled (mkReply true 7 None))
               (load [0; 1]%Z demo_cached)).1.
Proof.
  apply (X12_create_keeps_sync 0 0 (load [0; 1]%Z demo_cached)).
  - vm_compute. eauto.
  - unfold in_sync. vm_compute. reflexivity.
  - reflexivity.
Defined.

(** X13.  The colour of a new highlight is read twice: the request the
    release sends carries the colour selected at the release, and the
    record that a [success] response puts into the cache, like the class
    of its marker, carries the colour selected when the response arrives.
    If the colour is changed in between, the cache and the marker show the
    new colour while the server was sent the old one. *)
Theorem X13_colour_read_at_response e box s start preview color id err :
  highlightStart s = Some start → highlightPreview s = Some preview →
  trace (mouseup e box s) ≠ trace s →
  ∃ coordinates,
    trace (mouseup e box s)
    = trace s
        ++ [Fetch (POST_highlight (hs_pageNum start) coordinates (currentHighlightColor s))]
    ∧ allHighlights
        (highlight_posted (hs_pageNum start) coordinates (Fulfilled (mkReply true id err))
           (setHighlightColor color (mouseup e box s))).1
      = allHighlights s ++ [mkHighlight id (hs_pageNum start) coordinates (Some color)].
Proof.
  intros Hstart Hpreview. unfold mouseup. rewrite Hstart, Hpreview. cbv zeta.
  destruct (_ || _); simpl; [|done]. intros _. eauto.
Qed.

(** X13, run: a drag on [demo_state] ends while yellow is selected; pink
    is selected before the response arrives. *)
Lemma X13_colour_read_at_response_witness :
  ∃ coordinates,
    trace (mouseup (mouse_at 150 150) demo_box demo_drag)
    = [Fetch (POST_highlight 0 coordinates "yellow")]
    ∧ allHighlights
        (highlight_posted 0 coordinates (Fulfilled (mkReply true 7 None))
           (setHighlightColor "pink" (mouseup (mouse_at 150 150) demo_box demo_drag))).1
      = [mkHighlight 7 0 coordinates (Some "pink")].
Proof.
  destruct (X13_colour_read_at_response (mouse_at 150 150) demo_box demo_drag
              (mkDragStart (of_Z 10) (of_Z 10) 0 (of_Z 0, of_Z 0)) 0 "pink" 7 None)
    as (coordinates & Ht & Hh); [reflexivity|reflexivity|vm_compute; discriminate|].
  exists coordinates. split; [exact Ht|exact Hh].
Defined.

(** X14.  The preview of a drag is drawn in the style of the selected
    colour when that is green, pink or blue, and in the yellow style for
    every other value that is not a name objects inherit: yellow itself
    and any other string the table does not hold; the four styles of the
    table are pairwise different. *)
Theorem X14_preview_style_fallback color :
  color ∉ inherited_names →
  (preview_style color = colorStyles_yellow ↔ color ∉ ["green"; "pink"; "blue"])
  ∧ (color ∈ palette → ∀ other, other ∈ palette →
     preview_style color = preview_style other → color = other).
Proof.
  intros _.
  assert (∀ c, c ∈ palette ↔ c = "yellow" ∨ c = "green" ∨ c = "pink" ∨ c = "blue")
    as Hpal.
  { intros c. unfold palette. rewrite !elem_of_cons, elem_of_nil. tauto. }
  assert (∀ c, preview_style c
               = if decide (c = "yellow") then colorStyles_yellow
                 else if decide (c = "green")
                      then mkColorStyle "rgba(34, 197, 94, 0.4)" "rgba(34, 197, 94, 0.8)"
                 else if decide (c = "pink")
                      then mkColorStyle "rgba(244, 114, 182, 0.4)" "rgba(244, 114, 182, 0.8)"
                 else if decide (c = "blue")
                      then mkColorStyle "rgba(59, 130, 246, 0.4)" "rgba(59, 130, 246, 0.8)"
                 else colorStyles_yellow) as Hstyle.
  { intros c. unfold preview_style, colorStyles. rewrite !lookup_insert.
    repeat (destruct (decide (_ = c)) as [<-|?];
            [by repeat (rewrite decide_True by done || rewrite decide_False by done)|]).
    rewrite lookup_empty. simpl.
    by repeat (rewrite decide_False by done). }
  split.
  - rewrite Hstyle, !not_elem_of_cons.
    destruct (decide (color = "yellow")) as [->|?].
    { split; [intros _; split_and!; try done; apply not_elem_of_nil|done]. }
    destruct (decide (color = "green")) as [->|?]; [split; [done|by intros (?&_)]|].
    destruct (decide (color = "pink")) as [->|?]; [split; [done|by intros (_&?&_)]|].
    destruct (decide (color = "blue")) as [->|?]; [split; [done|by intros (_&_&?&_)]|].
    split; [intros _; split_and!; try done; apply not_elem_of_nil|done].
  - intros Hc other Ho. rewrite !Hstyle. apply Hpal in Hc, Ho.
    destruct Hc as [-> | [-> | [-> | ->]]], Ho as [-> | [-> | [-> | ->]]]; done.
Qed.

(** X14, run: a colour that is not in the table. *)
Lemma X14_preview_style_fallback_witness :
  preview_style "purple" = colorStyles_yellow
  ∧ (preview_style "pink" = preview_style "blue" → "pink" = "blue").
Proof.
  assert (Hpurple : "purple" ∉ inherited_names)
    by (apply (bool_decide_unpack _); vm_compute; exact I).
  assert (Hpink : "pink" ∉ inherited_names)
    by (apply (bool_decide_unpack _); vm_compute; exact I).
  destruct (X14_preview_style_fallback "purple" Hpurple) as [Hfallback _].
  destruct (X14_preview_style_fallback "pink" Hpink) as [_ Hinj].
  split.
  - apply Hfallback. apply (bool_decide_unpack _). vm_compute. exact I.
  - apply Hinj; apply (bool_decide_unpack _); vm_compute; exact I.
Defined.

(** X16.  Note mode is good for one click: whatever the mode, the text
    and the positions, a second click on a layer right after a first one
    changes nothing more, because the first click in note mode has
    returned the viewer to browse. *)
Theorem X16_note_mode_is_one_shot p1 e1 box1 answer1 p2 e2 box2 answer2 s :
  layer_click p2 e2 box2 answer2 (layer_click p1 e1 box1 answer1 s)
  = layer_click p1 e1 box1 answer1 s.
Proof.
  assert (∀ s', truthy (currentMode s') = false ∨ currentMode s' ≠ Some "note" →
            layer_click p2 e2 box2 answer2 s' = s') as Hnothing.
  { intros s' Hs'. unfold layer_click. destruct (_ || _) eqn:Hguard; [done|].
    destruct (decide _) as [Hnote|]; [|done].
    destruct Hs' as [Hs'|Hs']; [|done]. by rewrite Hs' in Hguard. }
  apply Hnothing. unfold layer_click.
  destruct (negb (truthy (currentMode s))) eqn:Htruthy; simpl.
  - left. by apply negb_true_iff.
  - destruct (bool_decide _) eqn:Hhl.
    + right. apply bool_decide_eq_true in Hhl. by rewrite Hhl.
    + destruct (decide _); [left; by rewrite setMode_mode|by right].
Qed.

(** X17.  The toolbar never shows a mode that is not the current one: if
    the buttons, the colour picker and the cursor agree with the mode,
    they still do after every event the viewer handles, and after the
    first call of [toggleMode] they agree whatever they showed before. *)
Theorem X17_toolbar_shows_mode K s evs :
  (toolbar_shows_mode s → toolbar_shows_mode (run K s evs))
  ∧ (∀ mode, toolbar_shows_mode (run K (toggleMode mode s) evs)).
Proof.
  assert (∀ s, toolbar_shows_mode s → toolbar_shows_mode (run K s evs)) as Hrun.
  { induction evs as [|ev evs IH]; intros s0 Hs0; simpl; [done|].
    by apply IH, shows_mode_step. }
  split; [apply Hrun|]. intros mode. apply Hrun.
  unfold toggleMode. destruct (decide _); apply setMode_shows_mode.
Qed.

(** X17, run: from the start, with a toolbar that shows browse. *)
Lemma X17_toolbar_shows_mode_witness :
  toolbar_shows_mode
    (run 10 demo_state
       [ToggleMode "note"; LayerClick 0 (mouse_at 100 140) demo_box None;
        ToggleMode "highlight"; SetHighlightColor "pink"]).
Proof.
  apply X17_toolbar_shows_mode. vm_compute. auto.
Defined.
End ViewerExtras.

(** ** Lazy loading, navigation and sound *)

Section ImagesFacts.
Import Viewer Images.

Lemma load_image_settled d v : settled v d → load_image d v = d.
Proof.
  unfold load_image. intros [Hv|[Hv|Hv]].
  - by apply Z.leb_le in Hv as ->.
  - destruct (v <=? 0)%Z; [done|]. by rewrite Hv.
  - destruct (v <=? 0)%Z; [done|]. destruct (imgs d !! _); [|done].
    by rewrite bool_decide_true.
Qed.

(** One round either changes nothing, or works on an image that was not
    loaded yet. *)
Lemma load_image_cases d v :
  load_image d v = d
  ∨ ∃ img img',
      imgs d !! (v - 1)%Z = Some img ∧ (v ∉ loaded d)
      ∧ load_image d v = mkDoc (<[(v - 1)%Z := img']> (imgs d)) ({[v]} ∪ loaded d)
      ∧ complete img' = complete img
      ∧ on_load img' ≤ S (on_load img) ∧ on_error img' ≤ S (on_error img)
      ∧ (if truthy (src img) then src img' = src img ∧ data_src img' = data_src img
         else if truthy (data_src img)
              then src img' = data_src img ∧ data_src img' = None
              else src img' = src img ∧ data_src img' = data_src img).
Proof.
  unfold load_image. destruct (v <=? 0)%Z; [by left|].
  destruct (imgs d !! (v - 1)%Z) as [img|] eqn:Himg; [|by left].
  destruct (bool_decide (v ∈ loaded d)) eqn:Hv; [by left|].
  apply bool_decide_eq_false in Hv. right. eexists img, _.
  split_and!; [done|done|reflexivity|..];
    destruct (complete img), (truthy (data_src img)) eqn:Hd, (truthy (src img)) eqn:Hs;
    simpl; rewrite ?Hd, ?Hs; simpl; try done; try lia.
Qed.

Lemma load_image_loaded d v x : x ∈ loaded d → x ∈ loaded (load_image d v).
Proof.
  intros Hx. destruct (load_image_cases d v) as [->|(img & img' & _ & _ & -> & _)];
    [done|]. simpl. by apply elem_of_union_r.
Qed.

Lemma load_image_lookup_None d v p :
  imgs d !! p = None → imgs (load_image d v) !! p = None.
Proof.
  intros Hp. destruct (load_image_cases d v) as [->|(img & img' & Hv & _ & -> & _)];
    [done|]. simpl. rewrite lookup_insert_ne; [done|]. intros <-. congruence.
Qed.

Lemma load_image_keeps_settled d v x : settled x d → settled x (load_image d v).
Proof.
  intros [?|[?|?]]; [by left|right; left|right; right].
  - by apply load_image_lookup_None.
  - by apply load_image_loaded.
Qed.

Lemma load_image_settles d v : settled v (load_image d v).
Proof.
  unfold settled, load_image.
  destruct (Z.leb_spec v 0) as [Hv|Hv]; [by left|].
  destruct (imgs d !! (v - 1)%Z) as [img|] eqn:Himg; [|by right; left].
  right. right. destruct (decide (v ∈ loaded d)) as [Hl|Hl].
  - by rewrite bool_decide_true.
  - rewrite bool_decide_false by done. simpl.
    by apply elem_of_union_l, elem_of_singleton.
Qed.

Lemma load_images_snoc view v d :
  load_images (view ++ [v]) d = load_image (load_images view d) v.
Proof. unfold load_images. by rewrite foldl_app. Qed.

Lemma load_images_settles view d v : v ∈ view → settled v (load_images view d).
Proof.
  induction view as [|x view IH] using rev_ind; [by intros ?%elem_of_nil|].
  rewrite load_images_snoc. intros [Hv|Hv]%elem_of_app.
  - by apply load_image_keeps_settled, IH.
  - apply list_elem_of_singleton in Hv as ->. apply load_image_settles.
Qed.

Lemma load_images_settled view d :
  (∀ v, v ∈ view → settled v d) → load_images view d = d.
Proof.
  unfold load_images. induction view as [|x view IH]; intros Hd; simpl; [done|].
  rewrite load_image_settled by (apply Hd; by left). apply IH. intros v Hv.
  apply Hd. by right.
Qed.

Lemma handlers_once_load_image d v : handlers_once d → handlers_once (load_image d v).
Proof.
  intros Hd.
  destruct (load_image_cases d v)
    as [->|(img & img' & Himg & Hv & -> & _ & Hl & He & _)]; [done|].
  intros p i Hi. simpl in *. destruct (decide ((v - 1)%Z = p)) as [<-|Hne].
  - rewrite lookup_insert_eq in Hi. injection Hi as <-.
    destruct (Hd _ _ Himg) as (_ & _ & Hzero).
    destruct Hzero as [Hl0 He0]; [by replace (v - 1 + 1)%Z with v by lia|].
    split_and!; [lia|lia|]. intros Hnot. exfalso. apply Hnot.
    replace (v - 1 + 1)%Z with v by lia.
    by apply elem_of_union_l, elem_of_singleton.
  - rewrite lookup_insert_ne in Hi by done. destruct (Hd _ _ Hi) as (? & ? & Hzero).
    split_and!; [done|done|]. intros Hnot. apply Hzero. intros Hin. apply Hnot.
    by apply elem_of_union_r.
Qed.

Lemma load_image_keeps_src d v p img :
  imgs d !! p = Some img → truthy (src img) = true →
  ∃ img', imgs (load_image d v) !! p = Some img'
          ∧ src img' = src img ∧ data_src img' = data_src img.
Proof.
  intros Hp Hsrc.
  destruct (load_image_cases d v)
    as [->|(img0 & img' & Himg & _ & -> & _ & _ & _ & Hattr)]; [by eauto|].
  simpl. destruct (decide ((v - 1)%Z = p)) as [<-|Hne].
  - rewrite lookup_insert_eq. exists img'. rewrite Hp in Himg. injection Himg as <-.
    by rewrite Hsrc in Hattr.
  - rewrite lookup_insert_ne by done. eauto.
Qed.
End ImagesFacts.

Section ImagesExtras.
Import Viewer Images.

(** X18. Loading is idempotent on the images: once a view was loaded,
    loading that view again, or any view made of its pages, changes no
    image, attaches no further handler and leaves [loaded] as it is. *)
Theorem X18_reload_changes_no_image (view view' : list Z) (d : Doc) :
  view' ⊆ view →
  load_images view' (load_images view d) = load_images view d.
Proof.
  intros Hsub. apply load_images_settled. intros v Hv.
  by apply load_images_settles, Hsub.
Qed.

(** X18, run: the spread [1, 2], then page 1 again. *)
Lemma X18_reload_changes_no_image_witness :
  load_images [1%Z] (load_images [1%Z; 2%Z] demo_doc)
  = load_images [1%Z; 2%Z] demo_doc.
Proof.
  apply X18_reload_changes_no_image.
  intros v ->%list_elem_of_singleton. by left.
Defined.

(** X19. From a document where nothing was loaded and no handler is
    attached, whatever views are loaded and however often, every image
    ends with at most one [load] handler and at most one [error] handler,
    and the images of the pages not in [loaded] have none. *)
Theorem X19_handlers_attached_once (views : list (list Z)) (d : Doc) :
  untouched_doc d → handlers_once (load_all views d).
Proof.
  intros [Hl Hz].
  assert (Hd : handlers_once d).
  { intros p img Himg. destruct (Hz _ _ Himg) as [-> ->]. split_and!; [lia|lia|done]. }
  clear Hl Hz. revert d Hd. unfold load_all.
  induction views as [|view views IH]; intros d Hd; simpl; [done|].
  apply IH. unfold load_images. clear IH. revert d Hd.
  induction view as [|v view IH]; intros d Hd; simpl; [done|].
  by apply IH, handlers_once_load_image.
Qed.

(** X19, run: three rounds over the two pages. *)
Lemma X19_handlers_attached_once_witness :
  handlers_once (load_all [[1%Z; 2%Z]; [1%Z]; [2%Z; 3%Z; 1%Z]] demo_doc).
Proof.
  apply X19_handlers_attached_once. split; [reflexivity|].
  intros p img. unfold demo_doc. simpl.
  intros [[_ <-]|[_ [[_ <-]|[_ H]]%lookup_insert_Some]]%lookup_insert_Some;
    [done|done|by rewrite lookup_empty in H].
Defined.

(** X20. An image that has a [src] keeps it: no run of [load] calls
    writes the [src] of such an image or removes its [data-src]. *)
Theorem X20_src_is_never_overwritten (views : list (list Z)) (d : Doc)
    (p : Z) (img : Img) :
  imgs d !! p = Some img → truthy (src img) = true →
  ∃ img', imgs (load_all views d) !! p = Some img'
          ∧ src img' = src img ∧ data_src img' = data_src img.
Proof.
  assert (Hone : ∀ view d img,
    imgs d !! p = Some img → truthy (src img) = true →
    ∃ img', imgs (load_images view d) !! p = Some img'
            ∧ src img' = src img ∧ data_src img' = data_src img).
  { unfold load_images. clear. induction view as [|v view IH];
      intros d img Hp Hsrc; simpl; [by eauto|].
    destruct (load_image_keeps_src d v p img Hp Hsrc) as (img1 & Hp1 & Hs1 & Hd1).
    destruct (IH _ _ Hp1) as (img2 & Hp2 & Hs2 & Hd2); [by rewrite Hs1|].
    exists img2. split_and!; [done|congruence|congruence]. }
  unfold load_all. revert d img.
  induction views as [|view views IH]; intros d img Hp Hsrc; simpl; [by eauto|].
  destruct (Hone view d img Hp Hsrc) as (img1 & Hp1 & Hs1 & Hd1).
  destruct (IH _ _ Hp1) as (img2 & Hp2 & Hs2 & Hd2); [by rewrite Hs1|].
  exists img2. split_and!; [done|congruence|congruence].
Qed.

(** X20, run: an image served with both attributes. *)
Lemma X20_src_is_never_overwritten_witness :
  ∃ img',
    imgs (load_all [[1%Z; 2%Z]; [1%Z]]
            (mkDoc {[0%Z := mkImg true (Some "/a.jpg") (Some "/b.jpg") false 0 0]} ∅))
      !! 0%Z = Some img'
    ∧ src img' = Some "/a.jpg" ∧ data_src img' = Some "/b.jpg".
Proof.
  apply (X20_src_is_never_overwritten _ _ 0%Z
           (mkImg true (Some "/a.jpg") (Some "/b.jpg") false 0 0));
    reflexivity.
Defined.

(** X21. A lazy image is shown by the first view that names its page:
    when the entry [v] was not loaded and the image of page [v - 1] has a
    [data-src] and no [src], every view that contains [v] leaves that
    image with the [data-src] as its [src], without [data-src], and with
    one more [error] handler. *)
Theorem X21_data_src_is_promoted (view : list Z) (d : Doc) (v : Z) (img : Img) :
  v ∈ view → (0 < v)%Z → v ∉ loaded d →
  imgs d !! (v - 1)%Z = Some img →
  truthy (src img) = false → truthy (data_src img) = true →
  ∃ img', imgs (load_images view d) !! (v - 1)%Z = Some img'
          ∧ src img' = data_src img ∧ data_src img' = None
          ∧ on_error img' = S (on_error img).
Proof.
  intros Hin Hv. revert d. unfold load_images.
  induction view as [|x view IH]; intros d Hl Himg Hsrc Hdata;
    [by apply elem_of_nil in Hin|].
  simpl. destruct (decide (x = v)) as [->|Hne].
  - clear IH Hin.
    assert (Hstep : ∃ img1, imgs (load_image d v) !! (v - 1)%Z = Some img1
        ∧ src img1 = data_src img ∧ data_src img1 = None
        ∧ on_error img1 = S (on_error img) ∧ v ∈ loaded (load_image d v)).
    { unfold load_image. destruct (Z.leb_spec v 0) as [?|_]; [lia|].
      rewrite Himg, bool_decide_false by done. simpl.
      rewrite lookup_insert_eq. eexists. split; [reflexivity|].
      destruct (complete img); simpl; rewrite Hdata, Hsrc; simpl;
        rewrite ?Hdata; simpl;
        (split_and!; [done|done|done|by apply elem_of_union_l, elem_of_singleton]). }
    destruct Hstep as (img1 & Hp1 & Hs1 & Hd1 & He1 & Hl1).
    assert (Hrest : ∀ view d,
      imgs d !! (v - 1)%Z = Some img1 → v ∈ loaded d →
      imgs (foldl load_image d view) !! (v - 1)%Z = Some img1).
    { clear. induction view as [|x view IH]; intros d Hp Hl; simpl; [done|].
      apply IH; [|by apply load_image_loaded].
      destruct (load_image_cases d x)
        as [->|(i & i' & Hi & Hx & -> & _)]; [done|]. simpl.
      rewrite lookup_insert_ne; [done|]. intros Heq.
      assert (x = v) as -> by lia. done. }
    exists img1. split_and!; [by apply Hrest|done|done|done].
  - apply elem_of_cons in Hin as [->|Hin]; [done|].
    destruct (load_image_cases d x)
      as [->|(i & i' & Hi & Hx & -> & _)]; [by apply IH|].
    apply IH; simpl; [done| |by rewrite lookup_insert_ne by lia|done|done].
    intros [Hs%elem_of_singleton|?]%elem_of_union; [congruence|done].
Qed.

(** X21, run: the second page of the spread. *)
Lemma X21_data_src_is_promoted_witness :
  ∃ img', imgs (load_images [1%Z; 2%Z] demo_doc) !! 1%Z = Some img'
          ∧ src img' = Some "/page/1.jpg" ∧ data_src img' = None
          ∧ on_error img' = 1.
Proof.
  apply (X21_data_src_is_promoted [1%Z; 2%Z] demo_doc 2%Z (lazy_img "/page/1.jpg"));
    [by right; left|lia|by intros ?%elem_of_empty|reflexivity|reflexivity|reflexivity].
Defined.
End ImagesExtras.

Section NavigationFacts.
Import JsNum Viewer Navigation.

Lemma of_Z_100 : of_Z 100 = S754_finite false 7036874417766400 (-46).
Proof. vm_compute. reflexivity. Qed.

Lemma gtb_abs_inv v m e :
  gtb (Math_abs v) (S754_finite false m e) = true →
  gtb v (S754_finite false m e) = true ∨ gtb (SFopp v) (S754_finite false m e) = true.
Proof.
  unfold gtb, SFltb. destruct v as [[]|[]| |[] m' e']; simpl; auto.
Qed.

Lemma pointer_up_armed e w :
  isDown w = true →
  pointer_up e w
  = (mkSwipe (startX w) false,
     if gtb (sub (startX w) (endX_of e)) (of_Z 100) then [turn_next]
     else if gtb (sub (endX_of e) (startX w)) (of_Z 100) then [turn_previous]
     else []).
Proof.
  intros Hw. unfold pointer_up. rewrite Hw. cbv zeta. fold (endX_of e).
  cbn [negb]. f_equal. rewrite of_Z_100.
  destruct (gtb (sub (startX w) (endX_of e)) _) eqn:Hnext; [|done].
  by rewrite (gtb_sub_exclusive _ _ _ _ Hnext).
Qed.

Lemma playPageTurnSound_index present i : (playPageTurnSound present i).1 < 2.
Proof.
  unfold playPageTurnSound. cbv zeta. cbn [fst].
  apply Nat.mod_upper_bound. by compute.
Qed.
End NavigationFacts.

Section NavigationExtras.
Import JsNum Viewer Navigation.

(** X22. A release issues at most one turn command and disarms the
    swipe: whatever the positions are, infinite or NaN included, the
    handler of [touchend mouseup] never asks Turn.js for both directions,
    and a second release without a press in between asks for nothing. *)
Theorem X22_release_turns_at_most_once (e e' : PointerEvent) (w : Swipe) :
  ((pointer_up e w).2 = [] ∨ (pointer_up e w).2 = [turn_next]
   ∨ (pointer_up e w).2 = [turn_previous])
  ∧ isDown (pointer_up e w).1 = false
  ∧ (pointer_up e' (pointer_up e w).1).2 = [].
Proof.
  destruct (isDown w) eqn:Hw.
  - rewrite (pointer_up_armed _ _ Hw). simpl. split; [|done].
    destruct (gtb (sub (startX w) _) _); [by auto|].
    destruct (gtb (sub (endX_of e) _) _); by auto.
  - unfold pointer_up. rewrite Hw. simpl. rewrite Hw. simpl. auto.
Qed.

(** X23. The threshold of the swipe is a dead zone of 100 pixels on
    either side of the press: an armed release issues no command exactly
    when the distance between press and release is not above 100, [next]
    exactly when the release is more than 100 to the left and [previous]
    exactly when it is more than 100 to the right. *)
Theorem X23_swipe_dead_zone (e : PointerEvent) (w : Swipe) :
  isDown w = true →
  ((pointer_up e w).2 = []
     ↔ gtb (Math_abs (sub (endX_of e) (startX w))) (of_Z 100) = false)
  ∧ ((pointer_up e w).2 = [turn_next]
     ↔ gtb (sub (startX w) (endX_of e)) (of_Z 100) = true)
  ∧ ((pointer_up e w).2 = [turn_previous]
     ↔ gtb (sub (endX_of e) (startX w)) (of_Z 100) = true).
Proof.
  intros Hw. rewrite (pointer_up_armed _ _ Hw). cbn [snd].
  rewrite of_Z_100. set (t := S754_finite false _ _).
  destruct (gtb (sub (startX w) (endX_of e)) t) eqn:Hnext.
  - pose proof (gtb_sub_exclusive _ _ _ _ Hnext) as Hprev. fold t in Hprev.
    rewrite Hprev. apply gtb_abs in Hnext. rewrite abs_sub_swap in Hnext.
    rewrite Hnext. split_and!; split; done.
  - destruct (gtb (sub (endX_of e) (startX w)) t) eqn:Hprev.
    + rewrite (gtb_abs _ _ Hprev). split_and!; split; done.
    + destruct (gtb (Math_abs _) t) eqn:Habs; [|split_and!; split; done].
      exfalso. subst t. apply gtb_abs_inv in Habs as [Habs|Habs]; [congruence|].
      destruct (sub_swap (endX_of e) (startX w)) as [Heq|(s1 & s2 & Hz & _)].
      * rewrite <- Heq in Habs. congruence.
      * rewrite Hz in Habs. by destruct s1.
Qed.

(** X23, run: a mouse drag of 101 pixels to the left. *)
Lemma X23_swipe_dead_zone_witness :
  (pointer_up (mouse_at 199 300) (mkSwipe (of_Z 300) true)).2 = [turn_next]
  ↔ gtb (sub (of_Z 300) (endX_of (mouse_at 199 300))) (of_Z 100) = true.
Proof.
  apply (X23_swipe_dead_zone (mouse_at 199 300) (mkSwipe (of_Z 300) true)).
  reflexivity.
Defined.

(** X24. Annotating never turns the page: a press on a button, a marker,
    a link or a delete control, or any press while a mode is set, leaves
    the swipe unarmed, so that the release that follows issues no turn
    command however far the pointer moved. *)
Theorem X24_no_swipe_while_annotating (on_interactive : bool)
    (e e' : PointerEvent) (s : State) (w : Swipe) :
  on_interactive = true ∨ truthy (currentMode s) = true →
  isDown w = false →
  pointer_down on_interactive e s w = w
  ∧ (pointer_up e' (pointer_down on_interactive e s w)).2 = [].
Proof.
  intros Hmode Hw.
  assert (Hsame : pointer_down on_interactive e s w = w).
  { unfold pointer_down. destruct Hmode as [->| ->]; [done|].
    by destruct on_interactive. }
  rewrite Hsame. split; [done|]. unfold pointer_up. by rewrite Hw.
Qed.

(** X24, run: a drag across the whole page in highlight mode. *)
Lemma X24_no_swipe_while_annotating_witness :
  pointer_down false (mouse_at 900 300) (setMode (Some "highlight") demo_state)
    (mkSwipe (of_Z 0) false) = mkSwipe (of_Z 0) false
  ∧ (pointer_up (mouse_at 10 300)
       (pointer_down false (mouse_at 900 300)
          (setMode (Some "highlight") demo_state) (mkSwipe (of_Z 0) false))).2 = [].
Proof.
  apply X24_no_swipe_while_annotating; [right|]; reflexivity.
Defined.

(** X25. The two page-turn sounds alternate: from an index inside
    [audioIds], the turn number [k] of any run of turns plays the element
    [(i + k) mod 2], when the document has it, and nothing otherwise; a
    missing element does not stop the alternation. *)
Theorem X25_sounds_alternate (present : string → bool) (n i k : nat) :
  i < 2 → k < n →
  sounds present n i !! k = Some (audio_at present ((i + k) mod 2)).
Proof.
  revert i k. induction n as [|n IH]; intros i k Hi Hk; [lia|].
  cbn [sounds]. unfold playPageTurnSound at 1. cbv zeta.
  destruct k as [|k].
  - cbn [lookup list_lookup]. rewrite Nat.add_0_r, Nat.mod_small by done.
    reflexivity.
  - change ((?x :: ?l) !! S k) with (l !! k). rewrite IH; [|by apply Nat.mod_upper_bound|lia].
    do 2 f_equal. change (length audioIds) with 2.
    rewrite Nat.Div0.add_mod_idemp_l. f_equal. lia.
Qed.

(** X25, run: the third of five turns plays the first sound again. *)
Lemma X25_sounds_alternate_witness :
  sounds (λ _, true) 5 0 !! 2 = Some (audio_at (λ _, true) ((0 + 2) mod 2)).
Proof. apply X25_sounds_alternate; lia. Defined.

(** X26. The page range display shows one of four things: "Cover",
    "End", the number of one page of the PDF, or the numbers of two pages
    of the PDF with a dash; every number shown lies between 1 and
    [PDF_PAGE_COUNT]. *)
Theorem X26_page_range_text (PDF_PAGE_COUNT pages : Z) (view : list Z) :
  displayTxt PDF_PAGE_COUNT pages view = "Cover"
  ∨ displayTxt PDF_PAGE_COUNT pages view = "End"
  ∨ ∃ n, (1 ≤ n ≤ PDF_PAGE_COUNT)%Z
      ∧ (displayTxt PDF_PAGE_COUNT pages view = pretty n
         ∨ ∃ m, (1 ≤ m ≤ PDF_PAGE_COUNT)%Z
             ∧ displayTxt PDF_PAGE_COUNT pages view = pretty n +:+ " - " +:+ pretty m).
Proof.
  unfold displayTxt. cbv zeta.
  set (l := List.filter _ _).
  assert (Hl : ∀ p, In p l → (0 ≤ p < PDF_PAGE_COUNT)%Z).
  { intros p [_ Hp]%filter_In. apply andb_true_iff in Hp as [?%Z.leb_le ?%Z.ltb_lt].
    done. }
  destruct l as [|p0 [|p1 l]].
  - destruct (bool_decide _); auto.
  - right. right. exists (p0 + 1)%Z. split; [|by left].
    specialize (Hl p0 (or_introl eq_refl)). lia.
  - right. right. exists (p0 + 1)%Z. split.
    + specialize (Hl p0 (or_introl eq_refl)). lia.
    + right. exists (p1 + 1)%Z. split; [|done].
      specialize (Hl p1 (or_intror (or_introl eq_refl))). lia.
Qed.

(** X27. With the cover as page 1 of the flipbook and the PDF from page 2
    on, the spread [v, v + 1] shows the PDF pages [v - 1] and [v]; at the
    last PDF page, when the spread ends on the back cover, it shows that
    page alone. *)
Theorem X27_spread_text (PDF_PAGE_COUNT pages v : Z) :
  (2 ≤ v ≤ PDF_PAGE_COUNT + 1)%Z →
  displayTxt PDF_PAGE_COUNT pages [v; (v + 1)%Z]
  = if (v <=? PDF_PAGE_COUNT)%Z
    then pretty (v - 1)%Z +:+ " - " +:+ pretty v
    else pretty PDF_PAGE_COUNT.
Proof.
  intros Hv. unfold displayTxt. cbv zeta.
  cbn [fmap list_fmap List.filter].
  replace (0 <=? v - 2)%Z with true by (symmetry; apply Z.leb_le; lia).
  replace (v - 2 <? PDF_PAGE_COUNT)%Z with true by (symmetry; apply Z.ltb_lt; lia).
  replace (0 <=? v + 1 - 2)%Z with true by (symmetry; apply Z.leb_le; lia).
  cbn [andb]. destruct (Z.leb_spec v PDF_PAGE_COUNT) as [Hle|Hgt].
  - replace (v + 1 - 2 <? PDF_PAGE_COUNT)%Z with true by (symmetry; apply Z.ltb_lt; lia).
    replace (v - 2 + 1)%Z with (v - 1)%Z by lia.
    by replace (v + 1 - 2 + 1)%Z with v by lia.
  - replace (v + 1 - 2 <? PDF_PAGE_COUNT)%Z with false by (symmetry; apply Z.ltb_ge; lia).
    by replace (v - 2 + 1)%Z with PDF_PAGE_COUNT by lia.
Qed.

(** X27, run: the second spread of a book of ten pages. *)
Lemma X27_spread_text_witness :
  displayTxt 10 12 [4%Z; (4 + 1)%Z]
  = if (4 <=? 10)%Z then pretty 3%Z +:+ " - " +:+ pretty 4%Z else pretty 10%Z.
Proof. apply (X27_spread_text 10 12 4). lia. Defined.
End NavigationExtras.

(** ** Deleting and the cache *)

Section DeleteFacts.
Import JsNum Viewer ViewerInv.

Lemma filter_all {A} (f : A → bool) (l : list A) :
  (∀ x, x ∈ l → f x = true) → List.filter f l = l.
Proof.
  intros Hf. induction l as [|x l IH]; [done|]. simpl.
  rewrite (Hf x) by (by left). f_equal. apply IH. intros y Hy. apply Hf. by right.
Qed.

(** Filtering a record out of a collection with distinct ids takes it,
    and nothing else, from the records of its page. *)
Lemma filter_out_one {A} (key page : A → Z) (l : list A) (a : A) (q : Z) :
  a ∈ l → NoDup (key <$> l) →
  List.filter (λ x, Z.eqb (page x) q) l
  ≡ₚ (if Z.eqb (page a) q then [a] else [])
     ++ List.filter (λ x, Z.eqb (page x) q)
          (List.filter (λ x, negb (Z.eqb (key x) (key a))) l).
Proof.
  intros (l1 & l2 & ->)%list_elem_of_split Hnd.
  rewrite fmap_app, fmap_cons in Hnd.
  apply NoDup_app in Hnd as (Hnd1 & Hnot & Hnd2).
  apply NoDup_cons in Hnd2 as [Hnot2 _].
  assert (H1 : List.filter (λ x, negb (Z.eqb (key x) (key a))) l1 = l1).
  { apply filter_all. intros x Hx. apply negb_true_iff, Z.eqb_neq. intros Heq.
    apply (Hnot (key x)); [by apply list_elem_of_fmap_2|]. rewrite Heq. by left. }
  assert (H2 : List.filter (λ x, negb (Z.eqb (key x) (key a))) l2 = l2).
  { apply filter_all. intros x Hx. apply negb_true_iff, Z.eqb_neq. intros Heq.
    apply Hnot2. rewrite <- Heq. by apply list_elem_of_fmap_2. }
  rewrite !List.filter_app. simpl. rewrite Z.eqb_refl. simpl.
  rewrite H1, H2.
  destruct (Z.eqb (page a) q); simpl; [|done].
  by rewrite <- Permutation_middle.
Qed.

Lemma hosts_removed_here p c s s' sel :
  hosts p c s → pages s' = remove sel <$> pages s →
  sel c = true → (∀ c', sel c' = true → element_id c' = element_id c) →
  is_marker c = true →
  markers_on p s ≡ₚ anonymous c :: markers_on p s'.
Proof.
  intros [(before & after & Hch & Huniq) _] Hs' Hc Hsel Hm.
  assert (Hch' : children p s' = before ++ after).
  { unfold children in *. rewrite Hs', lookup_fmap.
    destruct (pages s !! p) as [cs|]; simpl in *; [|by destruct before].
    subst cs. rewrite remove_app. simpl. rewrite Hc. simpl.
    rewrite Forall_app in Huniq. destruct Huniq as [Hb Ha].
    rewrite !remove_none; [done|..]; intros c' Hc';
      destruct (sel c') eqn:Hsc; try done; apply Hsel in Hsc;
      [rewrite Forall_forall in Ha; by destruct (Ha _ Hc')
      |rewrite Forall_forall in Hb; by destruct (Hb _ Hc')]. }
  unfold markers_on. rewrite Hch, Hch', !List.filter_app. simpl. rewrite Hm.
  rewrite !fmap_app, fmap_cons. by rewrite <- Permutation_middle.
Qed.

Lemma hosts_removed_elsewhere p q c s s' sel :
  hosts p c s → pages s' = remove sel <$> pages s →
  (∀ c', sel c' = true → element_id c' = element_id c) →
  q ≠ p → markers_on q s' = markers_on q s.
Proof.
  intros [_ Hothers] Hs' Hsel Hq. unfold markers_on, children.
  rewrite Hs', lookup_fmap. destruct (pages s !! q) as [cs|] eqn:Hcs; [|done].
  simpl. rewrite remove_none; [done|]. intros c' Hc'.
  destruct (Hothers _ _ Hcs) as [?|Hall]; [done|].
  rewrite Forall_forall in Hall. destruct (sel c') eqn:Hsc; [|done].
  apply Hsel in Hsc. by destruct (Hall _ Hc').
Qed.
End DeleteFacts.

Section DeleteExtras.
Import JsNum Viewer ViewerInv.

(** X28. Deleting a note keeps every page in step with the cache: when
    the ids of the cached notes are distinct, the marker that hosts the
    delete control is on a page that shows the markers of the cache, and
    no other node has its identity, then after the response to the delete
    request has been handled, whatever the response, every page that
    showed the markers of the cache still does. *)
Theorem X28_delete_note_keeps_sync p q el x y title id r s :
  hosts p (NoteMarker el x y title id) s →
  NoDup (n_id <$> allNotes s) →
  in_sync p s → in_sync q s →
  in_sync q (note_deleted id el r s).1.
Proof.
  intros Hhost Hnd Hp Hq. unfold note_deleted.
  destruct r as [d|err]; simpl; [|exact Hq]. destruct (success d); simpl; [|exact Hq].
  set (c := NoteMarker el x y title id) in *.
  set (sel := λ c : Element, is_note_marker c && bool_decide (element_id c = el)).
  set (s' := set_allNotes _ _).
  assert (Hpages : pages s' = remove sel <$> pages s) by done.
  assert (Hsel : ∀ c', sel c' = true → element_id c' = element_id c).
  { intros c' [_ Hid%bool_decide_eq_true]%andb_true_iff. done. }
  assert (Hc : sel c = true) by (unfold sel; simpl; by rewrite bool_decide_true).
  pose proof (hosts_removed_here p c s s' sel Hhost Hpages Hc Hsel eq_refl) as Hhere.
  (* the record behind the marker *)
  assert (Hn : ∃ n, n ∈ allNotes s ∧ n_page_number n = p ∧ n_id n = id
                    ∧ note_marker n = anonymous c).
  { assert (Hin : anonymous c ∈ markers_of_cache p s).
    { rewrite <- Hp, Hhere. by left. }
    unfold markers_of_cache in Hin. apply elem_of_app in Hin as [Hin|Hin].
    - apply list_elem_of_fmap in Hin as (n & Heq & Hin).
      apply list_elem_of_In, filter_In in Hin as [Hin Hpg].
      exists n. apply list_elem_of_In in Hin. apply Z.eqb_eq in Hpg.
      split_and!; [done|done| |done]. unfold note_marker in Heq. simpl in Heq.
      congruence.
    - apply list_elem_of_fmap in Hin as (h & Heq & _). done. }
  destruct Hn as (n & Hin & Hpg & Hid & Hmk).
  assert (Hcache : ∀ q',
    markers_of_cache q' s
    ≡ₚ (if Z.eqb p q' then [anonymous c] else []) ++ markers_of_cache q' s').
  { intros q'. unfold markers_of_cache. simpl.
    rewrite (filter_out_one n_id n_page_number (allNotes s) n q' Hin Hnd).
    rewrite Hpg, Hid, fmap_app, <- app_assoc. f_equiv.
    destruct (Z.eqb p q'); simpl; [by rewrite Hmk|done]. }
  unfold in_sync. destruct (decide (q = p)) as [->|Hne].
  - apply (Permutation_cons_inv (a := anonymous c)).
    rewrite <- Hhere, Hp, (Hcache p), Z.eqb_refl. done.
  - rewrite (hosts_removed_elsewhere p q c s s' sel Hhost Hpages Hsel Hne).
    unfold in_sync in Hq. rewrite Hq, (Hcache q).
    replace (Z.eqb p q) with false; [done|]. symmetry. apply Z.eqb_neq. congruence.
Qed.

(** X28, run: page 0 of [demo_cached] is rendered, then its note is
    deleted. *)
Lemma X28_delete_note_keeps_sync_witness :
  in_sync 0 (note_deleted 1 0 (Fulfilled (mkReply true 0 None))
               (load [1]%Z demo_cached)).1.
Proof.
  apply (X28_delete_note_keeps_sync 0 0 0 (of_Z 10) (of_Z 20) "hi" 1).
  - split.
    + exists [], [HighlightMarker 1 "highlight-green" (h_coordinates demo_highlight) 2].
      split; [vm_compute; reflexivity|]. repeat constructor. vm_compute. lia.
    + apply map_Forall_to_list. vm_compute.
      repeat (constructor; [first [by left | right; repeat constructor; lia]|]).
      constructor.
  - vm_compute. apply NoDup_singleton.
  - unfold in_sync. vm_compute. reflexivity.
  - unfold in_sync. vm_compute. reflexivity.
Defined.

(** X29. Deleting a highlight keeps every page in step with the cache,
    under the same conditions: distinct ids of the cached highlights, the
    marker on a page that shows the markers of the cache, and no other
    node with its identity. *)
Theorem X29_delete_highlight_keeps_sync p q el colorClass rect id r s :
  hosts p (HighlightMarker el colorClass rect id) s →
  NoDup (h_id <$> allHighlights s) →
  in_sync p s → in_sync q s →
  in_sync q (highlight_deleted id el r s).1.
Proof.
  intros Hhost Hnd Hp Hq. unfold highlight_deleted.
  destruct r as [d|err]; simpl; [|exact Hq]. destruct (success d); simpl; [|exact Hq].
  set (c := HighlightMarker el colorClass rect id) in *.
  set (sel := λ c : Element, is_highlight_marker c && bool_decide (element_id c = el)).
  set (s' := set_allHighlights _ _).
  assert (Hpages : pages s' = remove sel <$> pages s) by done.
  assert (Hsel : ∀ c', sel c' = true → element_id c' = element_id c).
  { intros c' [_ Hid%bool_decide_eq_true]%andb_true_iff. done. }
  assert (Hc : sel c = true) by (unfold sel; simpl; by rewrite bool_decide_true).
  pose proof (hosts_removed_here p c s s' sel Hhost Hpages Hc Hsel eq_refl) as Hhere.
  assert (Hh : ∃ h, h ∈ allHighlights s ∧ h_page_number h = p ∧ h_id h = id
                    ∧ highlight_marker h = anonymous c).
  { assert (Hin : anonymous c ∈ markers_of_cache p s).
    { rewrite <- Hp, Hhere. by left. }
    unfold markers_of_cache in Hin. apply elem_of_app in Hin as [Hin|Hin].
    - apply list_elem_of_fmap in Hin as (n & Heq & _). done.
    - apply list_elem_of_fmap in Hin as (h & Heq & Hin).
      apply list_elem_of_In, filter_In in Hin as [Hin Hpg].
      exists h. apply list_elem_of_In in Hin. apply Z.eqb_eq in Hpg.
      split_and!; [done|done| |done]. unfold highlight_marker in Heq. simpl in Heq.
      congruence. }
  destruct Hh as (h & Hin & Hpg & Hid & Hmk).
  assert (Hcache : ∀ q',
    markers_of_cache q' s
    ≡ₚ (if Z.eqb p q' then [anonymous c] else []) ++ markers_of_cache q' s').
  { intros q'. unfold markers_of_cache. simpl.
    rewrite (filter_out_one h_id h_page_number (allHighlights s) h q' Hin Hnd).
    rewrite Hpg, Hid, fmap_app.
    destruct (Z.eqb p q'); simpl; [|done].
    by rewrite Hmk, <- Permutation_middle. }
  unfold in_sync. destruct (decide (q = p)) as [->|Hne].
  - apply (Permutation_cons_inv (a := anonymous c)).
    rewrite <- Hhere, Hp, (Hcache p), Z.eqb_refl. done.
  - rewrite (hosts_removed_elsewhere p q c s s' sel Hhost Hpages Hsel Hne).
    unfold in_sync in Hq. rewrite Hq, (Hcache q).
    replace (Z.eqb p q) with false; [done|]. symmetry. apply Z.eqb_neq. congruence.
Qed.

(** X29, run: page 0 of [demo_cached] is rendered, then its highlight is
    deleted. *)
Lemma X29_delete_highlight_keeps_sync_witness :
  in_sync 0 (highlight_deleted 2 1 (Fulfilled (mkReply true 0 None))
               (load [1]%Z demo_cached)).1.
Proof.
  apply (X29_delete_highlight_keeps_sync 0 0 1 "highlight-green"
           (h_coordinates demo_highlight) 2).
  - split.
    + exists [NoteMarker 0 (of_Z 10) (of_Z 20) "hi" 1], [].
      split; [vm_compute; reflexivity|]. repeat constructor. vm_compute. lia.
    + apply map_Forall_to_list. vm_compute.
      repeat (constructor; [first [by left | right; repeat constructor; lia]|]).
      constructor.
  - vm_compute. apply NoDup_singleton.
  - unfold in_sync. vm_compute. reflexivity.
  - unfold in_sync. vm_compute. reflexivity.
Defined.
End DeleteExtras.

(** ** Repainting while a delete is pending *)

Section RepaintFacts.
Import JsNum Viewer ViewerInv.

Lemma fresh_foldl_append {A} (mk : A → nat → Element) p l :
  ∀ s, fresh s ≤ fresh (foldl (λ s a, append p (mk a) s) s l).
Proof.
  induction l as [|a l IH]; intros s; simpl; [done|].
  etrans; [|apply IH]. simpl. lia.
Qed.

Lemma fresh_loadAnnotations pageNum p s : fresh s ≤ fresh (loadAnnotations pageNum p s).
Proof.
  unfold loadAnnotations, renderNote, renderHighlight.
  etrans; [|apply (fresh_foldl_append (λ h el, HighlightMarker el _ _ _))].
  etrans; [|apply (fresh_foldl_append (λ n el, NoteMarker el _ _ _ _))]. done.
Qed.

Lemma fresh_load_one s v : fresh s ≤ fresh (load_one s v).
Proof.
  unfold load_one. destruct (v <=? 0)%Z; [done|].
  destruct (pages s !! _); [apply fresh_loadAnnotations|done].
Qed.

Lemma markers_from_append {A} (mk : A → nat → Element) k p q l :
  (∀ a n, element_id (mk a n) = n) →
  ∀ s, k ≤ fresh s → markers_from k p s →
       markers_from k p (foldl (λ s a, append q (mk a) s) s l).
Proof.
  intros Hmk. induction l as [|a l IH]; intros s Hk Hs; simpl; [done|].
  apply IH; [simpl; lia|]. intros c Hc Hm. unfold children, append in Hc. simpl in Hc.
  destruct (decide (q = p)) as [->|Hne].
  - rewrite lookup_alter_eq in Hc. unfold markers_from, children in Hs.
    destruct (pages s !! p) as [cs|]; simpl in *; [|by apply elem_of_nil in Hc].
    apply elem_of_app in Hc as [Hc|Hc]; [by apply Hs|].
    apply list_elem_of_singleton in Hc as ->. by rewrite Hmk.
  - rewrite lookup_alter_ne in Hc by done. by apply Hs.
Qed.

Lemma markers_from_loadAnnotations k pageNum p q s :
  k ≤ fresh s → q = p ∨ markers_from k p s →
  markers_from k p (loadAnnotations pageNum q s).
Proof.
  intros Hk Hs. unfold loadAnnotations, renderNote, renderHighlight.
  apply (markers_from_append (λ h el, HighlightMarker el _ _ _)); [done| |].
  { etrans; [|apply (fresh_foldl_append (λ n el, NoteMarker el _ _ _ _))]. done. }
  apply (markers_from_append (λ n el, NoteMarker el _ _ _ _)); [done|done|].
  intros c Hc Hm. unfold children in Hc. simpl in Hc.
  destruct (decide (q = p)) as [->|Hne].
  - rewrite lookup_alter_eq in Hc.
    destruct (pages s !! p) as [cs|]; simpl in *; [|by apply elem_of_nil in Hc].
    apply elem_of_remove in Hc as [_ Hc]. congruence.
  - rewrite lookup_alter_ne in Hc by done. destruct Hs as [?|Hs]; [done|].
    by apply Hs.
Qed.

Lemma markers_from_load k p view :
  ∀ s, k ≤ fresh s → painted view p s ∨ markers_from k p s →
       markers_from k p (load view s).
Proof.
  unfold load. induction view as [|v view IH]; intros s Hk Hs; simpl.
  { destruct Hs as [(Hin & _)|Hs]; [by apply elem_of_nil in Hin|done]. }
  apply IH; [etrans; [exact Hk|apply fresh_load_one]|].
  destruct Hs as [(Hin & Hpos & Hp)|Hs].
  - destruct (decide (v = (p + 1)%Z)) as [->|Hne].
    + right. unfold load_one. destruct (Z.leb_spec (p + 1) 0) as [?|_]; [lia|].
      replace (p + 1 - 1)%Z with p by lia. destruct Hp as [cs ->].
      apply markers_from_loadAnnotations; auto.
    + left. split_and!; [|done|by apply load_one_is_Some].
      apply elem_of_cons in Hin as [?|?]; [congruence|done].
  - right. unfold load_one. destruct (v <=? 0)%Z; [done|].
    destruct (pages s !! _); [|done]. apply markers_from_loadAnnotations; auto.
Qed.

(** A node that was in the document before a repaint is none of the
    markers the page shows after it: removing it then changes nothing,
    and the page keeps showing the cache the repaint read. *)
Lemma repaint_outruns_removal view p s el sel s' :
  painted view p s → el < fresh s →
  (∀ c, sel c = true → is_marker c = true) →
  pages s' = remove (λ c, sel c && bool_decide (element_id c = el)) <$> pages (load view s) →
  markers_on p s' = markers_of_cache p s.
Proof.
  intros Hp Hel Hsel Hs'. rewrite <- (load_markers view p s Hp).
  unfold markers_on, children. rewrite Hs', lookup_fmap.
  pose proof (markers_from_load (fresh s) p view s (le_n _) (or_introl Hp)) as Hnew.
  unfold markers_from, children in Hnew.
  destruct (pages (load view s) !! p) as [cs|]; simpl in *; [|done].
  rewrite remove_none; [done|]. intros c Hc.
  destruct (sel c) eqn:Hsc; [|done]. simpl. apply bool_decide_eq_false.
  specialize (Hnew c Hc (Hsel c Hsc)). lia.
Qed.

Lemma children_ids_below p c s : ids_below s → c ∈ children p s → element_id c < fresh s.
Proof.
  intros Hs Hc. unfold children in Hc.
  destruct (pages s !! p) as [cs|] eqn:Hp; simpl in Hc; [|by apply elem_of_nil in Hc].
  by apply (Hs p cs).
Qed.
End RepaintFacts.

Section DeleteRace.
Import JsNum Viewer ViewerInv.

(** C4. A repaint between the confirmation and the response defeats the
    removal of the marker.  In any state the viewer reaches from its
    start, take a cached note whose marker is on its page, click the
    delete control of that marker and confirm; let the page be repainted
    while the request is pending (a page turn whose view holds the page);
    then let a [success] response arrive.  No entry with the id is left
    in the cache, but the page still shows the marker of the note, so the
    page is out of step with the cache: the handler removes the node that
    was clicked, which the repaint had already replaced.  The same holds
    for a cached highlight. *)
Theorem C4_repaint_keeps_the_marker_of_a_deleted_entry K pageNumbers tb evs view :
  let s := run K (initial pageNumbers tb) evs in
  (∀ n el d,
     n ∈ allNotes s →
     NoteMarker el (n_x n) (n_y n) (n_content n) (n_id n) ∈ children (n_page_number n) s →
     painted view (n_page_number n) s →
     success d = true →
     let s' := run K s [DeleteNote (n_id n) el true; Turning view;
                        NoteDeleted (n_id n) el (Fulfilled d)] in
     (∀ n', n' ∈ allNotes s' → n_id n' ≠ n_id n)
     ∧ note_marker n ∈ markers_on (n_page_number n) s'
     ∧ ¬ in_sync (n_page_number n) s')
  ∧ (∀ h el d,
     h ∈ allHighlights s →
     HighlightMarker el ("highlight-" +:+ or_else (h_color h) "yellow")
       (h_coordinates h) (h_id h) ∈ children (h_page_number h) s →
     painted view (h_page_number h) s →
     success d = true →
     let s' := run K s [DeleteHighlight (h_id h) el true; Turning view;
                        HighlightDeleted (h_id h) el (Fulfilled d)] in
     (∀ h', h' ∈ allHighlights s' → h_id h' ≠ h_id h)
     ∧ highlight_marker h ∈ markers_on (h_page_number h) s'
     ∧ ¬ in_sync (h_page_number h) s').
Proof.
  intros s.
  assert (Hids : ids_below s) by apply ids_below_run, ids_below_initial.
  split.
  - intros n el d Hn Hc Hp Hd s'.
    set (s1 := deleteNote (n_id n) el true s).
    assert (Hon : markers_on (n_page_number n) s' = markers_of_cache (n_page_number n) s1).
    { apply (repaint_outruns_removal view _ s1 el is_note_marker).
      - exact Hp.
      - apply (children_ids_below _ _ _ Hids Hc).
      - by intros [].
      - unfold s', run. cbn [foldl step]. fold s1. unfold note_deleted, turning.
        simpl. rewrite Hd. done. }
    assert (Hcache : ∀ n', n' ∈ allNotes s' → n_id n' ≠ n_id n).
    { unfold s', run. cbn [foldl step]. fold s1. unfold note_deleted. simpl.
      rewrite Hd. simpl. intros n' [_ Hne]%list_elem_of_In%filter_In.
      by apply negb_true_iff, Z.eqb_neq in Hne. }
    assert (Hin : note_marker n ∈ markers_on (n_page_number n) s').
    { rewrite Hon. unfold markers_of_cache. apply elem_of_app. left.
      apply list_elem_of_fmap_2, list_elem_of_In, filter_In.
      split; [by apply list_elem_of_In|apply Z.eqb_refl]. }
    split_and!; [exact Hcache|exact Hin|].
    intros Hsync. unfold in_sync in Hsync. rewrite Hsync in Hin.
    unfold markers_of_cache in Hin. apply elem_of_app in Hin as [Hin|Hin].
    + apply list_elem_of_fmap in Hin as (n' & Heq & Hin).
      apply list_elem_of_In, filter_In in Hin as [Hin _].
      apply list_elem_of_In, Hcache in Hin. unfold note_marker in Heq. congruence.
    + by apply list_elem_of_fmap in Hin as (h & Heq & _).
  - intros h el d Hh Hc Hp Hd s'.
    set (s1 := deleteHighlight (h_id h) el true s).
    assert (Hon : markers_on (h_page_number h) s' = markers_of_cache (h_page_number h) s1).
    { apply (repaint_outruns_removal view _ s1 el is_highlight_marker).
      - exact Hp.
      - apply (children_ids_below _ _ _ Hids Hc).
      - by intros [].
      - unfold s', run. cbn [foldl step]. fold s1. unfold highlight_deleted, turning.
        simpl. rewrite Hd. done. }
    assert (Hcache : ∀ h', h' ∈ allHighlights s' → h_id h' ≠ h_id h).
    { unfold s', run. cbn [foldl step]. fold s1. unfold highlight_deleted. simpl.
      rewrite Hd. simpl. intros h' [_ Hne]%list_elem_of_In%filter_In.
      by apply negb_true_iff, Z.eqb_neq in Hne. }
    assert (Hin : highlight_marker h ∈ markers_on (h_page_number h) s').
    { rewrite Hon. unfold markers_of_cache. apply elem_of_app. right.
      apply list_elem_of_fmap_2, list_elem_of_In, filter_In.
      split; [by apply list_elem_of_In|apply Z.eqb_refl]. }
    split_and!; [exact Hcache|exact Hin|].
    intros Hsync. unfold in_sync in Hsync. rewrite Hsync in Hin.
    unfold markers_of_cache in Hin. apply elem_of_app in Hin as [Hin|Hin].
    + by apply list_elem_of_fmap in Hin as (n & Heq & _).
    + apply list_elem_of_fmap in Hin as (h' & Heq & Hin).
      apply list_elem_of_In, filter_In in Hin as [Hin _].
      apply list_elem_of_In, Hcache in Hin. unfold highlight_marker in Heq. congruence.
Qed.

(** C4, run: the viewer starts on page 0 with one note; the delete control
    of its marker, node 0, is clicked and confirmed; a turn repaints the
    page; the response reports success. *)
Lemma C4_repaint_keeps_the_marker_of_a_deleted_entry_witness :
  let s' :=
    run 10 (run 10 (initial [0; 1; 2; 3]%Z demo_toolbar) demo_started)
      [DeleteNote 1 0 true; Turning [1]%Z;
       NoteDeleted 1 0 (Fulfilled (mkReply true 0 None))] in
  (∀ n', n' ∈ allNotes s' → n_id n' ≠ 1%Z)
  ∧ note_marker demo_note ∈ markers_on 0 s'
  ∧ ¬ in_sync 0 s'.
Proof.
  refine (proj1 (C4_repaint_keeps_the_marker_of_a_deleted_entry
                   10 [0; 1; 2; 3]%Z demo_toolbar demo_started [1]%Z)
            demo_note 0 (mkReply true 0 None) _ _ _ _).
  - vm_compute. left.
  - vm_compute. left.
  - unfold painted. split; [|split].
    + apply (bool_decide_unpack _). vm_compute. exact I.
    + simpl. lia.
    + vm_compute. eauto.
  - reflexivity.
Defined.
End DeleteRace.

(** ** Gestures in browse mode, and rendering plain text *)

Section BrowseAndRender.
Import JsNum Viewer ViewerInv Navigation.

(** X15.  In browse mode with no drag in progress, the annotation handlers
    ignore the gestures on a page and the swipe handlers take them.  After
    any sequence of clicks, presses, moves and releases on annotation
    layers the state of the viewer is the one before: mode, colour, cache,
    document, drag, toolbar and trace.  A press that is not on an
    interactive element arms the swipe at its position, whatever the swipe
    was, and the release that follows turns the page as the threshold of
    100 pixels says. *)
Theorem X15_browse_gestures_are_swipes K s evs e e' w :
  truthy (currentMode s) = false → highlightStart s = None →
  Forall (λ ev, layer_gesture ev = true) evs →
  run K s evs = s
  ∧ pointer_down false e (run K s evs) w = mkSwipe (startX_of e) true
  ∧ (pointer_up e' (pointer_down false e (run K s evs) w)).2
    = if gtb (sub (startX_of e) (endX_of e')) (of_Z 100) then [turn_next]
      else if gtb (sub (endX_of e') (startX_of e)) (of_Z 100) then [turn_previous]
      else [].
Proof.
  intros Hmode Hdrag Hevs.
  assert (Hrun : run K s evs = s).
  { induction Hevs as [|ev evs Hev _ IH]; simpl; [done|].
    assert (step K s ev = s) as ->; [|done].
    destruct ev; try done; simpl.
    - unfold layer_click. by rewrite Hmode.
    - unfold mousedown_layer. destruct (currentMode s) as [m|]; [|done].
      rewrite bool_decide_false; [done|]. intros [= ->]. done.
    - unfold mousemove. by rewrite Hdrag.
    - unfold mouseup. by rewrite Hdrag. }
  rewrite Hrun.
  assert (Hdown : pointer_down false e s w = mkSwipe (startX_of e) true).
  { unfold pointer_down. by rewrite Hmode. }
  rewrite Hdown. split_and!; [done|done|].
  by rewrite pointer_up_armed.
Qed.

(** X15, run: a click, a press, a move and a release on [demo_state], and
    a mouse swipe of 150 pixels to the left. *)
Lemma X15_browse_gestures_are_swipes_witness :
  let evs :=
    [LayerClick 0 (mouse_at 100 140) demo_box (Some "hi");
     MouseDown 0 (mouse_at 300 300) demo_box; MouseMove (mouse_at 150 300);
     MouseUp (mouse_at 150 300) demo_box] in
  run 10 demo_state evs = demo_state
  ∧ (pointer_up (mouse_at 150 300)
       (pointer_down false (mouse_at 300 300) (run 10 demo_state evs)
          (mkSwipe (of_Z 0) false))).2 = [turn_next].
Proof.
  intros evs.
  destruct (X15_browse_gestures_are_swipes 10 demo_state evs
              (mouse_at 300 300) (mouse_at 150 300) (mkSwipe (of_Z 0) false))
    as (Hrun & _ & Hturn); [reflexivity|reflexivity|repeat constructor|].
  split; [exact Hrun|]. etrans; [exact Hturn|reflexivity].
Defined.

(** X30.  Rendering plain text is idempotent.  When the contents and the
    colours of the cache are plain: after [loadAnnotations] the page shows
    exactly the markers of the cache for that page, one for each note of
    the page followed by one for each highlight of the page, and running
    it a second time leaves the layer as it was after the first.  The same
    holds for [load]: every page it repaints shows the markers of the
    cache, once each, and loading the same view twice in a row leaves
    every layer as loading it once does.  Rendering does not change the
    cache. *)
Theorem X30_render_plain_text_idempotent :
  (∀ s p, plain_cache s = true → is_Some (pages s !! p) →
     let s1 := loadAnnotations p p s in
     let s2 := loadAnnotations p p s1 in
     markers_on p s1 = markers_of_cache p s
     ∧ markers_on p s2 = markers_of_cache p s
     ∧ anonymous <$> children p s2 = anonymous <$> children p s1)
  ∧ (∀ view s p, plain_cache s = true → painted view p s →
     markers_on p (load view s) = markers_of_cache p s
     ∧ markers_on p (load view (load view s)) = markers_of_cache p s)
  ∧ (∀ view s p, plain_cache s = true →
     anonymous <$> children p (load view (load view s))
     = anonymous <$> children p (load view s))
  ∧ (∀ view s,
     allNotes (load view s) = allNotes s ∧ allHighlights (load view s) = allHighlights s).
Proof.
  split_and!.
  - intros s p _ Hp. cbv zeta.
    assert (is_Some (pages (loadAnnotations p p s) !! p)) as Hp'
      by (by apply loadAnnotations_is_Some).
    split_and!.
    + by apply loadAnnotations_markers.
    + rewrite loadAnnotations_markers by done.
      apply markers_of_cache_dom_only, loadAnnotations_dom_only.
    + rewrite (loadAnnotations_children p (loadAnnotations p p s)) by done.
      rewrite <- remove_is_marker_anonymous, !loadAnnotations_children by done.
      unfold remove at 1. rewrite List.filter_app.
      fold (remove is_marker (markers_of_cache p s)).
      fold (remove is_marker (anonymous <$> remove is_marker (children p s))).
      rewrite remove_is_marker_cache, app_nil_r.
      rewrite remove_is_marker_anonymous, remove_is_marker_idemp.
      f_equal. apply markers_of_cache_dom_only, loadAnnotations_dom_only.
  - intros view s p _ Hp. split; [by apply load_markers|].
    rewrite load_markers.
    + apply markers_of_cache_dom_only, load_dom_only.
    + destruct Hp as (?&?&?). repeat split; try done. by apply load_is_Some.
  - intros. apply load_twice.
  - intros view s. by destruct (load_dom_only view s) as (_&_&?&?&_).
Qed.

(** X30, run: the cache holds one note and one highlight of page 0; the
    view [0; 1] of the cover is loaded twice, and page 0 is rendered
    twice. *)
Lemma X30_render_plain_text_idempotent_witness :
  markers_on 0 (load [0; 1]%Z (load [0; 1]%Z demo_cached))
  = [NoteMarker 0 (of_Z 10) (of_Z 20) "hi" 1;
     HighlightMarker 0 "highlight-green"
       (mkCoordinates (of_Z 5) (of_Z 5) (of_Z 30) (of_Z 10)) 2]
  ∧ markers_on 0 (loadAnnotations 0 0 (loadAnnotations 0 0 demo_cached))
    = [NoteMarker 0 (of_Z 10) (of_Z 20) "hi" 1;
       HighlightMarker 0 "highlight-green"
         (mkCoordinates (of_Z 5) (of_Z 5) (of_Z 30) (of_Z 10)) 2].
Proof.
  destruct X30_render_plain_text_idempotent as (Hpage & Hload & _). split.
  - destruct (Hload [0; 1]%Z demo_cached 0%Z) as [_ H]; [reflexivity| |].
    + unfold painted. split; [|split].
      * apply (bool_decide_unpack _). vm_compute. exact I.
      * lia.
      * vm_compute. eauto.
    + etrans; [exact H|reflexivity].
  - destruct (Hpage demo_cached 0%Z) as (_ & H & _); [reflexivity| |].
    + vm_compute. eauto.
    + etrans; [exact H|reflexivity].
Defined.
End BrowseAndRender.
